(** * Tax Deductible Tracker: the record store, the expense ledger and the
      query engine, embedded from [scripts/database.js] ([Database]),
      [scripts/backup.js] ([BackupManager]), the [ExpenseManager] class in
      its revision with year, quarter and range filters, and the
      [DashboardManager] class.

    Conventions of the embedding.
    - A JavaScript object used as a struct is a record whose fields are all
      optional: [None] is an absent ([undefined]) property.  The value [null]
      that [FormData.get] gives for a missing control is read the same way;
      every test the code makes on such a field ([!x], [x || '']) treats the
      two alike.
    - A JavaScript string is a Rocq [string] holding its UTF-8 bytes.
    - A number stored in a field is a rational ([Q]): the binary64 rounding
      of products and sums is not modelled.  [NaN] appears where the code can
      produce it, as the result of [parseFloat] or of arithmetic on an absent
      field ([number]).
    - An IndexedDB object store is a finite map from keys to records together
      with its key generator; [getAll] lists the records by ascending key.
    - Each [async] method is a computation in a state-and-exception monad
      over the whole database and the clock. *)

From Stdlib Require Import ZArith QArith List String Ascii Lia Lqa Bool.
From stdpp Require Import gmap strings list fin_maps sorting.

Local Open Scope Z_scope.

(* ===================================================================== *)
(** * Part I: definitions *)
(* ===================================================================== *)

(** ** The host: strings, numbers and dates of the JavaScript runtime *)

Module Js.

Definition code (c : ascii) : N := N_of_ascii c.

(** WhiteSpace and LineTerminator of ECMAScript, by UTF-8 length: TAB, LF,
    VT, FF, CR, SP; U+00A0; U+1680, U+2000..U+200A, U+2028, U+2029, U+202F,
    U+205F, U+3000, U+FEFF. *)
Definition isSpace1 (a : ascii) : bool :=
  existsb (N.eqb (code a)) [9; 10; 11; 12; 13; 32]%N.

Definition isSpace2 (a b : ascii) : bool :=
  ((code a =? 194) && (code b =? 160))%N.

Definition isSpace3 (a b c : ascii) : bool :=
  (((code a =? 225) && (code b =? 154) && (code c =? 128))
   || ((code a =? 226) && (code b =? 128)
       && (((128 <=? code c) && (code c <=? 138))
           || (code c =? 168) || (code c =? 169) || (code c =? 175)))
   || ((code a =? 226) && (code b =? 129) && (code c =? 159))
   || ((code a =? 227) && (code b =? 128) && (code c =? 128))
   || ((code a =? 239) && (code b =? 187) && (code c =? 191)))%N.

Fixpoint trimStart (s : string) : string :=
  match s with
  | EmptyString => EmptyString
  | String a s1 =>
      if isSpace1 a then trimStart s1 else
      match s1 with
      | EmptyString => s
      | String b s2 =>
          if isSpace2 a b then trimStart s2 else
          match s2 with
          | EmptyString => s
          | String c s3 => if isSpace3 a b c then trimStart s3 else s
          end
      end
  end.

Definition isEmpty (s : string) : bool :=
  match s with EmptyString => true | String _ _ => false end.

Fixpoint trimEnd (s : string) : string :=
  match s with
  | EmptyString => EmptyString
  | String a s1 =>
      if isEmpty (trimStart s) then EmptyString else String a (trimEnd s1)
  end.

(** [String.prototype.trim] *)
Definition trim (s : string) : string := trimEnd (trimStart s).

Fixpoint startsWith (s p : string) : bool :=
  match p, s with
  | EmptyString, _ => true
  | String _ _, EmptyString => false
  | String a p1, String b s1 => Ascii.eqb a b && startsWith s1 p1
  end.

(** [String.prototype.includes] *)
Fixpoint includes (s p : string) : bool :=
  startsWith s p
  || match s with
     | EmptyString => false
     | String _ s1 => includes s1 p
     end.

(** Truthiness of a string-valued property: absent and [''] are falsy. *)
Definition truthyStr (v : option string) : bool :=
  match v with
  | Some s => negb (isEmpty s)
  | None => false
  end.

(** The element of [Array.prototype.join]: absent gives the empty string. *)
Definition joinItem (v : option string) : string :=
  match v with Some s => s | None => EmptyString end.

(** [[a, b, c, d].join(' ')] *)
Definition join4 (a b c d : option string) : string :=
  (joinItem a ++ " " ++ joinItem b ++ " " ++ joinItem c ++ " " ++ joinItem d)%string.

(** *** Numbers
    A number is [NaN] or a rational: sums, products and quotients are exact
    here, where the language rounds each to a binary64 value.  An equality
    between a stored number and the same expression evaluated again is
    untouched by that; an order between two different expressions need not
    be.  The only orders stated below bound a sum or an average of values
    that lie between 0 and 100 by those same constants, and rounding to
    the nearest value, which is monotone, keeps such bounds. *)

Inductive number : Type :=
| NaN
| Num (q : Q).

(** ToNumber of a numeric property: [undefined] is [NaN]. *)
Definition toNumber (v : option Q) : number :=
  match v with Some q => Num q | None => NaN end.

(** [a + b] on numbers *)
Definition add (a b : number) : number :=
  match a, b with
  | Num x, Num y => Num (x + y)
  | _, _ => NaN
  end.

(** [x || 0] for a number [x]: [NaN] and zero are falsy. *)
Definition orZero (x : number) : Q :=
  match x with
  | NaN => 0%Q
  | Num q => if Qeq_bool q 0 then 0%Q else q
  end.

Definition Qltb (x y : Q) : bool := negb (Qle_bool y x).

(** *** Dates
    A [Date] is its time value in milliseconds since the epoch, [None] for
    an Invalid Date.  Days are counted in the proleptic Gregorian calendar. *)

Definition msPerDay : Z := 86400000.

Definition days_from_civil (y m d : Z) : Z :=
  let y' := if m <=? 2 then y - 1 else y in
  let era := y' / 400 in
  let yoe := y' - era * 400 in
  let mp := if 2 <? m then m - 3 else m + 9 in
  let doy := (153 * mp + 2) / 5 + d - 1 in
  let doe := yoe * 365 + yoe / 4 - yoe / 100 + doy in
  era * 146097 + doe - 719468.

Definition civil_from_days (z : Z) : Z * Z * Z :=
  let z' := z + 719468 in
  let era := z' / 146097 in
  let doe := z' - era * 146097 in
  let yoe := (doe - doe / 1460 + doe / 36524 - doe / 146096) / 365 in
  let doy := doe - (365 * yoe + yoe / 4 - yoe / 100) in
  let mp := (5 * doy + 2) / 153 in
  let d := doy - (153 * mp + 2) / 5 + 1 in
  let m := if mp <? 10 then mp + 3 else mp - 9 in
  let y := yoe + era * 400 in
  (if m <=? 2 then y + 1 else y, m, d).

Definition isLeap (y : Z) : bool :=
  ((y mod 4 =? 0) && negb (y mod 100 =? 0)) || (y mod 400 =? 0).

Definition daysInMonth (y m : Z) : Z :=
  if m =? 2 then (if isLeap y then 29 else 28)
  else if (m =? 4) || (m =? 6) || (m =? 9) || (m =? 11) then 30
  else 31.

Definition digit (c : ascii) : option Z :=
  let n := Z.of_N (code c) in
  if (48 <=? n) && (n <=? 57) then Some (n - 48) else None.

Definition isDash (c : ascii) : bool := (code c =? 45)%N.

(** The date-only ISO form [YYYY-MM-DD], the value of an
    [<input type="date">]; every other text gives an Invalid Date. *)
Definition parseIsoDate (s : string) : option (Z * Z * Z) :=
  match list_ascii_of_string s with
  | [y1; y2; y3; y4; h1; m1; m2; h2; d1; d2] =>
      a ← digit y1; b ← digit y2; c ← digit y3; d ← digit y4;
      e ← digit m1; f ← digit m2; g ← digit d1; h ← digit d2;
      let y := ((a * 10 + b) * 10 + c) * 10 + d in
      let m := e * 10 + f in
      let dd := g * 10 + h in
      if isDash h1 && isDash h2 && (1 <=? m) && (m <=? 12)
         && (1 <=? dd) && (dd <=? daysInMonth y m)
      then Some (y, m, dd) else None
  | _ => None
  end.

(** [new Date(text)]: a date-only form is midnight UTC of that day. *)
Definition newDate (v : option string) : option Z :=
  s ← v;
  '(y, m, d) ← parseIsoDate s;
  Some (days_from_civil y m d * msPerDay).

(** Decimal digits of [n], least significant last, on [w] places *)
Fixpoint pad (w : nat) (n : Z) : string :=
  match w with
  | O => EmptyString
  | S w' =>
      (pad w' (n / 10)
       ++ String (ascii_of_N (Z.to_N (48 + n mod 10))) EmptyString)%string
  end.

(** [Date.prototype.toISOString] of a valid date: four-digit years, and
    the signed six-digit form outside 0..9999 *)
Definition toISOString (t : Z) : string :=
  let '(y, m, d) := civil_from_days (t / msPerDay) in
  let r := t mod msPerDay in
  let sign := if y <? 0 then "-"%string else "+"%string in
  let year :=
    if (0 <=? y) && (y <=? 9999) then pad 4 y
    else (sign ++ pad 6 (Z.abs y))%string in
  (year ++ "-" ++ pad 2 m ++ "-" ++ pad 2 d
   ++ "T" ++ pad 2 (r / 3600000) ++ ":" ++ pad 2 (r / 60000 mod 60)
   ++ ":" ++ pad 2 (r / 1000 mod 60) ++ "." ++ pad 3 (r mod 1000)
   ++ "Z")%string.

(** What the browser supplies: the offset of local time from UTC in
    minutes (taken constant), the clock read by [new Date()], Unicode
    lower-casing and [parseFloat]. *)
Class Host : Type := {
  tzOffset : Z;
  clock : nat -> Z;
  toLowerCase : string -> string;
  parseFloat : option string -> number
}.

Section Local.
Context `{Host}.

Definition localDay (t : Z) : Z := (t + tzOffset * 60000) / msPerDay.

(** [getFullYear()] and [getMonth()] (0-based), [NaN] on an Invalid Date *)
Definition getFullYear (d : option Z) : option Z :=
  t ← d; Some (civil_from_days (localDay t)).1.1.

Definition getMonth (d : option Z) : option Z :=
  t ← d; Some ((civil_from_days (localDay t)).1.2 - 1).

(** [setHours(h, m, s, ms)]: same local day, given local time of day *)
Definition setHours (h m s ms : Z) (d : option Z) : option Z :=
  t ← d;
  Some (localDay t * msPerDay + ((h * 60 + m) * 60 + s) * 1000 + ms
        - tzOffset * 60000).
End Local.

(** [a < b] and [a > b] on dates compare time values; false with [NaN]. *)
Definition dateLt (a b : option Z) : bool :=
  match a, b with Some x, Some y => x <? y | _, _ => false end.

Definition dateGt (a b : option Z) : bool := dateLt b a.

(** [x !== n] for [x] a getter result and [n] a number *)
Definition numNe (x : option Z) (n : Z) : bool :=
  match x with Some v => negb (v =? n) | None => true end.



Definition digitChar (n : Z) : string :=
  String (ascii_of_N (Z.to_N (48 + n))) EmptyString.


(** [Array.prototype.sort(cmp)] for a comparator that orders its arguments
    consistently: the sort is stable, an element goes before the first one
    it does not have to follow. *)
Fixpoint insertBy {A : Type} (cmp : A -> A -> Z) (x : A) (l : list A)
  : list A :=
  match l with
  | [] => [x]
  | y :: l' => if cmp x y <=? 0 then x :: l else y :: insertBy cmp x l'
  end.

Definition sortBy {A : Type} (cmp : A -> A -> Z) (l : list A) : list A :=
  foldr (insertBy cmp) [] l.

(** [x < y] on two properties of the same kind; false when one is absent *)
Definition optLt {A : Type} (lt : A -> A -> bool) (x y : option A) : bool :=
  match x, y with
  | Some a, Some b => lt a b
  | _, _ => false
  end.

(** Value of a digit in radix 10 or 16 *)
Definition digitIn (radix : Z) (c : ascii) : option Z :=
  let n := Z.of_N (code c) in
  if (48 <=? n) && (n <=? 57) then Some (n - 48)
  else if (radix =? 16) && (97 <=? n) && (n <=? 102) then Some (n - 87)
  else if (radix =? 16) && (65 <=? n) && (n <=? 70) then Some (n - 55)
  else None.

(** Value of the leading digits of [s] after [acc]; [None] without one *)
Fixpoint leadingDigits (radix : Z) (s : string) (acc : option Z)
  : option Z :=
  match s with
  | EmptyString => acc
  | String c s' =>
      match digitIn radix c with
      | Some d => leadingDigits radix s' (Some (default 0 acc * radix + d))
      | None => acc
      end
  end.

(** [parseInt(text)] without a radix: leading blanks, a sign, [0x] for
    hexadecimal, then digits; [None] is [NaN]. *)
Definition parseInt (text : string) : option Z :=
  let s := trimStart text in
  let '(sign, s) :=
    match s with
    | String c s' =>
        if (code c =? 45)%N then (-1, s')
        else if (code c =? 43)%N then (1, s')
        else (1, s)
    | EmptyString => (1, s)
    end in
  let '(radix, s) :=
    match s with
    | String a (String b s') =>
        if (code a =? 48)%N && ((code b =? 120)%N || (code b =? 88)%N)
        then (16, s') else (10, s)
    | _ => (10, s)
    end in
  (fun n => sign * n) <$> leadingDigits radix s None.

(** [String(n)] for an integer [n] that prints without an exponent (below
    [10^21] in magnitude): its decimal digits, after a minus sign when it is
    negative.  This is what a template literal puts in place of [${n}]. *)
Fixpoint decimalDigits (fuel : nat) (n : Z) : string :=
  match fuel with
  | O => EmptyString
  | S fuel' =>
      if n <? 10 then digitChar n
      else (decimalDigits fuel' (n / 10) ++ digitChar (n mod 10))%string
  end.

Definition numberToString (n : Z) : string :=
  if n <? 0
  then ("-" ++ decimalDigits (S (Z.to_nat (Z.log2 (- n)))) (- n))%string
  else decimalDigits (S (Z.to_nat (Z.log2 n))) n.

End Js.

Import Js.

(** ** The data model *)

(** [{...base, ...over}] on one property *)
Definition orElse {A : Type} (over base : option A) : option A :=
  match over with
  | Some _ => over
  | None => base
  end.

Module Receipt.
(** An attachment, as [receipts.js] builds it from a [File]. *)
Record t : Type := mk {
  name : string;
  type : string;
  size : Z;
  data : string;
  uploadedAt : string
}.
End Receipt.

Module Expense.
Record t : Type := mk {
  id : option Z;
  datePaid : option string;
  merchant : option string;
  expenseDetails : option string;
  expenseCategory : option string;
  expenseAmount : option Q;
  percentUsedForWork : option Q;
  deductible : option Q;
  notes : option string;
  receiptFiles : option (list Receipt.t);
  createdAt : option string;
  updatedAt : option string
}.

(** The object with no property, [{}] *)
Definition empty : t :=
  mk None None None None None None None None None None None None.

(** [{...base, ...over}] *)
Definition spread (base over : t) : t :=
  {| id := orElse (id over) (id base);
     datePaid := orElse (datePaid over) (datePaid base);
     merchant := orElse (merchant over) (merchant base);
     expenseDetails := orElse (expenseDetails over) (expenseDetails base);
     expenseCategory := orElse (expenseCategory over) (expenseCategory base);
     expenseAmount := orElse (expenseAmount over) (expenseAmount base);
     percentUsedForWork :=
       orElse (percentUsedForWork over) (percentUsedForWork base);
     deductible := orElse (deductible over) (deductible base);
     notes := orElse (notes over) (notes base);
     receiptFiles := orElse (receiptFiles over) (receiptFiles base);
     createdAt := orElse (createdAt over) (createdAt base);
     updatedAt := orElse (updatedAt over) (updatedAt base) |}.

(** [{...e, id: k}], [{...e, createdAt: t}], [{...e, updatedAt: t}] and
    the assignments [e.expenseAmount = a], [e.percentUsedForWork = p],
    [e.receiptFiles = l] *)
Definition set_id (k : Z) (e : t) : t :=
  mk (Some k) (datePaid e) (merchant e) (expenseDetails e)
     (expenseCategory e) (expenseAmount e) (percentUsedForWork e)
     (deductible e) (notes e) (receiptFiles e) (createdAt e) (updatedAt e).

Definition set_createdAt (s : string) (e : t) : t :=
  mk (id e) (datePaid e) (merchant e) (expenseDetails e)
     (expenseCategory e) (expenseAmount e) (percentUsedForWork e)
     (deductible e) (notes e) (receiptFiles e) (Some s) (updatedAt e).

Definition set_updatedAt (s : string) (e : t) : t :=
  mk (id e) (datePaid e) (merchant e) (expenseDetails e)
     (expenseCategory e) (expenseAmount e) (percentUsedForWork e)
     (deductible e) (notes e) (receiptFiles e) (createdAt e) (Some s).

Definition set_expenseAmount (a : Q) (e : t) : t :=
  mk (id e) (datePaid e) (merchant e) (expenseDetails e)
     (expenseCategory e) (Some a) (percentUsedForWork e)
     (deductible e) (notes e) (receiptFiles e) (createdAt e) (updatedAt e).

Definition set_percentUsedForWork (p : Q) (e : t) : t :=
  mk (id e) (datePaid e) (merchant e) (expenseDetails e)
     (expenseCategory e) (expenseAmount e) (Some p)
     (deductible e) (notes e) (receiptFiles e) (createdAt e) (updatedAt e).

Definition set_receiptFiles (l : list Receipt.t) (e : t) : t :=
  mk (id e) (datePaid e) (merchant e) (expenseDetails e)
     (expenseCategory e) (expenseAmount e) (percentUsedForWork e)
     (deductible e) (notes e) (Some l) (createdAt e) (updatedAt e).
End Expense.

Module Category.
Record t : Type := mk {
  id : option Z;
  name : option string;
  color : option string;
  icon : option string
}.

Definition set_id (k : Z) (c : t) : t :=
  mk (Some k) (name c) (color c) (icon c).

(** [c.name === n] *)
Definition named (n : string) (c : t) : bool :=
  bool_decide (name c = Some n).
End Category.

Module Snapshot.
(** The backup document of [exportData]. *)
Record t : Type := mk {
  expenses : option (list Expense.t);
  categories : option (list Category.t);
  exportDate : option string;
  version : option Z
}.
End Snapshot.

(** ** The expense ledger ([ExpenseManager], validation and derivation) *)

Module ExpenseManager.

Definition calculateDeductible (expenseAmount percentUsedForWork : Q) : Q :=
  (expenseAmount * percentUsedForWork / 100)%Q.

(** [!s || s.trim() === ''] *)
Definition blank (v : option string) : bool :=
  negb (truthyStr v)
  || match v with
     | Some s => isEmpty (trim s)
     | None => false
     end.

(** [!a || a <= 0] *)
Definition badAmount (v : option Q) : bool :=
  match v with
  | None => true
  | Some a => Qeq_bool a 0 || Qle_bool a 0
  end.

(** [p === undefined || p < 0 || p > 100] *)
Definition badPercent (v : option Q) : bool :=
  match v with
  | None => true
  | Some p => Qltb p 0 || Qltb 100 p
  end.

(** [if (c) errors.push(m)] *)
Definition pushIf (c : bool) (m : string) (errors : list string)
  : list string :=
  if c then errors ++ [m] else errors.

Definition validateExpense (expense : Expense.t) : list string :=
  let errors := [] in
  let errors :=
    pushIf (negb (truthyStr (Expense.datePaid expense)))
           "Date Paid is required" errors in
  let errors :=
    pushIf (blank (Expense.merchant expense))
           "Merchant is required" errors in
  let errors :=
    pushIf (blank (Expense.expenseDetails expense))
           "Expense Details is required" errors in
  let errors :=
    pushIf (negb (truthyStr (Expense.expenseCategory expense)))
           "Expense Category is required" errors in
  let errors :=
    pushIf (badAmount (Expense.expenseAmount expense))
           "Expense Amount must be greater than 0" errors in
  let errors :=
    pushIf (badPercent (Expense.percentUsedForWork expense))
           "% Used for Work must be between 0 and 100" errors in
  errors.

(** [FormData]: [get] on a control name *)
Definition FormData : Type := string -> option string.

Definition createExpenseFromForm `{Host} (formData : FormData) : Expense.t :=
  let expenseAmount := orZero (parseFloat (formData "expenseAmount"%string)) in
  let percentUsedForWork :=
    orZero (parseFloat (formData "percentUsedForWork"%string)) in
  {| Expense.id := None;
     Expense.datePaid := formData "datePaid"%string;
     Expense.merchant := formData "merchant"%string;
     Expense.expenseDetails := formData "expenseDetails"%string;
     Expense.expenseCategory := formData "expenseCategory"%string;
     Expense.expenseAmount := Some expenseAmount;
     Expense.percentUsedForWork := Some percentUsedForWork;
     Expense.deductible :=
       Some (calculateDeductible expenseAmount percentUsedForWork);
     Expense.notes :=
       Some (if truthyStr (formData "notes"%string)
             then joinItem (formData "notes"%string) else ""%string);
     Expense.receiptFiles := Some [];
     Expense.createdAt := None;
     Expense.updatedAt := None |}.

(** The filter state of the ledger view.  [year] and [quarter] are [None]
    for the choice ['all'] and otherwise carry [parseInt] of the chosen
    value. *)
Module Filter.
Record t : Type := mk {
  category : string;
  year : option Z;
  quarter : option Z;
  dateFrom : string;
  dateTo : string;
  searchTerm : string
}.
End Filter.

Section Filtering.
Context `{Host}.

(** The search test, reached when no earlier test returned [false] *)
Definition searchStep (f : Filter.t) (expense : Expense.t) : bool :=
  if negb (isEmpty (Filter.searchTerm f)) then
    let searchLower := toLowerCase (Filter.searchTerm f) in
    let searchableText :=
      toLowerCase (join4 (Expense.merchant expense)
                         (Expense.expenseDetails expense)
                         (Expense.expenseCategory expense)
                         (Expense.notes expense)) in
    if negb (includes searchableText searchLower) then false else true
  else true.

(** The callback of [expenses.filter] *)
Definition keeps (f : Filter.t) (expense : Expense.t) : bool :=
  if negb (String.eqb (Filter.category f) "all")
     && negb (bool_decide (Expense.expenseCategory expense
                           = Some (Filter.category f)))
  then false
  else
    let expenseDate := newDate (Expense.datePaid expense) in
    if negb (isEmpty (Filter.dateFrom f)) && negb (isEmpty (Filter.dateTo f))
    then
      let fromDate := setHours 0 0 0 0 (newDate (Some (Filter.dateFrom f))) in
      let toDate := setHours 23 59 59 999 (newDate (Some (Filter.dateTo f))) in
      if dateLt expenseDate fromDate || dateGt expenseDate toDate
      then false
      else searchStep f expense
    else
      match Filter.year f with
      | Some year =>
          if numNe (getFullYear expenseDate) year then false
          else
            match Filter.quarter f with
            | Some quarter =>
                let expenseQuarter :=
                  (fun m => m / 3 + 1) <$> getMonth expenseDate in
                if numNe expenseQuarter quarter then false
                else searchStep f expense
            | None => searchStep f expense
            end
      | None => searchStep f expense
      end.

Definition filterExpenses (f : Filter.t) (expenses : list Expense.t)
  : list Expense.t :=
  List.filter (keeps f) expenses.
(** The sort state of the ledger view *)
Record Sort : Type := mkSort {
  field : string;
  order : string
}.

(** [a[field] < b[field]], after [new Date(...)] on both for ['datePaid'].
    Texts compare by their bytes, which is the order of their code points
    (the order of the language, by code units, differs from it only between
    a character from U+E000 to U+FFFF and one beyond U+FFFF); an array
    compares as its text does, that is by its length; a name that is no
    property compares as [undefined]. *)
Definition propLt (field : string) (a b : Expense.t) : bool :=
  if String.eqb field "datePaid" then
    dateLt (newDate (Expense.datePaid a)) (newDate (Expense.datePaid b))
  else if String.eqb field "id" then
    optLt Z.ltb (Expense.id a) (Expense.id b)
  else if String.eqb field "merchant" then
    optLt String.ltb (Expense.merchant a) (Expense.merchant b)
  else if String.eqb field "expenseDetails" then
    optLt String.ltb (Expense.expenseDetails a) (Expense.expenseDetails b)
  else if String.eqb field "expenseCategory" then
    optLt String.ltb (Expense.expenseCategory a) (Expense.expenseCategory b)
  else if String.eqb field "expenseAmount" then
    optLt Qltb (Expense.expenseAmount a) (Expense.expenseAmount b)
  else if String.eqb field "percentUsedForWork" then
    optLt Qltb (Expense.percentUsedForWork a) (Expense.percentUsedForWork b)
  else if String.eqb field "deductible" then
    optLt Qltb (Expense.deductible a) (Expense.deductible b)
  else if String.eqb field "notes" then
    optLt String.ltb (Expense.notes a) (Expense.notes b)
  else if String.eqb field "receiptFiles" then
    optLt (fun x y : list Receipt.t => Z.of_nat (length x) <? Z.of_nat (length y))
          (Expense.receiptFiles a) (Expense.receiptFiles b)
  else if String.eqb field "createdAt" then
    optLt String.ltb (Expense.createdAt a) (Expense.createdAt b)
  else if String.eqb field "updatedAt" then
    optLt String.ltb (Expense.updatedAt a) (Expense.updatedAt b)
  else false.

(** The comparator of [sortExpenses] *)
Definition compareBy (s : Sort) (a b : Expense.t) : Z :=
  if propLt (field s) a b then
    (if String.eqb (order s) "asc" then -1 else 1)
  else if propLt (field s) b a then
    (if String.eqb (order s) "asc" then 1 else -1)
  else 0.

Definition sortExpenses (s : Sort) (expenses : list Expense.t)
  : list Expense.t :=
  sortBy (compareBy s) expenses.

End Filtering.

End ExpenseManager.

(** ** The dashboard's monthly trend ([DashboardManager]) *)

Module DashboardManager.



Section Trend.
Context `{Host}.




(** The table [quarters] of [filterByQuarter]: first and last month *)
Definition quarterMonths (quarter : Z) : option (Z * Z) :=
  if quarter =? 1 then Some (0, 2)
  else if quarter =? 2 then Some (3, 5)
  else if quarter =? 3 then Some (6, 8)
  else if quarter =? 4 then Some (9, 11)
  else None.

(** [x >= n] and [x <= n] for [x] a getter result; false with [NaN] *)
Definition numGe (x : option Z) (n : Z) : bool :=
  match x with Some v => n <=? v | None => false end.

Definition numLe (x : option Z) (n : Z) : bool :=
  match x with Some v => v <=? n | None => false end.

(** [None] is the TypeError of destructuring [quarters[quarter]] when the
    table has no such quarter. *)
Definition filterByQuarter (expenses : list Expense.t) (year quarter : Z)
  : option (list Expense.t) :=
  '(first, last) ← quarterMonths quarter;
  Some (List.filter
          (fun exp =>
             let date := newDate (Expense.datePaid exp) in
             negb (numNe (getFullYear date) year)
             && numGe (getMonth date) first
             && numLe (getMonth date) last)
          expenses).

End Trend.

End DashboardManager.

(** ** The record store ([Database]) *)

Module Idb.

(** An object store with in-line keys ([keyPath: 'id']) and a key
    generator ([autoIncrement: true]). *)
Record ObjectStore (A : Type) : Type := mkStore {
  records : gmap Z A;
  keyGen : Z
}.
Arguments mkStore {A} _ _.
Arguments records {A} _.
Arguments keyGen {A} _.

(** Reading and writing the key path of a stored value *)
Class Keyed (A : Type) : Type := {
  keyOf : A -> option Z;
  withKey : Z -> A -> A
}.

Definition keyLe {A : Type} (x y : Z * A) : Prop := x.1 ≤ y.1.

#[global] Instance keyLe_dec {A : Type} : RelDecision (@keyLe A).
Proof. intros x y. unfold keyLe. apply _. Defined.

Section Store.
Context {A : Type} `{Keyed A}.

(** A store as [createObjectStore] leaves it *)
Definition created : ObjectStore A := mkStore ∅ 1.

(** The generator moves past every key it sees. *)
Definition bump (k gen : Z) : Z := Z.max gen (k + 1).

(** [store.add(v)]: the key is the value's own [id], or a generated one
    written into the value; [None] is a ConstraintError (key taken, or
    [violates] reports a unique index), which leaves the store as it
    was. *)
Definition add (violates : A -> gmap Z A -> bool) (v : A)
           (s : ObjectStore A) : option (Z * ObjectStore A) :=
  let k := default (keyGen s) (keyOf v) in
  let v' := withKey k v in
  match records s !! k with
  | Some _ => None
  | None =>
      if violates v' (records s) then None
      else Some (k, mkStore (<[k := v']> (records s)) (bump k (keyGen s)))
  end.

(** [store.put(v)]: as [add], replacing the record under the key. *)
Definition put (violates : A -> gmap Z A -> bool) (v : A)
           (s : ObjectStore A) : option (Z * ObjectStore A) :=
  let k := default (keyGen s) (keyOf v) in
  let v' := withKey k v in
  if violates v' (delete k (records s)) then None
  else Some (k, mkStore (<[k := v']> (records s)) (bump k (keyGen s))).

Definition get (k : Z) (s : ObjectStore A) : option A := records s !! k.

(** [store.getAll()]: every record, by ascending key *)
Definition getAll (s : ObjectStore A) : list A :=
  (merge_sort keyLe (map_to_list (records s))).*2.

Definition delete (k : Z) (s : ObjectStore A) : ObjectStore A :=
  mkStore (base.delete k (records s)) (keyGen s).

(** [store.clear()] removes the records and keeps the generator. *)
Definition clear (s : ObjectStore A) : ObjectStore A :=
  mkStore ∅ (keyGen s).

(** What IndexedDB maintains: a record carries its key in [id], and the
    generator is past every key in use. *)
Definition wf (s : ObjectStore A) : Prop :=
  ∀ k v, records s !! k = Some v → keyOf v = Some k ∧ k < keyGen s.
End Store.

(** No index of the expense store is unique. *)
Definition noUnique {A : Type} (_ : A) (_ : gmap Z A) : bool := false.

End Idb.

#[export] Instance Expense_keyed : Idb.Keyed Expense.t :=
  {| Idb.keyOf := Expense.id; Idb.withKey := Expense.set_id |}.

#[export] Instance Category_keyed : Idb.Keyed Category.t :=
  {| Idb.keyOf := Category.id; Idb.withKey := Category.set_id |}.

(** The unique index ['name'] of the category store: a record whose [name]
    is present may not repeat the [name] of a stored record. *)
Definition nameTaken (c : Category.t) (m : gmap Z Category.t) : bool :=
  match Category.name c with
  | Some n => existsb (fun kc => Category.named n kc.2) (map_to_list m)
  | None => false
  end.

(** What the unique index maintains: no two stored categories share a
    present [name]. *)
Definition uniqueNames (m : gmap Z Category.t) : Prop :=
  ∀ k1 k2 c1 c2 n,
    m !! k1 = Some c1 → m !! k2 = Some c2 →
    Category.name c1 = Some n → Category.name c2 = Some n → k1 = k2.

(** The names of [l] are present, pairwise distinct and not in [m]. *)
Definition newNames (l : list Category.t) (m : gmap Z Category.t) : Prop :=
  NoDup (Category.name <$> l)
  ∧ Forall (λ c, ∃ n, Category.name c = Some n
                      ∧ ∀ k c', m !! k = Some c' → Category.name c' ≠ Some n) l.

(** The three stores of the database [TaxDeductibleTracker] *)
Record Stores : Type := mkStores {
  expenses : Idb.ObjectStore Expense.t;
  categories : Idb.ObjectStore Category.t;
  settings : gmap string string
}.

(** The stores and the number of clock readings made so far *)
Record World : Type := mkWorld {
  stores : Stores;
  tick : nat
}.

Inductive Error : Type :=
| ConstraintError
| DataError
| NotFound (id : Z)       (* Error(`Expense with ID ${id} not found`) *)
| InvalidBackup           (* Error('Invalid backup file format') *)
| NoFileSelected          (* Error('No file selected') *)
| ImportCancelled.        (* Error('Import cancelled by user') *)

Inductive Result (A : Type) : Type :=
| Ok (a : A)
| Throw (e : Error).
Arguments Ok {A} _.
Arguments Throw {A} _.

(** An [async] method: it runs from a world, ends in a value or a rejection,
    and leaves a world. *)
Definition M (A : Type) : Type := World -> Result A * World.

#[export] Instance M_ret : MRet M := fun A a w => (Ok a, w).

#[export] Instance M_bind : MBind M := fun A B f c w =>
  match c w with
  | (Ok a, w') => f a w'
  | (Throw e, w') => (Throw e, w')
  end.

Definition throw {A : Type} (e : Error) : M A := fun w => (Throw e, w).

(** [try { c } catch (error) { h(error) }] *)
Definition catch {A : Type} (c : M A) (h : Error -> M A) : M A := fun w =>
  match c w with
  | (Ok a, w') => (Ok a, w')
  | (Throw e, w') => h e w'
  end.

(** [for (const x of l) { await f(x) }] *)
Fixpoint forEach {A : Type} (f : A -> M Z) (l : list A) : M unit :=
  match l with
  | [] => mret tt
  | x :: l' => f x ;; forEach f l'
  end.

Definition readStores : M Stores := fun w => (Ok (stores w), w).

Definition writeStores (s : Stores) : M unit := fun w =>
  (Ok tt, mkWorld s (tick w)).

(** The object that [getQuarterlyStats] resolves with, without its
    [byCategory] table *)
Module QuarterlyStats.
Record t : Type := mk {
  quarter : Z;
  year : Z;
  totalExpenses : number;
  totalDeductible : number;
  expenseCount : Z;
  expenses : list Expense.t
}.
End QuarterlyStats.

Module Database.

Definition DB_VERSION : Z := 1.

Section Methods.
Context `{Host}.

(** [new Date().toISOString()] *)
Definition nowISO : M string := fun w =>
  (Ok (toISOString (clock (tick w))), mkWorld (stores w) (S (tick w))).

Definition addExpense (expense : Expense.t) : M Z :=
  createdAt ← nowISO;
  updatedAt ← nowISO;
  let expenseData :=
    Expense.set_updatedAt updatedAt
      (Expense.set_createdAt createdAt expense) in
  s ← readStores;
  match Idb.add Idb.noUnique expenseData (expenses s) with
  | Some (key, store) =>
      writeStores (mkStores store (categories s) (settings s));;
      mret key
  | None => throw ConstraintError
  end.

Definition getExpense (id : Z) : M (option Expense.t) :=
  s ← readStores; mret (Idb.get id (expenses s)).

Definition getAllExpenses : M (list Expense.t) :=
  s ← readStores; mret (Idb.getAll (expenses s)).

Definition updateExpense (id : Z) (updates : Expense.t) : M Expense.t :=
  expense ← getExpense id;
  match expense with
  | None => throw (NotFound id)
  | Some expense =>
      now ← nowISO;
      let updatedExpense :=
        Expense.set_updatedAt now
          (Expense.set_id id (Expense.spread expense updates)) in
      s ← readStores;
      match Idb.put Idb.noUnique updatedExpense (expenses s) with
      | Some (_, store) =>
          writeStores (mkStores store (categories s) (settings s));;
          mret updatedExpense
      | None => throw ConstraintError
      end
  end.

Definition deleteExpense (id : Z) : M bool :=
  s ← readStores;
  writeStores (mkStores (Idb.delete id (expenses s)) (categories s)
                        (settings s));;
  mret true.

Definition addCategory (category : Category.t) : M Z :=
  s ← readStores;
  match Idb.add nameTaken category (categories s) with
  | Some (key, store) =>
      writeStores (mkStores (expenses s) store (settings s));;
      mret key
  | None => throw ConstraintError
  end.

Definition getAllCategories : M (list Category.t) :=
  s ← readStores; mret (Idb.getAll (categories s)).

Definition deleteCategory (id : Z) : M bool :=
  s ← readStores;
  writeStores (mkStores (expenses s) (Idb.delete id (categories s))
                        (settings s));;
  mret true.

(** [if (c) await this.deleteCategory(c.id)]; a record without [id]
    would make [store.delete(undefined)] throw. *)
Definition deleteFound (c : option Category.t) : M bool :=
  match c with
  | Some c =>
      match Category.id c with
      | Some k => deleteCategory k
      | None => throw DataError
      end
  | None => mret true
  end.

Definition furniture : Category.t :=
  Category.mk None (Some "Furniture") (Some "#ff5630") (Some "ðŸª‘").

Definition defaultCategories : list Category.t :=
  [ Category.mk None (Some "Internet") (Some "#4c9aff") (Some "ðŸŒ");
  Category.mk None (Some "Electricity") (Some "#ffab00") (Some "âš¡");
  Category.mk None (Some "Computer") (Some "#36b37e") (Some "ðŸ’»");
  Category.mk None (Some "Furniture") (Some "#ff5630") (Some "ðŸª‘");
  Category.mk None (Some "Office Supplies") (Some "#00b8d9") (Some "ðŸ“Ž");
  Category.mk None (Some "Software") (Some "#ff8b00") (Some "ðŸ’¿");
  Category.mk None (Some "Professional Services") (Some "#00875a") (Some "ðŸ¤");
  Category.mk None (Some "Travel") (Some "#5243aa") (Some "âœˆï¸");
  Category.mk None (Some "Mobile Device") (Some "#ff991f") (Some "ðŸ“±");
  Category.mk None (Some "Other") (Some "#8993a4") (Some "ðŸ“‹") ].

Definition initializeDefaultCategories : M (list Category.t) :=
  existingCategories ← getAllCategories;
  if 0 <? Z.of_nat (length existingCategories) then
    let desk := List.find (Category.named "Desk") existingCategories in
    let chair := List.find (Category.named "Chair") existingCategories in
    let furn := List.find (Category.named "Furniture") existingCategories in
    if (bool_decide (is_Some desk) || bool_decide (is_Some chair))
       && negb (bool_decide (is_Some furn))
    then
      addCategory furniture;;
      deleteFound desk;;
      deleteFound chair;;
      getAllCategories
    else mret existingCategories
  else
    forEach addCategory defaultCategories;;
    getAllCategories.

Definition setSetting (key value : string) : M bool :=
  s ← readStores;
  writeStores (mkStores (expenses s) (categories s)
                        (<[key := value]> (settings s)));;
  mret true.

Definition exportData : M Snapshot.t :=
  expenses ← getAllExpenses;
  categories ← getAllCategories;
  exportDate ← nowISO;
  mret {| Snapshot.expenses := Some expenses;
          Snapshot.categories := Some categories;
          Snapshot.exportDate := Some exportDate;
          Snapshot.version := Some DB_VERSION |}.

(** [expenseStore.clear()] then [categoryStore.clear()] *)
Definition clearBoth : M unit :=
  s ← readStores;
  writeStores (mkStores (Idb.clear (expenses s)) (Idb.clear (categories s))
                        (settings s)).

Definition importData (data : Snapshot.t) : M bool :=
  clearBoth;;
  match Snapshot.categories data with
  | Some l => forEach addCategory l
  | None => mret tt
  end;;
  match Snapshot.expenses data with
  | Some l => forEach addExpense l
  | None => mret tt
  end;;
  mret true.
(** [request.result ? request.result.value : defaultValue] *)
Definition getSetting (key : string) (defaultValue : option string)
  : M (option string) :=
  s ← readStores;
  mret (match settings s !! key with
        | Some value => Some value
        | None => defaultValue
        end).

(** [getExpensesByCategory(category)] for a text: the records that the
    index [category], on [expenseCategory], holds under that key, in the
    order of their primary keys.  A record without the property is not in
    the index. *)
Definition getExpensesByCategory (category : string) : M (list Expense.t) :=
  s ← readStores;
  mret (List.filter
          (fun e => bool_decide (Expense.expenseCategory e = Some category))
          (Idb.getAll (expenses s))).

(** [IDBKeyRange.bound(lower, upper)] on the keys of an index of texts:
    both ends are included, and a record without the property is not in the
    index.  Keys compare by their bytes, which is the order of their code
    points (IndexedDB orders texts by code units, which differs from it
    only between a character from U+E000 to U+FFFF and one beyond
    U+FFFF). *)
Definition inRange (lower upper : string) (key : option string) : bool :=
  match key with
  | Some k => String.leb lower k && String.leb k upper
  | None => false
  end.

(** The order of the index [datePaid]: by key, and records of the same key
    by primary key *)
Definition byDatePaid (a b : Expense.t) : Z :=
  match Expense.datePaid a, Expense.datePaid b with
  | Some x, Some y =>
      match String.compare x y with Lt => -1 | Eq => 0 | Gt => 1 end
  | _, _ => 0
  end.

(** [getExpensesByDateRange(startDate, endDate)] for two texts; a lower
    bound above the upper one is a DataError of [IDBKeyRange.bound]. *)
Definition getExpensesByDateRange (startDate endDate : string)
  : M (list Expense.t) :=
  if String.ltb endDate startDate then throw DataError
  else
    s ← readStores;
    mret (sortBy byDatePaid
            (List.filter
               (fun e => inRange startDate endDate (Expense.datePaid e))
               (Idb.getAll (expenses s)))).

(** The table [quarters] of [getQuarterlyStats] at [quarter], for a year
    that is an integer *)
Definition quarterRange (year quarter : Z) : option (string * string) :=
  let y := numberToString year in
  if quarter =? 1 then Some ((y ++ "-01-01")%string, (y ++ "-03-31")%string)
  else if quarter =? 2
  then Some ((y ++ "-04-01")%string, (y ++ "-06-30")%string)
  else if quarter =? 3
  then Some ((y ++ "-07-01")%string, (y ++ "-09-30")%string)
  else if quarter =? 4
  then Some ((y ++ "-10-01")%string, (y ++ "-12-31")%string)
  else None.

(** [getQuarterlyStats(year, quarter)].  [None] is the TypeError of
    destructuring [quarters[quarter]] when the table has no such quarter:
    the call rejects before the database is read. *)
Definition getQuarterlyStats (year quarter : Z)
  : option (M QuarterlyStats.t) :=
  '(start, finish) ← quarterRange year quarter;
  Some (expenses ← getExpensesByDateRange start finish;
        mret {| QuarterlyStats.quarter := quarter;
                QuarterlyStats.year := year;
                QuarterlyStats.totalExpenses :=
                  fold_left
                    (fun sum exp =>
                       add sum (toNumber (Expense.expenseAmount exp)))
                    expenses (Num 0);
                QuarterlyStats.totalDeductible :=
                  fold_left
                    (fun sum exp => add sum (toNumber (Expense.deductible exp)))
                    expenses (Num 0);
                QuarterlyStats.expenseCount := Z.of_nat (length expenses);
                QuarterlyStats.expenses := expenses |}).

(** Each store is cleared (the code issues [clear()] twice per store). *)
Definition clearAllData : M bool :=
  s ← readStores;
  writeStores (mkStores (Idb.clear (expenses s)) (Idb.clear (categories s)) ∅);;
  mret true.

End Methods.

End Database.

(** ** Backup and restore ([BackupManager]) *)

Module BackupManager.

Section Methods.
Context `{Host}.

(** [importData()]: [file] is the parsed content of the chosen file, if
    one was chosen; [confirmed] is the answer to the [confirm] dialog.
    A rejected promise is a [Throw]. *)
Definition importData (file : option Snapshot.t) (confirmed : bool)
  : M bool :=
  match file with
  | None => throw NoFileSelected
  | Some data =>
      catch
        (if negb (bool_decide (is_Some (Snapshot.expenses data)))
            || negb (bool_decide (is_Some (Snapshot.categories data)))
         then throw InvalidBackup
         else if negb confirmed then throw ImportCancelled
         else Database.importData data;; mret true)
        (fun error => throw error)
  end.

(** [restoreFile(fileId)]: [data] is the body of the downloaded file.
    The [catch] reports the error and the method completes. *)
Definition restoreFile (data : Snapshot.t) : M unit :=
  catch
    (Database.importData data;;
     now ← Database.nowISO;
     Database.setSetting "lastGoogleDriveBackupDate" now;;
     mret tt)
    (fun _ => mret tt).
(** The [catch] block of [restoreFromGoogleDrive]: report, return [false] *)
Definition restoreFailed : M bool := mret false.

(** [restoreFromGoogleDrive()].  [files] is the listing that Drive returns,
    each file with its body parsed ([None] for a body that is no JSON);
    [selection] is the answer to the prompt: [None] when it is cancelled or
    empty, else [parseInt] of the text; [confirmed] is the answer to the
    [confirm] dialog.  A step that throws inside the [try] ends in the
    [catch] block. *)
Definition restoreFromGoogleDrive (googleSignedIn : bool)
           (files : option (list (option Snapshot.t)))
           (selection : option (option Z)) (confirmed : bool) : M bool :=
  if negb googleSignedIn then mret false
  else
    match files with
    | None => mret false
    | Some [] => mret false
    | Some files =>
        match selection with
        | None => mret false
        | Some None => restoreFailed          (* files[NaN].id *)
        | Some (Some n) =>
            let index := n - 1 in
            if (index <? 0) || (Z.of_nat (length files) <=? index)
            then mret false
            else
              match files !! Z.to_nat index with
              | None => restoreFailed
              | Some None => restoreFailed    (* JSON.parse *)
              | Some (Some data) =>
                  match Snapshot.expenses data, Snapshot.categories data with
                  | Some _, Some _ =>
                      if negb confirmed then mret false
                      else catch (Database.importData data;; mret true)
                                 (fun _ => restoreFailed)
                  | _, _ => restoreFailed     (* data.expenses.length *)
                  end
              end
        end
    end.

End Methods.

End BackupManager.

(** ** A concrete host and store, for running the definitions *)

Module Sample.

(** Lower-casing of the ASCII letters *)
Definition lowerAscii (c : ascii) : ascii :=
  let n := code c in
  if ((65 <=? n) && (n <=? 90))%N then ascii_of_N (n + 32) else c.

Fixpoint lower (s : string) : string :=
  match s with
  | EmptyString => EmptyString
  | String c s' => String (lowerAscii c) (lower s')
  end.

(** Value of the leading decimal digits of [s] after [acc], and how many
    there are *)
Fixpoint digits (s : string) (acc : Z) (n : nat) : Z * nat * string :=
  match s with
  | EmptyString => (acc, n, s)
  | String c s' =>
      match digit c with
      | Some d => digits s' (acc * 10 + d) (S n)
      | None => (acc, n, s)
      end
  end.

(** [parseFloat] on plain decimal notation: blanks, digits, and a
    fraction after a point; [NaN] without a digit *)
Definition decimal (v : option string) : number :=
  match v with
  | None => NaN
  | Some s =>
      let '(i, ni, rest) := digits (trimStart s) 0 O in
      let '(f, nf, _) :=
        match rest with
        | String c rest' =>
            if (code c =? 46)%N then digits rest' 0 O else (0, O, rest)
        | EmptyString => (0, O, rest)
        end in
      if (ni + nf =? 0)%nat then NaN
      else Num (inject_Z i + inject_Z f / inject_Z (10 ^ Z.of_nat nf))%Q
  end.

(** A browser in Harare (UTC+2) whose clock starts on 2024-06-10 at
    06:13:20 UTC and advances by a millisecond per reading *)
Definition host : Host :=
  {| tzOffset := 120;
     clock := fun n => 1718000000000 + Z.of_nat n;
     toLowerCase := lower;
     parseFloat := decimal |}.

Definition internetBill : Expense.t :=
  {| Expense.id := Some 1;
     Expense.datePaid := Some "2024-05-02"%string;
     Expense.merchant := Some "TelOne"%string;
     Expense.expenseDetails := Some "Fibre, May"%string;
     Expense.expenseCategory := Some "Internet"%string;
     Expense.expenseAmount := Some 100%Q;
     Expense.percentUsedForWork := Some 50%Q;
     Expense.deductible := Some 50%Q;
     Expense.notes := Some ""%string;
     Expense.receiptFiles := Some [];
     Expense.createdAt := Some "2024-05-02T08:00:00.000Z"%string;
     Expense.updatedAt := Some "2024-05-02T08:00:00.000Z"%string |}.

Definition internet : Category.t :=
  Category.mk (Some 1) (Some "Internet"%string) (Some "#4c9aff"%string)
              (Some "@"%string).

(** The same browser five hours behind Greenwich *)
Definition west : Host :=
  {| tzOffset := -300;
     clock := fun n => 1718000000000 + Z.of_nat n;
     toLowerCase := lower;
     parseFloat := decimal |}.

(** A database holding one expense and one category *)
Definition world : World :=
  mkWorld
    (mkStores (Idb.mkStore {[ 1 := internetBill ]} 2)
              (Idb.mkStore {[ 1 := internet ]} 2)
              {[ "lastBackupDate"%string := "2024-05-01"%string ]})
    0.

(** The same bill, paid on another day *)
Definition paidOn (day : string) : Expense.t :=
  Expense.mk (Some 1) (Some day) (Expense.merchant internetBill)
     (Expense.expenseDetails internetBill)
     (Expense.expenseCategory internetBill)
     (Expense.expenseAmount internetBill)
     (Expense.percentUsedForWork internetBill)
     (Expense.deductible internetBill) (Expense.notes internetBill)
     (Expense.receiptFiles internetBill) (Expense.createdAt internetBill)
     (Expense.updatedAt internetBill).

(** A patch that carries a new amount and nothing else *)
Definition amountOnly : Expense.t :=
  Expense.set_expenseAmount 200 Expense.empty.

Definition desk : Category.t :=
  Category.mk (Some 2) (Some "Desk"%string) (Some "#ff5630"%string)
              (Some "#"%string).

(** The same database with the legacy category Desk in its registry *)
Definition legacyWorld : World :=
  mkWorld
    (mkStores (Idb.mkStore {[ 1 := internetBill ]} 2)
              (Idb.mkStore (<[ 2 := desk ]> {[ 1 := internet ]}) 3)
              ∅)
    0.

(** What a user types to add a category *)
Definition travel : Category.t :=
  Category.mk None (Some "Travel"%string) (Some "#5243aa"%string)
              (Some "*"%string).

(** A backup document that has categories and no [expenses] property *)
Definition categoriesOnly : Snapshot.t :=
  {| Snapshot.expenses := None;
     Snapshot.categories := Some [internet];
     Snapshot.exportDate := Some "2024-05-01T00:00:00.000Z"%string;
     Snapshot.version := Some 1 |}.

(** The form as filled in to edit that expense to 200 at 50 percent *)
Definition form : ExpenseManager.FormData := fun control =>
  if String.eqb control "datePaid" then Some "2024-05-02"%string
  else if String.eqb control "merchant" then Some "TelOne"%string
  else if String.eqb control "expenseDetails" then Some "Fibre, May"%string
  else if String.eqb control "expenseCategory" then Some "Internet"%string
  else if String.eqb control "expenseAmount" then Some "200"%string
  else if String.eqb control "percentUsedForWork" then Some "50"%string
  else if String.eqb control "notes" then Some ""%string
  else None.

(** The same form with an amount and a percentage that are no numbers *)
Definition scribbled : ExpenseManager.FormData := fun control =>
  if String.eqb control "expenseAmount" then Some "abc"%string
  else if String.eqb control "percentUsedForWork" then Some "n/a"%string
  else form control.

End Sample.

(** ** The rules of the specification, in its own words *)

Module Spec.

(** A text field is present. *)
Definition present (v : option string) : Prop :=
  ∃ s, v = Some s ∧ s ≠ ""%string.

(** A text field is non-empty after trimming. *)
Definition nonEmptyTrimmed (v : option string) : Prop :=
  ∃ s, v = Some s ∧ trim s ≠ ""%string.

(** The amount is present and greater than zero. *)
Definition positiveAmount (v : option Q) : Prop :=
  ∃ a, v = Some a ∧ (0 < a)%Q.

(** The work percentage is present and within [0, 100]. *)
Definition percentInRange (v : option Q) : Prop :=
  ∃ p, v = Some p ∧ (0 <= p)%Q ∧ (p <= 100)%Q.

(** After a merge of [updates] over [old], the property read by [f] is
    the patch's when the patch has it and the previous one otherwise. *)
Definition merged {A : Type} (f : Expense.t -> option A)
           (old updates stored : Expense.t) : Prop :=
  f stored = match f updates with
             | Some v => Some v
             | None => f old
             end.

(** The derived field agrees with the two it is derived from:
    [deductible == expenseAmount * percentUsedForWork / 100]. *)
Definition deductibleConsistent (e : Expense.t) : Prop :=
  ∃ a p d, Expense.expenseAmount e = Some a
           ∧ Expense.percentUsedForWork e = Some p
           ∧ Expense.deductible e = Some d
           ∧ (d == a * p / 100)%Q.

(** The registry holds a category named [n]. *)
Definition hasName (n : string) (m : gmap Z Category.t) : Prop :=
  ∃ k c, m !! k = Some c ∧ Category.name c = Some n.

(** The category store after each of [l] was added under the next
    generated key *)
Fixpoint seeded (l : list Category.t) (s : Idb.ObjectStore Category.t)
  : Idb.ObjectStore Category.t :=
  match l with
  | [] => s
  | c :: l' =>
      seeded l'
        (Idb.mkStore (<[Idb.keyGen s := Category.set_id (Idb.keyGen s) c]>
                        (Idb.records s))
                     (Idb.keyGen s + 1))
  end.

(** The legacy categories call for the migration: Desk or Chair is
    there and Furniture is not. *)
Definition legacy (m : gmap Z Category.t) : Prop :=
  (hasName "Desk" m ∨ hasName "Chair" m) ∧ ¬ hasName "Furniture" m.

(** [m] without the record whose key is the [id] of [c], if any *)
Definition without (c : option Category.t) (m : gmap Z Category.t)
  : gmap Z Category.t :=
  match c ≫= Category.id with
  | Some k => delete k m
  | None => m
  end.

(** The category store after the migration: Furniture added under the
    next generated key, the first Desk and the first Chair removed *)
Definition migrated (s : Idb.ObjectStore Category.t)
  : Idb.ObjectStore Category.t :=
  Idb.mkStore
    (without (List.find (Category.named "Chair") (Idb.getAll s))
       (without (List.find (Category.named "Desk") (Idb.getAll s))
          (<[Idb.keyGen s := Category.set_id (Idb.keyGen s)
                               Database.furniture]> (Idb.records s))))
    (Idb.keyGen s + 1).

(** [e'] is [e] with [createdAt] and [updatedAt] written anew: every
    other property, [id] included, is the same. *)
Definition restamped (e e' : Expense.t) : Prop :=
  ∃ t1 t2, e' = Expense.set_updatedAt t2 (Expense.set_createdAt t1 e).

(** The category predicate: the filter is set to [all], or the expense is
    of the filter's category. *)
Definition inCategory (f : ExpenseManager.Filter.t) (e : Expense.t) : Prop :=
  ExpenseManager.Filter.category f = "all"%string
  ∨ Expense.expenseCategory e = Some (ExpenseManager.Filter.category f).

(** [term] occurs in [text]. *)
Definition partOf (term text : string) : Prop :=
  ∃ before after, text = (before ++ term ++ after)%string.

(** The search predicate: there is no search term, or the term occurs,
    without regard to case, in merchant, details, category and notes joined
    by blanks. *)
Definition matchesSearch `{Host} (f : ExpenseManager.Filter.t)
           (e : Expense.t) : Prop :=
  ExpenseManager.Filter.searchTerm f = ""%string
  ∨ partOf (toLowerCase (ExpenseManager.Filter.searchTerm f))
           (toLowerCase (join4 (Expense.merchant e)
                               (Expense.expenseDetails e)
                               (Expense.expenseCategory e)
                               (Expense.notes e))).

(** [f] with another choice of year and quarter *)
Definition withYearQuarter (y q : option Z) (f : ExpenseManager.Filter.t)
  : ExpenseManager.Filter.t :=
  ExpenseManager.Filter.mk (ExpenseManager.Filter.category f) y q
    (ExpenseManager.Filter.dateFrom f) (ExpenseManager.Filter.dateTo f)
    (ExpenseManager.Filter.searchTerm f).

(** Day number of a date-only text *)
Definition dayOf (s : string) : option Z :=
  '(y, m, d) ← parseIsoDate s; Some (days_from_civil y m d).

(** The date predicate, on the calendar dates that the texts write.  With
    both ends of a range set, the day paid lies from [dateFrom] to [dateTo],
    both included, and year and quarter play no role.  Otherwise, under a
    year, the expense is paid in that year, and under a year and a quarter
    in the months January to March, April to June, July to September or
    October to December of it; without a year the quarter plays no role. *)
Definition inPeriod (f : ExpenseManager.Filter.t) (e : Expense.t) : Prop :=
  (ExpenseManager.Filter.dateFrom f ≠ ""%string
   ∧ ExpenseManager.Filter.dateTo f ≠ ""%string
   ∧ ∃ paid first last,
       Expense.datePaid e ≫= dayOf = Some paid
       ∧ dayOf (ExpenseManager.Filter.dateFrom f) = Some first
       ∧ dayOf (ExpenseManager.Filter.dateTo f) = Some last
       ∧ first ≤ paid ≤ last)
  ∨ ((ExpenseManager.Filter.dateFrom f = ""%string
      ∨ ExpenseManager.Filter.dateTo f = ""%string)
     ∧ match ExpenseManager.Filter.year f with
       | None => True
       | Some year =>
           ∃ month day,
             Expense.datePaid e ≫= parseIsoDate = Some (year, month, day)
             ∧ match ExpenseManager.Filter.quarter f with
               | None => True
               | Some quarter => 3 * (quarter - 1) < month ≤ 3 * quarter
               end
       end).

(** The registry holds exactly one category named [n]. *)
Definition exactlyOneNamed (n : string) (m : gmap Z Category.t) : Prop :=
  ∃ k c, m !! k = Some c ∧ Category.name c = Some n
         ∧ ∀ k' c', m !! k' = Some c' → Category.name c' = Some n → k' = k.

(** The draft is acceptable: every rule holds. *)
Definition acceptable (d : Expense.t) : Prop :=
  present (Expense.datePaid d)
  ∧ nonEmptyTrimmed (Expense.merchant d)
  ∧ nonEmptyTrimmed (Expense.expenseDetails d)
  ∧ present (Expense.expenseCategory d)
  ∧ positiveAmount (Expense.expenseAmount d)
  ∧ percentInRange (Expense.percentUsedForWork d).

End Spec.

(** ** The ledger's summary ([ExpenseManager.getSummary]) *)

Module Summary.
Record t : Type := mk {
  count : Z;
  totalExpenses : number;
  totalDeductible : number;
  averageWorkPercentage : number
}.
End Summary.

Module ExpenseViews.

(** [x / n] for a number [x] and a length [n] *)
Definition divBy (x : number) (n : Z) : number :=
  match x with
  | NaN => NaN
  | Num q => Num (q / inject_Z n)
  end.

(** [l.reduce((sum, exp) => sum + exp[f], 0)] *)
Definition total (f : Expense.t -> option Q) (l : list Expense.t) : number :=
  fold_left (fun sum exp => add sum (toNumber (f exp))) l (Num 0).

(** The [summary] object of [getSummary] *)
Definition summarize (filtered : list Expense.t) : Summary.t :=
  {| Summary.count := Z.of_nat (length filtered);
     Summary.totalExpenses := total Expense.expenseAmount filtered;
     Summary.totalDeductible := total Expense.deductible filtered;
     Summary.averageWorkPercentage :=
       if 0 <? Z.of_nat (length filtered)
       then divBy (total Expense.percentUsedForWork filtered)
                  (Z.of_nat (length filtered))
       else Num 0 |}.

(** [getSummary()], for the filter and sort states of the view *)
Definition getSummary `{Host} (f : ExpenseManager.Filter.t)
           (s : ExpenseManager.Sort) : M (list Expense.t * Summary.t) :=
  allExpenses ← Database.getAllExpenses;
  let filtered :=
    ExpenseManager.sortExpenses s (ExpenseManager.filterExpenses f allExpenses) in
  mret (filtered, summarize filtered).

End ExpenseViews.

(** ** The report's CSV fields ([ReportManager]) *)

Module ReportManager.

Definition quote : ascii := ascii_of_N 34.
Definition comma : ascii := ascii_of_N 44.
Definition newline : ascii := ascii_of_N 10.

(** The global [text.replace] of every quotation mark by two *)
Fixpoint doubleQuotes (s : string) : string :=
  match s with
  | EmptyString => EmptyString
  | String c s' =>
      if Ascii.eqb c quote then String quote (String quote (doubleQuotes s'))
      else String c (doubleQuotes s')
  end.

Definition escapeCsv (text : option string) : string :=
  if negb (truthyStr text) then EmptyString
  else
    let text := joinItem text in
    if includes text (String comma EmptyString)
       || includes text (String quote EmptyString)
       || includes text (String newline EmptyString)
    then String quote (doubleQuotes text ++ String quote EmptyString)
    else text.

(** [getQuarterDates(year, quarter)], the period that the report prints;
    [None] is [undefined]. *)
Definition getQuarterDates (year quarter : Z) : option (string * string) :=
  let y := numberToString year in
  if quarter =? 1 then Some ((y ++ "-01-01")%string, (y ++ "-03-31")%string)
  else if quarter =? 2
  then Some ((y ++ "-04-01")%string, (y ++ "-06-30")%string)
  else if quarter =? 3
  then Some ((y ++ "-07-01")%string, (y ++ "-09-30")%string)
  else if quarter =? 4
  then Some ((y ++ "-10-01")%string, (y ++ "-12-31")%string)
  else None.

(** The report: the statistics of the quarter and the time of the report
    (in the code one object, by a spread of the statistics) *)
Record Report : Type := mkReport {
  stats : QuarterlyStats.t;
  generatedAt : string
}.

(** [generateReport(year, quarter)]; [None] as for [getQuarterlyStats] *)
Definition generateReport `{Host} (year quarter : Z) : option (M Report) :=
  run ← Database.getQuarterlyStats year quarter;
  Some (stats ← run;
        generatedAt ← Database.nowISO;
        mret {| stats := stats; generatedAt := generatedAt |}).

End ReportManager.

(** ** The application ([App]) *)

Module App.

Section Methods.
Context `{Host}.

(** [handleExpenseSubmit(e)]: [formData] is the submitted form, [receipts]
    what [receiptManager.getAllReceipts()] returns.  Every error ends in the
    [catch] block, which reports it. *)
Definition handleExpenseSubmit (formData : ExpenseManager.FormData)
           (receipts : list Receipt.t) : M unit :=
  let expenseId := formData "expenseId"%string in
  catch
    (let expense := ExpenseManager.createExpenseFromForm formData in
     let expense := Expense.set_receiptFiles receipts expense in
     let errors := ExpenseManager.validateExpense expense in
     if 0 <? Z.of_nat (length errors) then mret tt
     else
       (if truthyStr expenseId then
          match parseInt (joinItem expenseId) with
          | Some id => Database.updateExpense id expense;; mret tt
          | None => throw DataError     (* store.get(NaN) *)
          end
        else Database.addExpense expense;; mret tt))
    (fun _ => mret tt).

(** The palette of [generateRandomColor] *)
Definition colors : list string :=
  ["#4c9aff"; "#ffab00"; "#36b37e"; "#ff5630";
   "#6554c0"; "#00b8d9"; "#ff8b00"; "#00875a"]%string.

(** [pick] is [Math.floor(Math.random() * colors.length)]. *)
Definition generateRandomColor (pick : nat) : option string := colors !! pick.

(** [addCustomCategory()]: [name] and [icon] are the answers to the two
    prompts. *)
Definition addCustomCategory (name icon : option string) (pick : nat)
  : M unit :=
  if negb (truthyStr name) || isEmpty (trim (joinItem name)) then mret tt
  else
    catch
      (Database.addCategory
         {| Category.id := None;
            Category.name := Some (trim (joinItem name));
            Category.color := generateRandomColor pick;
            Category.icon :=
              Some (if truthyStr icon then joinItem icon else "📦"%string) |};;
       mret tt)
      (fun _ => mret tt).

(** [clearAllData()]: [confirmed] and [doubleCheck] are the answers to the
    two [confirm] dialogs. *)
Definition clearAllData (confirmed doubleCheck : bool) : M unit :=
  if negb confirmed then mret tt
  else if negb doubleCheck then mret tt
  else
    catch
      (Database.clearAllData;;
       Database.initializeDefaultCategories;;
       mret tt)
      (fun _ => mret tt).
End Methods.

End App.

(** ** The receipts of the open form ([ReceiptManager]) *)

Module ReceiptManager.

(** A [File] of the browser, with the data URL that a [FileReader] reads
    from it *)
Record File : Type := mkFile {
  fileName : string;
  fileType : string;
  fileSize : Z;
  dataUrl : string
}.

(** The manager: the receipts selected for the open form, those of the
    expense being edited, and the reads that [readFile] has started and that
    have not completed. *)
Record t : Type := mk {
  selectedFiles : list Receipt.t;
  existingReceipts : list Receipt.t;
  reading : list File
}.

(** The constructor *)
Definition new : t := mk [] [] [].

Definition maxFileSize : Z := 10 * 1024 * 1024.

Definition allowedTypes : list string :=
  ["image/jpeg"; "image/jpg"; "image/png"; "image/gif";
   "application/pdf"]%string.

Definition validateFile (file : File) : bool :=
  if negb (existsb (String.eqb (fileType file)) allowedTypes) then false
  else if maxFileSize <? fileSize file then false
  else true.

(** [handleFiles(files)]: a read is started for each file that passes. *)
Definition handleFiles (files : list File) (m : t) : t :=
  mk (selectedFiles m) (existingReceipts m)
     (reading m ++ List.filter validateFile files).

(** The [onload] callback of [readFile], for the read in flight at
    position [i], at the instant [now]; reads complete in any order. *)
Definition onload (i : nat) (now : Z) (m : t) : t :=
  match reading m !! i with
  | Some file =>
      mk (selectedFiles m
          ++ [Receipt.mk (fileName file) (fileType file) (fileSize file)
                         (dataUrl file) (toISOString now)])
         (existingReceipts m)
         (delete i (reading m))
  | None => m
  end.

(** [l.splice(index, 1)]: a negative index counts from the end. *)
Definition splice {A : Type} (index : Z) (l : list A) : list A :=
  let len := Z.of_nat (length l) in
  let start := if index <? 0 then Z.max (len + index) 0
               else Z.min index len in
  delete (Z.to_nat start) l.

Definition removeFile (index : Z) (isExisting : bool) (m : t) : t :=
  if isExisting
  then mk (selectedFiles m) (splice index (existingReceipts m)) (reading m)
  else mk (splice index (selectedFiles m)) (existingReceipts m) (reading m).

Definition getAllReceipts (m : t) : list Receipt.t :=
  existingReceipts m ++ selectedFiles m.

(** [clearSelectedFiles()] empties both lists; reads go on. *)
Definition clearSelectedFiles (m : t) : t := mk [] [] (reading m).

(** What [editExpense] does to the manager: [receiptFiles] is that of the
    expense it loads. *)
Definition showExisting (receiptFiles : option (list Receipt.t)) (m : t) : t :=
  match receiptFiles with
  | Some l => mk (selectedFiles m) l (reading m)
  | None => m
  end.

End ReceiptManager.

(** ** Sequences of calls, and what further properties speak of *)

Module Run.

(** A call of one of the methods that write the stores *)
Inductive Call : Type :=
| AddExpense (expense : Expense.t)
| UpdateExpense (id : Z) (updates : Expense.t)
| DeleteExpense (id : Z)
| AddCategory (category : Category.t)
| DeleteCategory (id : Z)
| InitializeDefaultCategories
| SetSetting (key value : string)
| ImportData (data : Snapshot.t)
| ClearAllData
| RestoreFile (data : Snapshot.t)
| HandleExpenseSubmit (formData : ExpenseManager.FormData)
                      (receipts : list Receipt.t)
| AddCustomCategory (name icon : option string) (pick : nat).

Section Calls.
Context `{Host}.

(** The world that a call leaves, whether it resolves or rejects *)
Definition perform (c : Call) (w : World) : World :=
  match c with
  | AddExpense e => (Database.addExpense e w).2
  | UpdateExpense id u => (Database.updateExpense id u w).2
  | DeleteExpense id => (Database.deleteExpense id w).2
  | AddCategory c => (Database.addCategory c w).2
  | DeleteCategory id => (Database.deleteCategory id w).2
  | InitializeDefaultCategories => (Database.initializeDefaultCategories w).2
  | SetSetting k v => (Database.setSetting k v w).2
  | ImportData d => (Database.importData d w).2
  | ClearAllData => (Database.clearAllData w).2
  | RestoreFile d => (BackupManager.restoreFile d w).2
  | HandleExpenseSubmit f r => (App.handleExpenseSubmit f r w).2
  | AddCustomCategory n i p => (App.addCustomCategory n i p w).2
  end.

Definition performAll (cs : list Call) (w : World) : World :=
  fold_left (fun w c => perform c w) cs w.
End Calls.

(** The database as [init] creates it, at any clock reading *)
Definition fresh (t : nat) : World :=
  mkWorld (mkStores Idb.created Idb.created ∅) t.

(** What IndexedDB maintains in the two keyed stores *)
Definition storesOk (s : Stores) : Prop :=
  Idb.wf (expenses s) ∧ Idb.wf (categories s)
  ∧ uniqueNames (Idb.records (categories s)).

(** Every stored expense passes validation and has a consistent
    deductible. *)
Definition ledgerOk (s : Stores) : Prop :=
  ∀ k e, Idb.records (expenses s) !! k = Some e →
         Spec.acceptable e ∧ Spec.deductibleConsistent e.

(** The calls by which the application writes expenses *)
Definition fromTheForm (c : Call) : Prop :=
  match c with
  | HandleExpenseSubmit _ _ | DeleteExpense _ | AddCategory _
  | DeleteCategory _ | InitializeDefaultCategories | SetSetting _ _
  | ClearAllData | AddCustomCategory _ _ _ => True
  | _ => False
  end.

(** From [w] to [w']: stores that are in order stay in order, and no key
    generator moves back. *)
Definition advances (w w' : World) : Prop :=
  storesOk (stores w) →
  storesOk (stores w')
  ∧ Idb.keyGen (expenses (stores w)) ≤ Idb.keyGen (expenses (stores w'))
  ∧ Idb.keyGen (categories (stores w)) ≤ Idb.keyGen (categories (stores w')).

(** From [w] to [w']: the expense store is the same. *)
Definition sameExpenses (w w' : World) : Prop :=
  expenses (stores w') = expenses (stores w).

(** From [w] to [w']: a ledger in order stays in order. *)
Definition ledgerKept (w w' : World) : Prop :=
  ledgerOk (stores w) → ledgerOk (stores w').

(** A method takes every world to one that [R] relates to it, whether it
    resolves or rejects. *)
Definition respects {A : Type} (R : World -> World -> Prop) (c : M A) : Prop :=
  ∀ w, R w (c w).2.

(** The seven properties that validation and derivation speak of are
    present in [e'] wherever they are in [e], with the same value. *)
Definition coversCore (e e' : Expense.t) : Prop :=
  (∀ v, Expense.datePaid e = Some v → Expense.datePaid e' = Some v)
  ∧ (∀ v, Expense.merchant e = Some v → Expense.merchant e' = Some v)
  ∧ (∀ v, Expense.expenseDetails e = Some v →
          Expense.expenseDetails e' = Some v)
  ∧ (∀ v, Expense.expenseCategory e = Some v →
          Expense.expenseCategory e' = Some v)
  ∧ (∀ v, Expense.expenseAmount e = Some v →
          Expense.expenseAmount e' = Some v)
  ∧ (∀ v, Expense.percentUsedForWork e = Some v →
          Expense.percentUsedForWork e' = Some v)
  ∧ (∀ v, Expense.deductible e = Some v → Expense.deductible e' = Some v).

(** What happens to the receipt manager while a form is open *)
Inductive Gesture : Type :=
| HandleFiles (files : list ReceiptManager.File)
| Onload (i : nat) (now : Z)
| RemoveFile (index : Z) (isExisting : bool)
| ClearSelectedFiles
| ShowExisting (receiptFiles : option (list Receipt.t)).

Definition gesture (g : Gesture) (m : ReceiptManager.t) : ReceiptManager.t :=
  match g with
  | HandleFiles files => ReceiptManager.handleFiles files m
  | Onload i now => ReceiptManager.onload i now m
  | RemoveFile index isExisting => ReceiptManager.removeFile index isExisting m
  | ClearSelectedFiles => ReceiptManager.clearSelectedFiles m
  | ShowExisting receiptFiles => ReceiptManager.showExisting receiptFiles m
  end.

(** A receipt of an allowed type and of at most 10 MB *)
Definition accepted (r : Receipt.t) : Prop :=
  In (Receipt.type r) ReceiptManager.allowedTypes
  ∧ Receipt.size r ≤ 10485760.

(** The receipt that a completed read of [file] at [now] gives *)
Definition receiptOf (file : ReceiptManager.File) (now : Z) : Receipt.t :=
  Receipt.mk (ReceiptManager.fileName file) (ReceiptManager.fileType file)
             (ReceiptManager.fileSize file) (ReceiptManager.dataUrl file)
             (toISOString now).

(** The ledger's filter state that shows one category and nothing else *)
Definition categoryOnly (category : string) : ExpenseManager.Filter.t :=
  {| ExpenseManager.Filter.category := category;
     ExpenseManager.Filter.year := None;
     ExpenseManager.Filter.quarter := None;
     ExpenseManager.Filter.dateFrom := "";
     ExpenseManager.Filter.dateTo := "";
     ExpenseManager.Filter.searchTerm := "" |}.



(** Two categories of [l] carry the same name. *)
Definition repeatsName (l : list Category.t) : Prop :=
  ∃ (i j : nat) c1 c2 n,
    (i < j)%nat ∧ l !! i = Some c1 ∧ l !! j = Some c2
    ∧ Category.name c1 = Some n ∧ Category.name c2 = Some n.

(** The calendar date that the [datePaid] of an expense writes *)
Definition writtenOn (e : Expense.t) : option (Z * Z * Z) :=
  Expense.datePaid e ≫= parseIsoDate.

(** The number that the digits of a text spell from [acc] on, its dashes
    left out *)
Fixpoint rank (s : string) (acc : Z) : option Z :=
  match s with
  | EmptyString => Some acc
  | String c s' =>
      if isDash c then rank s' acc
      else match digit c with
           | Some v => rank s' (acc * 10 + v)
           | None => None
           end
  end.

(** Where the dashes of a text are *)
Definition dashes (s : string) : list bool :=
  isDash <$> list_ascii_of_string s.

(** The calendar date that the local clock shows at midnight UTC of the
    day [y]-[m]-[d], which is the instant that [new Date] makes of a
    date-only text *)
Definition localDate `{Host} (y m d : Z) : Z * Z * Z :=
  civil_from_days (days_from_civil y m d + tzOffset * 60000 / msPerDay).

(** Reading one field of a CSV row: a quoted field ends at its first quote
    that is not doubled, a plain one before the next comma or line break.
    The reader returns the field and what follows it. *)
Fixpoint unquote (s : string) : string * string :=
  match s with
  | EmptyString => (EmptyString, EmptyString)
  | String c s' =>
      if Ascii.eqb c ReportManager.quote then
        match s' with
        | String c' s'' =>
            if Ascii.eqb c' ReportManager.quote
            then let '(text, rest) := unquote s'' in
                 (String ReportManager.quote text, rest)
            else (EmptyString, s')
        | EmptyString => (EmptyString, EmptyString)
        end
      else let '(text, rest) := unquote s' in (String c text, rest)
  end.

Definition separator (c : ascii) : bool :=
  Ascii.eqb c ReportManager.comma || Ascii.eqb c ReportManager.newline.

Fixpoint plain (s : string) : string * string :=
  match s with
  | EmptyString => (EmptyString, EmptyString)
  | String c s' =>
      if separator c then (EmptyString, s)
      else let '(text, rest) := plain s' in (String c text, rest)
  end.

Definition readCsvField (s : string) : string * string :=
  match s with
  | String c s' => if Ascii.eqb c ReportManager.quote then unquote s' else plain s
  | EmptyString => (EmptyString, EmptyString)
  end.

(** What may follow a field in a row: nothing, a comma or a line break *)
Definition endsField (rest : string) : Prop :=
  match rest with
  | EmptyString => True
  | String c _ => separator c = true
  end.

(** The instant of the date an expense was paid on, when it has one *)
Definition paidAt (e : Expense.t) : option Z := newDate (Expense.datePaid e).

Definition dated (e : Expense.t) : Prop := is_Some (paidAt e).

(** [a] was paid no later than [b]. *)
Definition paidBefore (a b : Expense.t) : Prop :=
  match paidAt a, paidAt b with
  | Some x, Some y => x ≤ y
  | _, _ => False
  end.

(** The order that a sort by date in direction [order] asks for *)
Definition inDateOrder (order : string) (a b : Expense.t) : Prop :=
  if String.eqb order "asc" then paidBefore a b else paidBefore b a.

(** The ledger's filter state that shows one quarter of one year *)
Definition quarterOf (year quarter : Z) : ExpenseManager.Filter.t :=
  {| ExpenseManager.Filter.category := "all";
     ExpenseManager.Filter.year := Some year;
     ExpenseManager.Filter.quarter := Some quarter;
     ExpenseManager.Filter.dateFrom := "";
     ExpenseManager.Filter.dateTo := "";
     ExpenseManager.Filter.searchTerm := "" |}.

End Run.

(* ===================================================================== *)
(** * Part II: properties *)
(* ===================================================================== *)

(** ** Strings and numbers *)

Lemma isEmpty_true (s : string) : isEmpty s = true ↔ s = ""%string.
Proof. destruct s; simpl; split; congruence. Qed.

Lemma isEmpty_false (s : string) : isEmpty s = false ↔ s ≠ ""%string.
Proof. destruct s; simpl; split; congruence. Qed.

Lemma trim_empty : trim "" = ""%string.
Proof. reflexivity. Qed.

Lemma truthyStr_present (v : option string) :
  truthyStr v = true ↔ Spec.present v.
Proof.
  unfold Spec.present. destruct v as [s|]; simpl.
  - rewrite negb_true_iff, isEmpty_false. split.
    + intros Hs. exists s. auto.
    + intros (s' & [= <-] & Hs). exact Hs.
  - split; [discriminate | intros (s & Hs & _); discriminate].
Qed.

Lemma blank_false (v : option string) :
  ExpenseManager.blank v = false ↔ Spec.nonEmptyTrimmed v.
Proof.
  unfold ExpenseManager.blank, Spec.nonEmptyTrimmed.
  destruct v as [s|]; simpl.
  - rewrite orb_false_iff, negb_false_iff, negb_true_iff, !isEmpty_false.
    split.
    + intros [_ Ht]. exists s. auto.
    + intros (s' & [= <-] & Ht). split; [|exact Ht].
      intros ->. apply Ht. reflexivity.
  - split; [discriminate | intros (s & Hs & _); discriminate].
Qed.

Lemma Qltb_lt (x y : Q) : Qltb x y = true ↔ (x < y)%Q.
Proof.
  unfold Qltb. rewrite negb_true_iff. split.
  - intros Hb. apply Qnot_le_lt. intros Hle.
    apply Qle_bool_iff in Hle. congruence.
  - intros Hlt. destruct (Qle_bool y x) eqn:Hb; [|reflexivity].
    apply Qle_bool_iff in Hb. exfalso. exact (Qlt_not_le _ _ Hlt Hb).
Qed.

Lemma Qltb_ge (x y : Q) : Qltb x y = false ↔ (y <= x)%Q.
Proof.
  unfold Qltb. rewrite negb_false_iff. apply Qle_bool_iff.
Qed.

Lemma badAmount_false (v : option Q) :
  ExpenseManager.badAmount v = false ↔ Spec.positiveAmount v.
Proof.
  unfold ExpenseManager.badAmount, Spec.positiveAmount.
  destruct v as [a|].
  - rewrite orb_false_iff. split.
    + intros [_ Hle]. exists a. split; [reflexivity|].
      apply Qnot_le_lt. intros Hc. apply Qle_bool_iff in Hc. congruence.
    + intros (a' & [= <-] & Hpos). split.
      * destruct (Qeq_bool a 0) eqn:Hb; [|reflexivity].
        apply Qeq_bool_iff in Hb. rewrite Hb in Hpos.
        exfalso. exact (Qlt_irrefl _ Hpos).
      * destruct (Qle_bool a 0) eqn:Hb; [|reflexivity].
        apply Qle_bool_iff in Hb. exfalso. exact (Qlt_not_le _ _ Hpos Hb).
  - split; [discriminate | intros (a & Ha & _); discriminate].
Qed.

Lemma badPercent_false (v : option Q) :
  ExpenseManager.badPercent v = false ↔ Spec.percentInRange v.
Proof.
  unfold ExpenseManager.badPercent, Spec.percentInRange.
  destruct v as [p|].
  - rewrite orb_false_iff, !Qltb_ge. split.
    + intros [H0 H100]. exists p. auto.
    + intros (p' & [= <-] & H0 & H100). auto.
  - split; [discriminate | intros (p & Hp & _); discriminate].
Qed.

(** ** Validation *)

(** The error list is the concatenation, in rule order, of one message per
    violated rule. *)
Lemma validateExpense_unfold (d : Expense.t) :
  ExpenseManager.validateExpense d
  = ((if negb (truthyStr (Expense.datePaid d))
      then ["Date Paid is required"%string] else [])
     ++ (if ExpenseManager.blank (Expense.merchant d)
         then ["Merchant is required"%string] else [])
     ++ (if ExpenseManager.blank (Expense.expenseDetails d)
         then ["Expense Details is required"%string] else [])
     ++ (if negb (truthyStr (Expense.expenseCategory d))
         then ["Expense Category is required"%string] else [])
     ++ (if ExpenseManager.badAmount (Expense.expenseAmount d)
         then ["Expense Amount must be greater than 0"%string] else [])
     ++ (if ExpenseManager.badPercent (Expense.percentUsedForWork d)
         then ["% Used for Work must be between 0 and 100"%string] else []))%list.
Proof.
  unfold ExpenseManager.validateExpense, ExpenseManager.pushIf.
  destruct (negb (truthyStr (Expense.datePaid d)));
    destruct (ExpenseManager.blank (Expense.merchant d));
    destruct (ExpenseManager.blank (Expense.expenseDetails d));
    destruct (negb (truthyStr (Expense.expenseCategory d)));
    destruct (ExpenseManager.badAmount (Expense.expenseAmount d));
    destruct (ExpenseManager.badPercent (Expense.percentUsedForWork d));
    reflexivity.
Qed.

Lemma validateExpense_rules (d : Expense.t) :
  let errors := ExpenseManager.validateExpense d in
  (In "Date Paid is required"%string errors
   ↔ truthyStr (Expense.datePaid d) = false)
  ∧ (In "Merchant is required"%string errors
     ↔ ExpenseManager.blank (Expense.merchant d) = true)
  ∧ (In "Expense Details is required"%string errors
     ↔ ExpenseManager.blank (Expense.expenseDetails d) = true)
  ∧ (In "Expense Category is required"%string errors
     ↔ truthyStr (Expense.expenseCategory d) = false)
  ∧ (In "Expense Amount must be greater than 0"%string errors
     ↔ ExpenseManager.badAmount (Expense.expenseAmount d) = true)
  ∧ (In "% Used for Work must be between 0 and 100"%string errors
     ↔ ExpenseManager.badPercent (Expense.percentUsedForWork d) = true)
  ∧ (errors = []
     ↔ truthyStr (Expense.datePaid d) = true
       ∧ ExpenseManager.blank (Expense.merchant d) = false
       ∧ ExpenseManager.blank (Expense.expenseDetails d) = false
       ∧ truthyStr (Expense.expenseCategory d) = true
       ∧ ExpenseManager.badAmount (Expense.expenseAmount d) = false
       ∧ ExpenseManager.badPercent (Expense.percentUsedForWork d) = false).
Proof.
  cbv zeta. rewrite validateExpense_unfold.
  destruct (truthyStr (Expense.datePaid d));
    destruct (ExpenseManager.blank (Expense.merchant d));
    destruct (ExpenseManager.blank (Expense.expenseDetails d));
    destruct (truthyStr (Expense.expenseCategory d));
    destruct (ExpenseManager.badAmount (Expense.expenseAmount d));
    destruct (ExpenseManager.badPercent (Expense.percentUsedForWork d));
    cbn [negb app In];
    repeat split; intros; try discriminate; try reflexivity;
    try (intuition (discriminate || congruence)); auto 8.
Qed.

Lemma not_true_false (b : bool) (P : Prop) :
  (b = true ↔ P) → (b = false ↔ ¬ P).
Proof. intros HP. destruct b; split; intros; intuition congruence. Qed.

Lemma not_false_true (b : bool) (P : Prop) :
  (b = false ↔ P) → (b = true ↔ ¬ P).
Proof. intros HP. destruct b; split; intros; intuition congruence. Qed.

(** C4.  [validateExpense] checks every rule on its own and collects one
    message per violated rule: date present, merchant and details non-empty
    after trimming, category present, amount present and greater than zero,
    work percentage present and within [0, 100].  The list is empty exactly
    when the draft is acceptable.  A draft whose amount is 0 gets the message
    that names the amount, a draft whose percentage is 150 is rejected, and a
    draft with both gets both messages from the one call. *)
Theorem validateExpense_collects_every_violation (d : Expense.t) :
  let errors := ExpenseManager.validateExpense d in
  let both :=
    Expense.set_expenseAmount 0 (Expense.set_percentUsedForWork 150 d) in
  (errors = [] ↔ Spec.acceptable d)
  ∧ (In "Date Paid is required"%string errors
     ↔ ¬ Spec.present (Expense.datePaid d))
  ∧ (In "Merchant is required"%string errors
     ↔ ¬ Spec.nonEmptyTrimmed (Expense.merchant d))
  ∧ (In "Expense Details is required"%string errors
     ↔ ¬ Spec.nonEmptyTrimmed (Expense.expenseDetails d))
  ∧ (In "Expense Category is required"%string errors
     ↔ ¬ Spec.present (Expense.expenseCategory d))
  ∧ (In "Expense Amount must be greater than 0"%string errors
     ↔ ¬ Spec.positiveAmount (Expense.expenseAmount d))
  ∧ (In "% Used for Work must be between 0 and 100"%string errors
     ↔ ¬ Spec.percentInRange (Expense.percentUsedForWork d))
  ∧ (In "Expense Amount must be greater than 0"%string
        (ExpenseManager.validateExpense (Expense.set_expenseAmount 0 d))
     ∧ includes "Expense Amount must be greater than 0" "Amount" = true)
  ∧ ExpenseManager.validateExpense (Expense.set_percentUsedForWork 150 d) ≠ []
  ∧ (In "Expense Amount must be greater than 0"%string
        (ExpenseManager.validateExpense both)
     ∧ In "% Used for Work must be between 0 and 100"%string
          (ExpenseManager.validateExpense both)).
Proof.
  cbv zeta.
  destruct (validateExpense_rules d)
    as (Hdate & Hmer & Hdet & Hcat & Hamt & Hpct & Hnil).
  cbv zeta in Hnil.
  split; [| split; [| split; [| split; [| split; [| split; [| split;
    [| split; [| split]]]]]]]].
  - rewrite Hnil. unfold Spec.acceptable.
    rewrite !truthyStr_present, !blank_false, badAmount_false,
      badPercent_false. reflexivity.
  - rewrite Hdate. apply not_true_false, truthyStr_present.
  - rewrite Hmer. apply not_false_true, blank_false.
  - rewrite Hdet. apply not_false_true, blank_false.
  - rewrite Hcat. apply not_true_false, truthyStr_present.
  - rewrite Hamt. apply not_false_true, badAmount_false.
  - rewrite Hpct. apply not_false_true, badPercent_false.
  - split; [| reflexivity].
    apply (validateExpense_rules (Expense.set_expenseAmount 0 d)).
    reflexivity.
  - intros Hempty.
    apply (validateExpense_rules (Expense.set_percentUsedForWork 150 d))
      in Hempty.
    destruct Hempty as (_ & _ & _ & _ & _ & Hp). discriminate Hp.
  - split.
    + apply (validateExpense_rules
               (Expense.set_expenseAmount 0
                  (Expense.set_percentUsedForWork 150 d))).
      reflexivity.
    + apply (validateExpense_rules
               (Expense.set_expenseAmount 0
                  (Expense.set_percentUsedForWork 150 d))).
      reflexivity.
Qed.

(** ** Running the methods *)

Ltac run :=
  unfold mbind, M_bind, mret, M_ret, readStores, writeStores, throw, catch;
  cbn [stores tick expenses categories settings fst snd].

Lemma put_expense (e : Expense.t) (k : Z) (s : Idb.ObjectStore Expense.t) :
  Expense.id e = Some k →
  Idb.put Idb.noUnique e s
  = Some (k, Idb.mkStore (<[k := Expense.set_id k e]> (Idb.records s))
                         (Idb.bump k (Idb.keyGen s))).
Proof.
  intros Hk. unfold Idb.put. cbn [Idb.keyOf Idb.withKey Expense_keyed].
  rewrite Hk. reflexivity.
Qed.

(** ** Updating an expense *)

Lemma updateExpense_missing `{Host} (w : World) (id : Z) (updates : Expense.t) :
  Idb.get id (expenses (stores w)) = None →
  Database.updateExpense id updates w = (Throw (NotFound id), w).
Proof.
  intros Hget. unfold Database.updateExpense, Database.getExpense.
  run. rewrite Hget. destruct w. reflexivity.
Qed.

Lemma updateExpense_found `{Host} (w : World) (id : Z)
      (old updates : Expense.t) :
  Idb.get id (expenses (stores w)) = Some old →
  let stored :=
    Expense.set_updatedAt (toISOString (clock (tick w)))
      (Expense.set_id id (Expense.spread old updates)) in
  Database.updateExpense id updates w
  = (Ok stored,
     mkWorld (mkStores
                (Idb.mkStore (<[id := stored]>
                                (Idb.records (expenses (stores w))))
                             (Idb.bump id (Idb.keyGen (expenses (stores w)))))
                (categories (stores w)) (settings (stores w)))
             (S (tick w))).
Proof.
  intros Hget. cbv zeta.
  unfold Database.updateExpense, Database.getExpense, Database.nowISO.
  run. rewrite Hget. run.
  rewrite (put_expense _ id) by reflexivity. reflexivity.
Qed.

Lemma spread_merged {A : Type} (f : Expense.t -> option A)
      (old updates stored : Expense.t) :
  f stored = orElse (f updates) (f old) → Spec.merged f old updates stored.
Proof.
  unfold Spec.merged, orElse. intros ->. destruct (f updates); reflexivity.
Qed.

(** C10.  [updateExpense(id, updates)] stores the merged record under [id]
    with its [id] property set to [id], whatever [id] the patch carries: the
    keys of the store and every other record stay as they were, as do the
    categories and the settings.  A property absent from the patch keeps its
    previous value; [updatedAt] alone is always rewritten, with the time of
    the call.  When no record has the key, the call is rejected and nothing
    changes. *)
Theorem updateExpense_keeps_key_and_absent_fields
        `{Host} (w : World) (id : Z) (updates : Expense.t) :
  match Idb.get id (expenses (stores w)) with
  | None => Database.updateExpense id updates w = (Throw (NotFound id), w)
  | Some old =>
      ∃ stored w',
        Database.updateExpense id updates w = (Ok stored, w')
        ∧ Idb.get id (expenses (stores w')) = Some stored
        ∧ Expense.id stored = Some id
        ∧ dom (Idb.records (expenses (stores w')))
          = dom (Idb.records (expenses (stores w)))
        ∧ (∀ k, k ≠ id →
                Idb.get k (expenses (stores w'))
                = Idb.get k (expenses (stores w)))
        ∧ categories (stores w') = categories (stores w)
        ∧ settings (stores w') = settings (stores w)
        ∧ Expense.updatedAt stored = Some (toISOString (clock (tick w)))
        ∧ Spec.merged Expense.datePaid old updates stored
        ∧ Spec.merged Expense.merchant old updates stored
        ∧ Spec.merged Expense.expenseDetails old updates stored
        ∧ Spec.merged Expense.expenseCategory old updates stored
        ∧ Spec.merged Expense.expenseAmount old updates stored
        ∧ Spec.merged Expense.percentUsedForWork old updates stored
        ∧ Spec.merged Expense.deductible old updates stored
        ∧ Spec.merged Expense.notes old updates stored
        ∧ Spec.merged Expense.receiptFiles old updates stored
        ∧ Spec.merged Expense.createdAt old updates stored
  end.
Proof.
  destruct (Idb.get id (expenses (stores w))) as [old|] eqn:Hget.
  - eexists _, _. split; [apply updateExpense_found, Hget|].
    unfold Idb.get. cbn [stores expenses categories settings Idb.records].
    split; [apply lookup_insert_eq|].
    split; [reflexivity|].
    split.
    { rewrite dom_insert_L. apply subseteq_union_1_L.
      apply singleton_subseteq_l, elem_of_dom. exists old. exact Hget. }
    split; [intros k Hk; apply lookup_insert_ne; congruence|].
    repeat split; apply spread_merged; reflexivity.
  - apply updateExpense_missing, Hget.
Qed.

(** ** The derived field *)

Lemma createExpenseFromForm_consistent `{Host}
      (formData : ExpenseManager.FormData) (l : list Receipt.t) :
  Spec.deductibleConsistent
    (Expense.set_receiptFiles l (ExpenseManager.createExpenseFromForm formData)).
Proof.
  unfold Spec.deductibleConsistent. eexists _, _, _.
  cbn. repeat split; try reflexivity.
Qed.

Lemma wf_fresh {A : Type} `{Idb.Keyed A} (s : Idb.ObjectStore A) :
  Idb.wf s → Idb.records s !! Idb.keyGen s = None.
Proof.
  intros Hwf. destruct (Idb.records s !! Idb.keyGen s) as [v|] eqn:Hv;
    [|reflexivity].
  apply Hwf in Hv. lia.
Qed.

Lemma addExpense_fresh `{Host} (e : Expense.t) (w : World) :
  Idb.wf (expenses (stores w)) →
  Expense.id e = None →
  let k := Idb.keyGen (expenses (stores w)) in
  let stored :=
    Expense.set_id k
      (Expense.set_updatedAt (toISOString (clock (S (tick w))))
         (Expense.set_createdAt (toISOString (clock (tick w))) e)) in
  Database.addExpense e w
  = (Ok k,
     mkWorld (mkStores (Idb.mkStore (<[k := stored]>
                                       (Idb.records (expenses (stores w))))
                                    (k + 1))
                       (categories (stores w)) (settings (stores w)))
             (S (S (tick w)))).
Proof.
  intros Hwf He. cbv zeta.
  unfold Database.addExpense, Database.nowISO. run.
  unfold Idb.add. cbn [Idb.keyOf Idb.withKey Expense_keyed Expense.id
                       Expense.set_updatedAt Expense.set_createdAt].
  rewrite He. cbn [default]. rewrite (wf_fresh _ Hwf).
  cbn [Idb.noUnique]. run.
  unfold Idb.bump. rewrite Z.max_r by lia. reflexivity.
Qed.

(** C1, as stated, fails on a patch that carries only a new amount: the
    record (100, 50 percent, deductible 50) becomes (200, 50 percent,
    deductible 50), and 50 is not 200 * 50 / 100. *)
Lemma partial_update_keeps_old_deductible :
  ∃ stored w',
    @Database.updateExpense Sample.host 1 Sample.amountOnly Sample.world
    = (Ok stored, w')
    ∧ Spec.deductibleConsistent Sample.internetBill
    ∧ Idb.get 1 (expenses (stores w')) = Some stored
    ∧ Expense.expenseAmount stored = Some 200%Q
    ∧ Expense.percentUsedForWork stored = Some 50%Q
    ∧ Expense.deductible stored = Some 50%Q
    ∧ ¬ Spec.deductibleConsistent stored.
Proof.
  eexists _, _. split; [vm_compute; reflexivity|].
  split.
  { exists 100%Q, 50%Q, 50%Q. repeat split; reflexivity. }
  split; [vm_compute; reflexivity|].
  repeat split.
  intros (a & p & d & Ha & Hp & Hd & Heq).
  cbn in Ha, Hp, Hd.
  injection Ha as <-. injection Hp as <-. injection Hd as <-.
  vm_compute in Heq. discriminate Heq.
Qed.

(** C1, amended.  The deductible is derived where the record is built from
    the form, [deductible = expenseAmount * percentUsedForWork / 100], and
    [addExpense] stores the three fields as given.  [updateExpense] merges the
    patch and recomputes nothing: each of the three fields of the stored
    record is the patch's when the patch has it and the previous one
    otherwise.  So the stored deductible agrees with the stored amount and
    percentage when the patch is a record built from the form, which is what
    the application passes. *)
Theorem deductible_is_derived_by_the_form
        `{Host} (w : World) (id : Z) (old updates : Expense.t) :
  Idb.get id (expenses (stores w)) = Some old →
  (∃ stored w',
      Database.updateExpense id updates w = (Ok stored, w')
      ∧ Idb.get id (expenses (stores w')) = Some stored
      ∧ Spec.merged Expense.expenseAmount old updates stored
      ∧ Spec.merged Expense.percentUsedForWork old updates stored
      ∧ Spec.merged Expense.deductible old updates stored
      ∧ (Spec.deductibleConsistent updates →
         Spec.deductibleConsistent stored)
      ∧ (∀ formData l,
            updates = Expense.set_receiptFiles l
                        (ExpenseManager.createExpenseFromForm formData) →
            Spec.deductibleConsistent stored))
  ∧ (∀ formData l w0,
        Idb.wf (expenses (stores w0)) →
        ∃ k stored w1,
          Database.addExpense
            (Expense.set_receiptFiles l
               (ExpenseManager.createExpenseFromForm formData)) w0
          = (Ok k, w1)
          ∧ Idb.get k (expenses (stores w1)) = Some stored
          ∧ Spec.deductibleConsistent stored).
Proof.
  intros Hget. split.
  - eexists _, _. split; [apply updateExpense_found, Hget|].
    split; [unfold Idb.get; cbn [stores expenses Idb.records];
            apply lookup_insert_eq|].
    match goal with
    | |- Spec.merged _ _ _ ?st ∧ _ =>
        assert (Ha : Spec.merged Expense.expenseAmount old updates st)
          by (apply spread_merged; reflexivity);
        assert (Hp : Spec.merged Expense.percentUsedForWork old updates st)
          by (apply spread_merged; reflexivity);
        assert (Hd : Spec.merged Expense.deductible old updates st)
          by (apply spread_merged; reflexivity);
        set (stored := st) in *
    end.
    assert (Hcons : Spec.deductibleConsistent updates →
                    Spec.deductibleConsistent stored).
    { intros (a & p & d & Hua & Hup & Hud & Heq).
      unfold Spec.merged in Ha, Hp, Hd.
      rewrite Hua in Ha. rewrite Hup in Hp. rewrite Hud in Hd.
      exists a, p, d. auto. }
    repeat (split; [assumption|]).
    intros formData l ->. apply Hcons, createExpenseFromForm_consistent.
  - intros formData l w0 Hwf.
    eexists _, _, _. split.
    + apply addExpense_fresh; [exact Hwf | reflexivity].
    + split.
      * unfold Idb.get. cbn [stores expenses Idb.records].
        apply lookup_insert_eq.
      * unfold Spec.deductibleConsistent. eexists _, _, _.
        cbn. repeat split; reflexivity.
Qed.

Lemma deductible_is_derived_by_the_form_witness :
  Idb.get 1 (expenses (stores Sample.world)) = Some Sample.internetBill
  ∧ ∃ stored w',
      @Database.updateExpense Sample.host 1
        (Expense.set_receiptFiles []
           (@ExpenseManager.createExpenseFromForm Sample.host Sample.form))
        Sample.world
      = (Ok stored, w')
      ∧ Spec.deductibleConsistent stored.
Proof.
  assert (Hget : Idb.get 1 (expenses (stores Sample.world))
                 = Some Sample.internetBill) by reflexivity.
  split; [exact Hget|].
  destruct (@deductible_is_derived_by_the_form Sample.host Sample.world 1
              Sample.internetBill
              (Expense.set_receiptFiles []
                 (@ExpenseManager.createExpenseFromForm Sample.host
                    Sample.form)) Hget)
    as [(stored & w' & Hrun & _ & _ & _ & _ & _ & Hform) _].
  exists stored, w'. split; [exact Hrun|].
  exact (Hform Sample.form [] eq_refl).
Defined.

(** ** Deleting a category *)

(** C9.  [deleteCategory(id)] removes the category and leaves the expense
    store as it was: every expense, and so every expense that names the
    deleted category, is still retrievable, unchanged in every field, its
    [expenseCategory] included. *)
Theorem deleteCategory_leaves_expenses (w : World) (id : Z) :
  ∃ w',
    Database.deleteCategory id w = (Ok true, w')
    ∧ Idb.get id (categories (stores w')) = None
    ∧ expenses (stores w') = expenses (stores w)
    ∧ settings (stores w') = settings (stores w)
    ∧ Database.getAllExpenses w' = (Ok (Idb.getAll (expenses (stores w))), w')
    ∧ (∀ c k e,
          Idb.get id (categories (stores w)) = Some c →
          Idb.get k (expenses (stores w)) = Some e →
          Expense.expenseCategory e = Category.name c →
          Database.getExpense k w' = (Ok (Some e), w')).
Proof.
  eexists. split; [reflexivity|].
  cbn [stores expenses categories settings].
  split; [apply lookup_delete_eq|].
  split; [reflexivity|]. split; [reflexivity|].
  split; [reflexivity|].
  intros c k e _ Hk _.
  unfold Database.getExpense. run. rewrite Hk. reflexivity.
Qed.

(** ** Importing a document that lacks a collection *)

(** The file import checks the document before it writes: without
    [expenses] or without [categories] it is rejected with
    'Invalid backup file format' and the world is as it was. *)
Lemma file_import_rejects_incomplete `{Host}
      (data : Snapshot.t) (confirmed : bool) (w : World) :
  Snapshot.expenses data = None ∨ Snapshot.categories data = None →
  BackupManager.importData (Some data) confirmed w = (Throw InvalidBackup, w).
Proof.
  intros Habsent. unfold BackupManager.importData. run.
  destruct Habsent as [-> | ->]; cbn.
  - reflexivity.
  - destruct (Snapshot.expenses data); reflexivity.
Qed.

(** C2 (the store-level import and the cloud restore do not check).
    [Database.importData] on a document without [expenses] clears both
    stores, loads the categories and resolves [true]; [restoreFile] hands the
    downloaded document to it unchecked, so the stored expense is gone and a
    setting is written as well. *)
Theorem importData_without_expenses_clears_the_store :
  Idb.get 1 (expenses (stores Sample.world)) = Some Sample.internetBill
  ∧ (∃ w',
        @Database.importData Sample.host Sample.categoriesOnly Sample.world
        = (Ok true, w')
        ∧ Idb.records (expenses (stores w')) = ∅)
  ∧ (∃ w',
        @BackupManager.restoreFile Sample.host Sample.categoriesOnly
                                   Sample.world
        = (Ok tt, w')
        ∧ Idb.records (expenses (stores w')) = ∅
        ∧ settings (stores w') ≠ settings (stores Sample.world)).
Proof.
  split; [reflexivity|]. split.
  - eexists. split; [vm_compute; reflexivity|]. reflexivity.
  - eexists. split; [vm_compute; reflexivity|].
    split; [reflexivity|].
    intros Heq.
    apply (f_equal (fun m : gmap string string =>
                      m !! "lastGoogleDriveBackupDate"%string)) in Heq.
    vm_compute in Heq. discriminate Heq.
Qed.

(** ** The object store *)

Section StoreFacts.
Context {A : Type} `{Idb.Keyed A}.

Lemma getAll_perm (s : Idb.ObjectStore A) :
  Idb.getAll s ≡ₚ (map_to_list (Idb.records s)).*2.
Proof.
  unfold Idb.getAll. apply fmap_Permutation, merge_sort_Permutation.
Qed.

Lemma elem_of_getAll (s : Idb.ObjectStore A) (v : A) :
  v ∈ Idb.getAll s ↔ ∃ k, Idb.records s !! k = Some v.
Proof.
  rewrite getAll_perm, list_elem_of_fmap. split.
  - intros ([k v'] & -> & Hin). exists k.
    apply elem_of_map_to_list in Hin. exact Hin.
  - intros (k & Hk). exists (k, v). split; [reflexivity|].
    apply elem_of_map_to_list. exact Hk.
Qed.

Lemma getAll_length (s : Idb.ObjectStore A) :
  length (Idb.getAll s) = size (Idb.records s).
Proof.
  rewrite getAll_perm, length_fmap. apply length_map_to_list.
Qed.

Lemma find_getAll_Some (p : A → bool) (s : Idb.ObjectStore A) (v : A) :
  List.find p (Idb.getAll s) = Some v →
  p v = true ∧ ∃ k, Idb.records s !! k = Some v.
Proof.
  intros Hf. apply find_some in Hf. destruct Hf as [Hin Hp].
  split; [exact Hp|]. apply elem_of_getAll, list_elem_of_In, Hin.
Qed.

Lemma find_getAll_None (p : A → bool) (s : Idb.ObjectStore A) :
  List.find p (Idb.getAll s) = None →
  ∀ k v, Idb.records s !! k = Some v → p v = false.
Proof.
  intros Hf k v Hk. apply (find_none _ _ Hf).
  apply list_elem_of_In, elem_of_getAll. exists k. exact Hk.
Qed.

Lemma find_getAll_is_Some (p : A → bool) (s : Idb.ObjectStore A) :
  is_Some (List.find p (Idb.getAll s))
  ↔ ∃ k v, Idb.records s !! k = Some v ∧ p v = true.
Proof.
  split.
  - intros [v Hv]. apply find_getAll_Some in Hv.
    destruct Hv as (Hp & k & Hk). eauto.
  - intros (k & v & Hk & Hp).
    destruct (List.find p (Idb.getAll s)) as [v'|] eqn:Hf; [eauto|].
    rewrite (find_getAll_None _ _ Hf k v Hk) in Hp. discriminate Hp.
Qed.
End StoreFacts.

Lemma named_true (n : string) (c : Category.t) :
  Category.named n c = true ↔ Category.name c = Some n.
Proof. unfold Category.named. apply bool_decide_eq_true. Qed.

Lemma nameTaken_true (c : Category.t) (m : gmap Z Category.t) :
  nameTaken c m = true
  ↔ ∃ n k c', Category.name c = Some n ∧ m !! k = Some c'
              ∧ Category.name c' = Some n.
Proof.
  unfold nameTaken. destruct (Category.name c) as [n|].
  - rewrite existsb_exists. split.
    + intros ([k c'] & Hin & Hn).
      apply list_elem_of_In, elem_of_map_to_list in Hin.
      apply named_true in Hn. exists n, k, c'. auto.
    + intros (n' & k & c' & [= <-] & Hk & Hn).
      exists (k, c'). split.
      * apply list_elem_of_In, elem_of_map_to_list. exact Hk.
      * apply named_true. exact Hn.
  - split; [discriminate|]. intros (n & _ & _ & Hn & _). discriminate Hn.
Qed.

Lemma nameTaken_false (c : Category.t) (m : gmap Z Category.t) (n : string) :
  Category.name c = Some n →
  (nameTaken c m = false
   ↔ ∀ k c', m !! k = Some c' → Category.name c' ≠ Some n).
Proof.
  intros Hn. split.
  - intros Hf k c' Hk Hc'.
    assert (Ht : nameTaken c m = true)
      by (apply nameTaken_true; exists n, k, c'; auto).
    congruence.
  - intros Hall. destruct (nameTaken c m) eqn:Ht; [|reflexivity].
    apply nameTaken_true in Ht.
    destruct Ht as (n' & k & c' & Hn' & Hk & Hc').
    exfalso. apply (Hall k c' Hk). congruence.
Qed.

(** ** Adding a category *)

Lemma wf_insert_next (c : Category.t) (s : Idb.ObjectStore Category.t) :
  Idb.wf s →
  Idb.wf (Idb.mkStore (<[Idb.keyGen s := Category.set_id (Idb.keyGen s) c]>
                         (Idb.records s))
                      (Idb.keyGen s + 1)).
Proof.
  intros Hwf k v. cbn [Idb.records Idb.keyGen].
  rewrite lookup_insert_Some. intros [[<- <-] | [Hne Hk]].
  - split; [reflexivity | lia].
  - apply Hwf in Hk. destruct Hk. split; [assumption | lia].
Qed.

Lemma nameTaken_set_id (k : Z) (c : Category.t) (m : gmap Z Category.t) :
  nameTaken (Category.set_id k c) m = nameTaken c m.
Proof. reflexivity. Qed.

Lemma addCategory_taken (c : Category.t) (w : World) :
  nameTaken c (Idb.records (categories (stores w))) = true →
  Database.addCategory c w = (Throw ConstraintError, w).
Proof.
  intros Ht. unfold Database.addCategory. run. unfold Idb.add.
  cbn [Idb.keyOf Idb.withKey Category_keyed].
  destruct (Idb.records (categories (stores w)) !! _); [reflexivity|].
  rewrite nameTaken_set_id, Ht. reflexivity.
Qed.

Lemma addCategory_fresh (c : Category.t) (w : World) :
  Idb.wf (categories (stores w)) →
  Category.id c = None →
  nameTaken c (Idb.records (categories (stores w))) = false →
  let k := Idb.keyGen (categories (stores w)) in
  Database.addCategory c w
  = (Ok k,
     mkWorld (mkStores (expenses (stores w))
                (Idb.mkStore (<[k := Category.set_id k c]>
                                (Idb.records (categories (stores w))))
                             (k + 1))
                (settings (stores w)))
             (tick w)).
Proof.
  intros Hwf Hid Hfree. cbv zeta. unfold Database.addCategory. run.
  unfold Idb.add. cbn [Idb.keyOf Idb.withKey Category_keyed].
  rewrite Hid. cbn [default]. rewrite (wf_fresh _ Hwf).
  rewrite nameTaken_set_id, Hfree.
  run. unfold Idb.bump. rewrite Z.max_r by lia. reflexivity.
Qed.

(** C7.  Two calls of [addCategory] with the same name, on a registry as
    IndexedDB keeps it: the second is rejected with the ConstraintError of
    the unique index and changes nothing, and the registry then holds exactly
    one category of that name.  Names are compared as they are, letter case
    included: a category whose name no stored category carries is accepted. *)
Theorem addCategory_twice_keeps_one
        (w : World) (c1 c2 : Category.t) (n : string) :
  Idb.wf (categories (stores w)) →
  uniqueNames (Idb.records (categories (stores w))) →
  Category.id c1 = None →
  Category.name c1 = Some n →
  Category.name c2 = Some n →
  ∃ r1 w1,
    Database.addCategory c1 w = (r1, w1)
    ∧ Database.addCategory c2 w1 = (Throw ConstraintError, w1)
    ∧ Spec.exactlyOneNamed n (Idb.records (categories (stores w1)))
    ∧ ∀ c3 n3,
        Category.id c3 = None → Category.name c3 = Some n3 →
        ¬ Spec.hasName n3 (Idb.records (categories (stores w1))) →
        ∃ k3 w3, Database.addCategory c3 w1 = (Ok k3, w3).
Proof.
  intros Hwf Huniq Hid Hn1 Hn2.
  assert (Hother : ∀ w1, Idb.wf (categories (stores w1)) →
            ∀ c3 n3,
              Category.id c3 = None → Category.name c3 = Some n3 →
              ¬ Spec.hasName n3 (Idb.records (categories (stores w1))) →
              ∃ k3 w3, Database.addCategory c3 w1 = (Ok k3, w3)).
  { intros w1 Hwf1 c3 n3 Hid3 Hn3 Hno. eexists _, _.
    apply addCategory_fresh; [exact Hwf1 | exact Hid3 |].
    apply (nameTaken_false c3 _ n3 Hn3).
    intros k c' Hk Hc'. apply Hno. exists k, c'. auto. }
  destruct (nameTaken c1 (Idb.records (categories (stores w)))) eqn:Ht.
  - exists (Throw ConstraintError), w.
    split; [apply addCategory_taken, Ht|].
    apply nameTaken_true in Ht.
    destruct Ht as (n' & k & c' & Hn' & Hk & Hc').
    assert (n' = n) as -> by congruence.
    split; [|split].
    + apply addCategory_taken, nameTaken_true. exists n, k, c'. auto.
    + exists k, c'. split; [exact Hk|]. split; [exact Hc'|].
      intros k' c'' Hk' Hc''. exact (Huniq k' k c'' c' n Hk' Hk Hc'' Hc').
    + exact (Hother w Hwf).
  - eexists _, _. split; [apply addCategory_fresh; assumption|].
    pose proof (proj1 (nameTaken_false c1 _ n Hn1) Ht) as Hfree.
    set (k := Idb.keyGen (categories (stores w))) in *.
    split; [|split].
    + apply addCategory_taken, nameTaken_true.
      cbn [stores categories Idb.records].
      exists n, k, (Category.set_id k c1).
      split; [exact Hn2|]. split; [apply lookup_insert_eq | exact Hn1].
    + cbn [stores categories Idb.records].
      exists k, (Category.set_id k c1).
      split; [apply lookup_insert_eq|]. split; [exact Hn1|].
      intros k' c' Hk' Hc'.
      destruct (decide (k' = k)) as [-> | Hne]; [reflexivity|].
      rewrite lookup_insert_ne in Hk' by congruence.
      exfalso. exact (Hfree k' c' Hk' Hc').
    + apply Hother. cbn [stores categories]. apply wf_insert_next, Hwf.
Qed.

(** ** Seeding and migrating the registry *)

Lemma uniqueNames_insert (g : Z) (c : Category.t) (m : gmap Z Category.t) :
  uniqueNames m →
  m !! g = None →
  (∀ n k c', Category.name c = Some n → m !! k = Some c' →
             Category.name c' ≠ Some n) →
  uniqueNames (<[g := c]> m).
Proof.
  intros Hu Hg Hfree k1 k2 c1 c2 n.
  rewrite !lookup_insert_Some.
  intros [[<- <-] | [Hne1 H1]] [[<- <-] | [Hne2 H2]] Hn1 Hn2.
  - reflexivity.
  - exfalso. exact (Hfree n k2 c2 Hn1 H2 Hn2).
  - exfalso. exact (Hfree n k1 c1 Hn2 H1 Hn1).
  - exact (Hu k1 k2 c1 c2 n H1 H2 Hn1 Hn2).
Qed.

Lemma uniqueNames_delete (k : Z) (m : gmap Z Category.t) :
  uniqueNames m → uniqueNames (delete k m).
Proof.
  intros Hu k1 k2 c1 c2 n. rewrite !lookup_delete_Some.
  intros [_ H1] [_ H2]. exact (Hu k1 k2 c1 c2 n H1 H2).
Qed.

Lemma forEach_addCategory_fresh (l : list Category.t) :
  ∀ w,
    Idb.wf (categories (stores w)) →
    Forall (λ c, Category.id c = None) l →
    newNames l (Idb.records (categories (stores w))) →
    forEach Database.addCategory l w
    = (Ok tt,
       mkWorld (mkStores (expenses (stores w))
                         (Spec.seeded l (categories (stores w)))
                         (settings (stores w)))
               (tick w)).
Proof.
  induction l as [|c l IH]; intros w Hwf Hids [Hnd Hnew].
  - destruct w as [[? ? ?] ?]. reflexivity.
  - apply Forall_cons in Hids as [Hid Hids].
    apply Forall_cons in Hnew as [(n & Hn & Hfree) Hnew].
    rewrite fmap_cons in Hnd. apply NoDup_cons in Hnd as [Hnotin Hnd].
    cbn [forEach]. unfold mbind, M_bind.
    rewrite (addCategory_fresh c w Hwf Hid)
      by (apply (nameTaken_false c _ n Hn); exact Hfree).
    rewrite IH; cbn [stores tick expenses categories settings].
    + reflexivity.
    + apply wf_insert_next, Hwf.
    + exact Hids.
    + split; [exact Hnd|].
      apply Forall_forall. intros c' Hc'.
      pose proof (proj1 (Forall_forall _ _) Hnew c' Hc') as (n' & Hn' & Hf').
      exists n'. split; [exact Hn'|].
      intros k c'' Hk. cbn [Idb.records] in Hk.
      apply lookup_insert_Some in Hk as [[<- <-] | [Hne Hk]].
      * cbn. intros Heq. apply Hnotin.
        rewrite Heq, <- Hn'. apply list_elem_of_fmap. eauto.
      * exact (Hf' k c'' Hk).
Qed.

Lemma seeded_keyGen (l : list Category.t) :
  ∀ s, Idb.keyGen (Spec.seeded l s) = Idb.keyGen s + Z.of_nat (length l).
Proof.
  induction l as [|c l IH]; intros s; cbn [Spec.seeded length].
  - lia.
  - rewrite IH. cbn [Idb.keyGen]. lia.
Qed.

Lemma seeded_lookup (l : list Category.t) :
  ∀ s k c,
    Idb.wf s →
    (Idb.records (Spec.seeded l s) !! k = Some c
     ↔ Idb.records s !! k = Some c
       ∨ ∃ i d, l !! i = Some d ∧ k = Idb.keyGen s + Z.of_nat i
                ∧ c = Category.set_id k d).
Proof.
  induction l as [|x l IH]; intros s k c Hwf; cbn [Spec.seeded].
  - split; [auto|]. intros [Hk | (i & d & Hi & _)]; [exact Hk|].
    rewrite lookup_nil in Hi. discriminate Hi.
  - rewrite IH by (apply wf_insert_next, Hwf).
    cbn [Idb.records Idb.keyGen]. rewrite lookup_insert_Some. split.
    + intros [[[<- <-] | [Hne Hk]] | (i & d & Hi & -> & ->)].
      * right. exists O, x. split; [reflexivity|].
        split; [lia|]. f_equal; lia.
      * left. exact Hk.
      * right. exists (S i), d. split; [exact Hi|].
        split; [lia|]. f_equal; lia.
    + intros [Hk | (i & d & Hi & -> & ->)].
      * left. right. split; [|exact Hk].
        apply Hwf in Hk. lia.
      * destruct i as [|i]; cbn in Hi.
        -- injection Hi as <-. left. left.
           split; [lia|]. f_equal; lia.
        -- right. exists i, d. split; [exact Hi|].
           split; [lia|]. f_equal; lia.
Qed.

Lemma nonEmpty_getAll {A : Type} `{Idb.Keyed A} (s : Idb.ObjectStore A) :
  (0 <? Z.of_nat (length (Idb.getAll s))) = true ↔ Idb.records s ≠ ∅.
Proof.
  rewrite getAll_length, Z.ltb_lt, <- map_size_non_empty_iff. lia.
Qed.

Lemma found_hasName (n : string) (s : Idb.ObjectStore Category.t) :
  is_Some (List.find (Category.named n) (Idb.getAll s))
  ↔ Spec.hasName n (Idb.records s).
Proof.
  rewrite find_getAll_is_Some. unfold Spec.hasName.
  split; intros (k & c & Hk & Hn); exists k, c;
    (split; [exact Hk | apply named_true, Hn]).
Qed.

Lemma migration_due (s : Idb.ObjectStore Category.t) :
  (bool_decide (is_Some (List.find (Category.named "Desk") (Idb.getAll s)))
   || bool_decide (is_Some (List.find (Category.named "Chair") (Idb.getAll s))))
  && negb (bool_decide
             (is_Some (List.find (Category.named "Furniture") (Idb.getAll s))))
  = true
  ↔ Spec.legacy (Idb.records s).
Proof.
  unfold Spec.legacy.
  rewrite andb_true_iff, orb_true_iff, negb_true_iff, bool_decide_eq_false,
    !bool_decide_eq_true, !found_hasName.
  reflexivity.
Qed.

Lemma initializeDefaultCategories_settled (w : World) :
  Idb.records (categories (stores w)) ≠ ∅ →
  ¬ Spec.legacy (Idb.records (categories (stores w))) →
  Database.initializeDefaultCategories w
  = (Ok (Idb.getAll (categories (stores w))), w).
Proof.
  intros Hne Hnl. unfold Database.initializeDefaultCategories,
    Database.getAllCategories. run.
  apply nonEmpty_getAll in Hne. rewrite Hne.
  destruct (_ && _) eqn:Hdue.
  - apply migration_due in Hdue. contradiction.
  - destruct w. reflexivity.
Qed.

Lemma defaultCategories_new :
  Forall (λ c, Category.id c = None) Database.defaultCategories
  ∧ newNames Database.defaultCategories ∅.
Proof.
  split.
  - repeat constructor.
  - split.
    + assert (Hnd : bool_decide
                      (NoDup (Category.name <$> Database.defaultCategories))
                    = true) by (vm_compute; reflexivity).
      apply bool_decide_eq_true in Hnd. exact Hnd.
    + repeat (apply Forall_cons; split;
              [eexists; split;
               [reflexivity | intros k c' Hk; rewrite lookup_empty in Hk;
                              discriminate Hk]|]).
      apply Forall_nil. exact I.
Qed.

Lemma initializeDefaultCategories_seeds (w : World) :
  Idb.records (categories (stores w)) = ∅ →
  Database.initializeDefaultCategories w
  = (Ok (Idb.getAll (Spec.seeded Database.defaultCategories
                                 (categories (stores w)))),
     mkWorld (mkStores (expenses (stores w))
                       (Spec.seeded Database.defaultCategories
                                    (categories (stores w)))
                       (settings (stores w)))
             (tick w)).
Proof.
  intros Hempty.
  assert (Hwf : Idb.wf (categories (stores w))).
  { intros k v Hk. rewrite Hempty, lookup_empty in Hk. discriminate Hk. }
  unfold Database.initializeDefaultCategories.
  unfold mbind at 1. unfold M_bind. unfold Database.getAllCategories at 1.
  run.
  destruct (0 <? _) eqn:Hlen.
  - apply nonEmpty_getAll in Hlen. contradiction.
  - destruct defaultCategories_new as [Hids Hnew].
    rewrite (forEach_addCategory_fresh _ w Hwf Hids)
      by (rewrite Hempty; exact Hnew).
    reflexivity.
Qed.

Lemma deleteFound_run (c : option Category.t) (w : World) :
  (∀ d, c = Some d → is_Some (Category.id d)) →
  Database.deleteFound c w
  = (Ok true,
     mkWorld (mkStores (expenses (stores w))
                (Idb.mkStore
                   (Spec.without c (Idb.records (categories (stores w))))
                   (Idb.keyGen (categories (stores w))))
                (settings (stores w)))
             (tick w)).
Proof.
  intros Hid. unfold Database.deleteFound, Spec.without.
  destruct c as [d|]; cbn [mbind option_bind].
  - destruct (Hid d eq_refl) as [k Hk]. rewrite Hk. reflexivity.
  - destruct w as [[? [? ?] ?] ?]. reflexivity.
Qed.

Lemma found_has_id (p : Category.t → bool) (s : Idb.ObjectStore Category.t)
      (d : Category.t) :
  Idb.wf s →
  List.find p (Idb.getAll s) = Some d →
  ∃ k, Idb.records s !! k = Some d ∧ Category.id d = Some k ∧ p d = true.
Proof.
  intros Hwf Hf. apply find_getAll_Some in Hf. destruct Hf as (Hp & k & Hk).
  exists k. split; [exact Hk|]. split; [|exact Hp].
  apply Hwf in Hk. apply Hk.
Qed.

Lemma initializeDefaultCategories_migrates (w : World) :
  Idb.wf (categories (stores w)) →
  Idb.records (categories (stores w)) ≠ ∅ →
  Spec.legacy (Idb.records (categories (stores w))) →
  Database.initializeDefaultCategories w
  = (Ok (Idb.getAll (Spec.migrated (categories (stores w)))),
     mkWorld (mkStores (expenses (stores w))
                       (Spec.migrated (categories (stores w)))
                       (settings (stores w)))
             (tick w)).
Proof.
  intros Hwf Hne Hleg.
  assert (Hfree : nameTaken Database.furniture
                            (Idb.records (categories (stores w))) = false).
  { apply (nameTaken_false _ _ "Furniture"); [reflexivity|].
    intros k c' Hk Hn. apply (proj2 Hleg). exists k, c'. auto. }
  assert (Hids : ∀ p d,
             List.find p (Idb.getAll (categories (stores w))) = Some d →
             is_Some (Category.id d)).
  { intros p d Hf. destruct (found_has_id p _ d Hwf Hf) as (k & _ & Hk & _).
    eauto. }
  unfold Database.initializeDefaultCategories.
  unfold mbind at 1. unfold M_bind. unfold Database.getAllCategories at 1.
  run.
  rewrite (proj2 (nonEmpty_getAll _) Hne).
  rewrite (proj2 (migration_due _) Hleg).
  rewrite (addCategory_fresh Database.furniture w Hwf eq_refl Hfree).
  rewrite deleteFound_run by (intros d Hd; exact (Hids _ d Hd)).
  rewrite deleteFound_run by (intros d Hd; exact (Hids _ d Hd)).
  reflexivity.
Qed.

Lemma without_lookup (c : option Category.t) (m : gmap Z Category.t)
      (k : Z) (v : Category.t) :
  Spec.without c m !! k = Some v
  ↔ m !! k = Some v ∧ ∀ d, c = Some d → Category.id d ≠ Some k.
Proof.
  unfold Spec.without. destruct c as [d|]; cbn [mbind option_bind].
  - destruct (Category.id d) as [kd|] eqn:Hd.
    + rewrite lookup_delete_Some. split.
      * intros [Hne Hk]. split; [exact Hk|].
        intros d' [= <-]. congruence.
      * intros [Hk Hall]. split; [|exact Hk].
        intros ->. exact (Hall d eq_refl Hd).
    + split; [|tauto]. intros Hk. split; [exact Hk|].
      intros d' [= <-]. congruence.
  - split; [|tauto]. intros Hk. split; [exact Hk|]. discriminate.
Qed.

Lemma migrated_lookup (s : Idb.ObjectStore Category.t) (k : Z)
      (v : Category.t) :
  Idb.records (Spec.migrated s) !! k = Some v
  ↔ <[Idb.keyGen s := Category.set_id (Idb.keyGen s) Database.furniture]>
      (Idb.records s) !! k = Some v
    ∧ (∀ d, List.find (Category.named "Desk") (Idb.getAll s) = Some d →
            Category.id d ≠ Some k)
    ∧ (∀ d, List.find (Category.named "Chair") (Idb.getAll s) = Some d →
            Category.id d ≠ Some k).
Proof.
  unfold Spec.migrated. cbn [Idb.records].
  rewrite !without_lookup. tauto.
Qed.

(** The first record named [n] is the only one, and it is what the
    migration removes. *)
Lemma migrated_drops (n : string) (s : Idb.ObjectStore Category.t)
      (k : Z) (c : Category.t) :
  Idb.wf s → uniqueNames (Idb.records s) →
  Idb.records s !! k = Some c → Category.name c = Some n →
  ∃ d, List.find (Category.named n) (Idb.getAll s) = Some d
       ∧ Category.id d = Some k.
Proof.
  intros Hwf Hu Hk Hn.
  assert (Hsome : is_Some (List.find (Category.named n) (Idb.getAll s))).
  { apply found_hasName. exists k, c. auto. }
  destruct Hsome as [d Hd]. exists d. split; [exact Hd|].
  destruct (found_has_id _ _ _ Hwf Hd) as (kd & Hkd & Hid & Hnd).
  apply named_true in Hnd.
  rewrite (Hu k kd c d n Hk Hkd Hn Hnd). exact Hid.
Qed.

Lemma migrated_facts (s : Idb.ObjectStore Category.t) :
  Idb.wf s → uniqueNames (Idb.records s) →
  ¬ Spec.hasName "Furniture" (Idb.records s) →
  let m' := Idb.records (Spec.migrated s) in
  m' !! Idb.keyGen s = Some (Category.set_id (Idb.keyGen s) Database.furniture)
  ∧ ¬ Spec.hasName "Desk" m'
  ∧ ¬ Spec.hasName "Chair" m'
  ∧ (∀ k c, Category.name c ≠ Some "Desk"%string →
            Category.name c ≠ Some "Chair"%string →
            k ≠ Idb.keyGen s →
            (m' !! k = Some c ↔ Idb.records s !! k = Some c))
  ∧ Idb.wf (Spec.migrated s)
  ∧ uniqueNames m'.
Proof.
  intros Hwf Hu Hnf. cbv zeta.
  assert (Hlt : ∀ n d, List.find (Category.named n) (Idb.getAll s) = Some d →
                       Category.id d ≠ Some (Idb.keyGen s)).
  { intros n d Hd Hid.
    destruct (found_has_id _ _ _ Hwf Hd) as (kd & Hkd & Hid' & _).
    apply Hwf in Hkd. assert (kd = Idb.keyGen s) by congruence. lia. }
  assert (Hdrop : ∀ n k c,
             (n = "Desk" ∨ n = "Chair")%string →
             Idb.records (Spec.migrated s) !! k = Some c →
             Category.name c = Some n → False).
  { intros n k c Hn Hk Hc. apply migrated_lookup in Hk.
    destruct Hk as (Hk & Hdesk & Hchair).
    apply lookup_insert_Some in Hk as [[<- <-] | [Hne Hk]].
    - cbn in Hc. destruct Hn as [-> | ->]; discriminate Hc.
    - destruct (migrated_drops n s k c Hwf Hu Hk Hc) as (d & Hd & Hid).
      destruct Hn as [-> | ->]; [exact (Hdesk d Hd Hid) | exact (Hchair d Hd Hid)]. }
  split; [|split; [|split; [|split; [|split]]]].
  - apply migrated_lookup. split; [apply lookup_insert_eq|].
    split; intros d Hd; exact (Hlt _ d Hd).
  - intros (k & c & Hk & Hc). exact (Hdrop "Desk"%string k c (or_introl eq_refl) Hk Hc).
  - intros (k & c & Hk & Hc). exact (Hdrop "Chair"%string k c (or_intror eq_refl) Hk Hc).
  - intros k c Hnd Hnc Hkg. rewrite migrated_lookup.
    rewrite lookup_insert_ne by congruence. split; [tauto|].
    intros Hk. split; [exact Hk|].
    split; intros d Hd Hid;
      destruct (found_has_id _ _ _ Hwf Hd) as (kd & Hkd & Hid' & Hn);
      apply named_true in Hn;
      assert (kd = k) as -> by congruence;
      assert (d = c) as -> by congruence; contradiction.
  - intros k v Hk. apply migrated_lookup in Hk. destruct Hk as [Hk _].
    exact (wf_insert_next Database.furniture s Hwf k v Hk).
  - assert (Hu1 : uniqueNames
                    (<[Idb.keyGen s := Category.set_id (Idb.keyGen s)
                                         Database.furniture]> (Idb.records s))).
    { apply uniqueNames_insert; [exact Hu | apply wf_fresh, Hwf |].
      intros n k c' [= <-] Hk Hc'. apply Hnf. exists k, c'. auto. }
    intros k1 k2 c1 c2 n H1 H2.
    apply migrated_lookup in H1. apply migrated_lookup in H2.
    exact (Hu1 k1 k2 c1 c2 n (proj1 H1) (proj1 H2)).
Qed.

Lemma seeded_size (l : list Category.t) :
  ∀ s, Idb.wf s →
       size (Idb.records (Spec.seeded l s))
       = (size (Idb.records s) + length l)%nat.
Proof.
  induction l as [|c l IH]; intros s Hwf; cbn [Spec.seeded length].
  - lia.
  - rewrite IH by (apply wf_insert_next, Hwf). cbn [Idb.records].
    rewrite map_size_insert_None by (apply wf_fresh, Hwf). lia.
Qed.

Lemma seeded_ok (l : list Category.t) :
  ∀ s, Idb.wf s → uniqueNames (Idb.records s) →
       newNames l (Idb.records s) →
       Idb.wf (Spec.seeded l s) ∧ uniqueNames (Idb.records (Spec.seeded l s)).
Proof.
  induction l as [|c l IH]; intros s Hwf Hu [Hnd Hnew]; cbn [Spec.seeded].
  - auto.
  - apply Forall_cons in Hnew as [(n & Hn & Hfree) Hnew].
    rewrite fmap_cons in Hnd. apply NoDup_cons in Hnd as [Hnotin Hnd].
    apply IH.
    + apply wf_insert_next, Hwf.
    + cbn [Idb.records]. apply uniqueNames_insert;
        [exact Hu | apply wf_fresh, Hwf |].
      intros n' k c' Hn' Hk. cbn in Hn'.
      assert (n' = n) as -> by congruence. exact (Hfree k c' Hk).
    + split; [exact Hnd|].
      apply Forall_forall. intros c' Hc'.
      pose proof (proj1 (Forall_forall _ _) Hnew c' Hc') as (n' & Hn' & Hf').
      exists n'. split; [exact Hn'|].
      intros k c'' Hk. cbn [Idb.records] in Hk.
      apply lookup_insert_Some in Hk as [[<- <-] | [Hne Hk]].
      * cbn. intros Heq. apply Hnotin.
        rewrite Heq, <- Hn'. apply list_elem_of_fmap. eauto.
      * exact (Hf' k c'' Hk).
Qed.

(** C6.  [initializeDefaultCategories] is idempotent: a second call right
    after the first returns the same list and leaves the same registry, and
    no two rows share a name.  On an empty registry it adds the ten built-in
    categories, each once, under the next generated keys.  On a populated
    registry it adds nothing of the built-in set: when Desk or Chair is there
    and Furniture is not, it adds Furniture, removes Desk and Chair and keeps
    every other category; otherwise it leaves the registry as it is.  The
    expenses and the settings are never touched. *)
Theorem initializeDefaultCategories_idempotent (w : World) :
  Idb.wf (categories (stores w)) →
  uniqueNames (Idb.records (categories (stores w))) →
  ∃ l w1,
    Database.initializeDefaultCategories w = (Ok l, w1)
    ∧ Database.initializeDefaultCategories w1 = (Ok l, w1)
    ∧ l = Idb.getAll (categories (stores w1))
    ∧ uniqueNames (Idb.records (categories (stores w1)))
    ∧ expenses (stores w1) = expenses (stores w)
    ∧ settings (stores w1) = settings (stores w)
    ∧ (Idb.records (categories (stores w)) = ∅ →
       size (Idb.records (categories (stores w1))) = 10%nat
       ∧ ∀ k c,
           Idb.records (categories (stores w1)) !! k = Some c
           ↔ ∃ i d, Database.defaultCategories !! i = Some d
                    ∧ k = Idb.keyGen (categories (stores w)) + Z.of_nat i
                    ∧ c = Category.set_id k d)
    ∧ (Idb.records (categories (stores w)) ≠ ∅ →
       Spec.legacy (Idb.records (categories (stores w))) →
       Spec.hasName "Furniture" (Idb.records (categories (stores w1)))
       ∧ ¬ Spec.hasName "Desk" (Idb.records (categories (stores w1)))
       ∧ ¬ Spec.hasName "Chair" (Idb.records (categories (stores w1)))
       ∧ ∀ k c, Category.name c ≠ Some "Desk"%string →
                Category.name c ≠ Some "Chair"%string →
                k ≠ Idb.keyGen (categories (stores w)) →
                (Idb.records (categories (stores w1)) !! k = Some c
                 ↔ Idb.records (categories (stores w)) !! k = Some c))
    ∧ (Idb.records (categories (stores w)) ≠ ∅ →
       ¬ Spec.legacy (Idb.records (categories (stores w))) →
       w1 = w).
Proof.
  intros Hwf Hu.
  destruct (0 <? Z.of_nat (length (Idb.getAll (categories (stores w)))))
    eqn:Hlen.
  - apply nonEmpty_getAll in Hlen.
    destruct ((bool_decide (is_Some (List.find (Category.named "Desk")
                                       (Idb.getAll (categories (stores w)))))
               || bool_decide (is_Some (List.find (Category.named "Chair")
                                          (Idb.getAll (categories (stores w))))))
              && negb (bool_decide
                         (is_Some (List.find (Category.named "Furniture")
                                     (Idb.getAll (categories (stores w)))))))
      eqn:Hdue.
    + (* the migration *)
      apply migration_due in Hdue.
      destruct (migrated_facts _ Hwf Hu (proj2 Hdue))
        as (Hfurn & Hdesk & Hchair & Hothers & Hwf' & Hu').
      assert (Hhas : Spec.hasName "Furniture"
                       (Idb.records (Spec.migrated (categories (stores w))))).
      { eexists _, _. split; [exact Hfurn | reflexivity]. }
      eexists _, _.
      split; [apply initializeDefaultCategories_migrates; assumption|].
      split.
      { apply initializeDefaultCategories_settled;
          cbn [stores categories].
        - intros Hempty. rewrite Hempty, lookup_empty in Hfurn.
          discriminate Hfurn.
        - intros [_ Hno]. exact (Hno Hhas). }
      cbn [stores categories expenses settings].
      repeat (split; [first [reflexivity | assumption]|]).
      split; [intros Hempty; contradiction|].
      split; [intros _ _; auto|].
      intros _ Hnl. contradiction.
    + (* nothing to do *)
      assert (Hnl : ¬ Spec.legacy (Idb.records (categories (stores w)))).
      { intros Hleg. apply migration_due in Hleg. congruence. }
      exists (Idb.getAll (categories (stores w))), w.
      split; [apply initializeDefaultCategories_settled; assumption|].
      split; [apply initializeDefaultCategories_settled; assumption|].
      repeat (split; [first [reflexivity | assumption]|]).
      split; [intros Hempty; contradiction|].
      split; [intros _ Hleg; contradiction|].
      reflexivity.
  - (* the first run *)
    assert (Hempty : Idb.records (categories (stores w)) = ∅).
    { destruct (decide (size (Idb.records (categories (stores w))) = 0%nat))
        as [Hz | Hnz].
      - apply map_size_empty_iff, Hz.
      - apply map_size_non_empty_iff, nonEmpty_getAll in Hnz. congruence. }
    destruct defaultCategories_new as [Hids Hnew].
    assert (Hnew' : newNames Database.defaultCategories
                             (Idb.records (categories (stores w))))
      by (rewrite Hempty; exact Hnew).
    destruct (seeded_ok _ _ Hwf Hu Hnew') as [Hwf' Hu'].
    assert (Hfurn : Spec.hasName "Furniture"
                      (Idb.records (Spec.seeded Database.defaultCategories
                                      (categories (stores w))))).
    { exists (Idb.keyGen (categories (stores w)) + 3),
             (Category.set_id (Idb.keyGen (categories (stores w)) + 3)
                              Database.furniture).
      split; [|reflexivity].
      apply (seeded_lookup _ _ _ _ Hwf). right.
      exists 3%nat, Database.furniture. repeat split. }
    eexists _, _.
    split; [apply initializeDefaultCategories_seeds, Hempty|].
    split.
    { apply initializeDefaultCategories_settled; cbn [stores categories].
      - destruct Hfurn as (k & c & Hk & _). intros He.
        rewrite He, lookup_empty in Hk. discriminate Hk.
      - intros [_ Hno]. exact (Hno Hfurn). }
    cbn [stores categories expenses settings].
    repeat (split; [first [reflexivity | assumption]|]).
    split.
    { intros _. split.
      - rewrite (seeded_size _ _ Hwf), Hempty, map_size_empty. reflexivity.
      - intros k c. rewrite (seeded_lookup _ _ _ _ Hwf), Hempty, lookup_empty.
        split; [intros [Hk | Hk]; [discriminate Hk | exact Hk] | auto]. }
    split; intros Hne; contradiction.
Qed.

(** ** Export and import *)

Lemma Category_set_own_id (k : Z) (c : Category.t) :
  Category.id c = Some k → Category.set_id k c = c.
Proof. destruct c. cbn. intros ->. reflexivity. Qed.

Lemma Expense_set_own_id (k : Z) (e : Expense.t) :
  Expense.id e = Some k → Expense.set_id k e = e.
Proof. destruct e. cbn. intros ->. reflexivity. Qed.

Lemma addCategory_keyed (c : Category.t) (k : Z)
      (es : Idb.ObjectStore Expense.t) (m : gmap Z Category.t) (g : Z)
      (ss : gmap string string) (t : nat) :
  Category.id c = Some k → m !! k = None → nameTaken c m = false → k < g →
  Database.addCategory c (mkWorld (mkStores es (Idb.mkStore m g) ss) t)
  = (Ok k, mkWorld (mkStores es (Idb.mkStore (<[k := c]> m) g) ss) t).
Proof.
  intros Hid Hk Hfree Hlt. unfold Database.addCategory. run.
  unfold Idb.add. cbn [Idb.keyOf Idb.withKey Category_keyed Idb.records
                       Idb.keyGen].
  rewrite Hid. cbn [default from_option id]. rewrite Hk, nameTaken_set_id, Hfree.
  rewrite (Category_set_own_id k c Hid).
  unfold Idb.bump. rewrite Z.max_l by lia. reflexivity.
Qed.

Lemma addExpense_keyed `{Host} (e : Expense.t) (k : Z)
      (m : gmap Z Expense.t) (g : Z) (cs : Idb.ObjectStore Category.t)
      (ss : gmap string string) (t : nat) :
  Expense.id e = Some k → m !! k = None → k < g →
  Database.addExpense e (mkWorld (mkStores (Idb.mkStore m g) cs ss) t)
  = (Ok k,
     mkWorld (mkStores
                (Idb.mkStore
                   (<[k := Expense.set_updatedAt (toISOString (clock (S t)))
                             (Expense.set_createdAt (toISOString (clock t)) e)]>
                      m) g) cs ss)
             (S (S t))).
Proof.
  intros Hid Hk Hlt. unfold Database.addExpense, Database.nowISO. run.
  unfold Idb.add. cbn [Idb.keyOf Idb.withKey Expense_keyed Idb.records
                       Idb.keyGen Expense.id Expense.set_updatedAt
                       Expense.set_createdAt].
  rewrite Hid. cbn [default from_option id]. rewrite Hk. cbn [Idb.noUnique].
  rewrite Expense_set_own_id by (cbn; exact Hid).
  unfold Idb.bump. rewrite Z.max_l by lia. reflexivity.
Qed.

(** Loading back records that came out of a registry [m0]: the keys are
    free and no name is taken, so every [add] succeeds. *)
Lemma import_categories (m0 : gmap Z Category.t) (g : Z)
      (es : Idb.ObjectStore Expense.t) (ss : gmap string string) (t : nat)
      (ps : list (Z * Category.t)) :
  Idb.wf (Idb.mkStore m0 g) → uniqueNames m0 →
  ∀ m,
    NoDup ps.*1 →
    (∀ k c, (k, c) ∈ ps → m0 !! k = Some c ∧ m !! k = None) →
    (∀ k c, m !! k = Some c → m0 !! k = Some c) →
    ∃ m',
      forEach Database.addCategory ps.*2
              (mkWorld (mkStores es (Idb.mkStore m g) ss) t)
      = (Ok tt, mkWorld (mkStores es (Idb.mkStore m' g) ss) t)
      ∧ ∀ k c, m' !! k = Some c ↔ (k, c) ∈ ps ∨ m !! k = Some c.
Proof.
  intros Hwf Hu. induction ps as [|[k c] ps IH]; intros m Hnd Hps Hsub.
  - exists m. split; [reflexivity|]. intros k c. split; [auto|].
    intros [Hin | Hk]; [inversion Hin | exact Hk].
  - cbn [fmap list_fmap fst snd] in Hnd. apply NoDup_cons in Hnd as [Hnotin Hnd].
    destruct (Hps k c (list_elem_of_here _ _)) as [Hk0 Hkm].
    destruct (Hwf k c Hk0) as [Hid Hlt]. cbn in Hid, Hlt.
    assert (Hfree : nameTaken c m = false).
    { destruct (nameTaken c m) eqn:Ht; [|reflexivity].
      apply nameTaken_true in Ht. destruct Ht as (n & k' & c' & Hn & Hk' & Hn').
      pose proof (Hu k k' c c' n Hk0 (Hsub _ _ Hk') Hn Hn') as ->.
      congruence. }
    destruct (IH (<[k := c]> m) Hnd) as (m' & Hrun & Hm').
    + intros k' c' Hin. destruct (Hps k' c' (list_elem_of_further _ _ _ Hin))
        as [Hk0' Hkm'].
      split; [exact Hk0'|]. rewrite lookup_insert_ne; [exact Hkm'|].
      intros <-. apply Hnotin. apply list_elem_of_fmap.
      exists (k, c'). auto.
    + intros k' c'. rewrite lookup_insert_Some.
      intros [[<- <-] | [_ Hk']]; [exact Hk0 | exact (Hsub _ _ Hk')].
    + exists m'. split.
      * cbn [fmap list_fmap forEach snd]. unfold mbind, M_bind.
        rewrite (addCategory_keyed c k) by assumption. exact Hrun.
      * intros k' c'. rewrite Hm', lookup_insert_Some, elem_of_cons.
        split.
        -- intros [Hin | [[<- <-] | [_ Hk']]]; auto.
        -- intros [[[= -> ->] | Hin] | Hk']; auto.
           destruct (decide (k = k')) as [<- | Hne]; [congruence | auto].
Qed.

Lemma import_expenses `{Host} (m0 : gmap Z Expense.t) (g : Z)
      (cs : Idb.ObjectStore Category.t) (ss : gmap string string)
      (ps : list (Z * Expense.t)) :
  Idb.wf (Idb.mkStore m0 g) →
  ∀ m t,
    NoDup ps.*1 →
    (∀ k e, (k, e) ∈ ps → m0 !! k = Some e ∧ m !! k = None) →
    ∃ m' t',
      forEach Database.addExpense ps.*2
              (mkWorld (mkStores (Idb.mkStore m g) cs ss) t)
      = (Ok tt, mkWorld (mkStores (Idb.mkStore m' g) cs ss) t')
      ∧ (∀ k e, (k, e) ∈ ps → ∃ e', m' !! k = Some e' ∧ Spec.restamped e e')
      ∧ (∀ k, k ∉ ps.*1 → m' !! k = m !! k).
Proof.
  intros Hwf. induction ps as [|[k e] ps IH]; intros m t Hnd Hps.
  - exists m, t. split; [reflexivity|]. split; [|reflexivity].
    intros k e Hin. inversion Hin.
  - cbn [fmap list_fmap fst snd] in Hnd. apply NoDup_cons in Hnd as [Hnotin Hnd].
    destruct (Hps k e (list_elem_of_here _ _)) as [Hk0 Hkm].
    destruct (Hwf k e Hk0) as [Hid Hlt]. cbn in Hid, Hlt.
    set (e1 := Expense.set_updatedAt (toISOString (clock (S t)))
                 (Expense.set_createdAt (toISOString (clock t)) e)).
    destruct (IH (<[k := e1]> m) (S (S t)) Hnd) as (m' & t' & Hrun & Hin' & Hout').
    + intros k' e0 Hin. destruct (Hps k' e0 (list_elem_of_further _ _ _ Hin))
        as [Hk0' Hkm'].
      split; [exact Hk0'|]. rewrite lookup_insert_ne; [exact Hkm'|].
      intros <-. apply Hnotin. apply list_elem_of_fmap.
      exists (k, e0). auto.
    + exists m', t'. split; [|split].
      * cbn [fmap list_fmap forEach snd]. unfold mbind, M_bind.
        rewrite (addExpense_keyed e k) by assumption. exact Hrun.
      * intros k' e0 Hin.
        apply elem_of_cons in Hin as [[= -> ->] | Hin].
        -- exists e1. split.
           ++ rewrite (Hout' k Hnotin). apply lookup_insert_eq.
           ++ unfold Spec.restamped, e1. eauto.
        -- exact (Hin' k' e0 Hin).
      * intros k' Hk'. cbn [fmap list_fmap fst] in Hk'.
        apply not_elem_of_cons in Hk' as [Hne Hk'].
        rewrite (Hout' k' Hk'). apply lookup_insert_ne. congruence.
Qed.

Section Sorted.
Context {A : Type}.

(** The key-sorted listing holds the entries of the map, once each. *)
Lemma sorted_entries (m : gmap Z A) :
  let ps := merge_sort Idb.keyLe (map_to_list m) in
  NoDup ps.*1 ∧ ∀ k v, (k, v) ∈ ps ↔ m !! k = Some v.
Proof.
  cbv zeta. split.
  - rewrite merge_sort_Permutation. apply NoDup_fst_map_to_list.
  - intros k v. rewrite merge_sort_Permutation. apply elem_of_map_to_list.
Qed.
End Sorted.

Lemma exportData_run `{Host} (w : World) :
  Database.exportData w
  = (Ok {| Snapshot.expenses := Some (Idb.getAll (expenses (stores w)));
           Snapshot.categories := Some (Idb.getAll (categories (stores w)));
           Snapshot.exportDate := Some (toISOString (clock (tick w)));
           Snapshot.version := Some 1 |},
     mkWorld (stores w) (S (tick w))).
Proof. reflexivity. Qed.

(** C3, as stated, fails: after export and import the stored expense has
    the time of the import in [createdAt] and [updatedAt], so the expense
    collection is not what it was. *)
Lemma round_trip_restamps_expenses :
  ∃ snap w1 w2 e',
    @Database.exportData Sample.host Sample.world = (Ok snap, w1)
    ∧ @Database.importData Sample.host snap w1 = (Ok true, w2)
    ∧ Idb.get 1 (expenses (stores Sample.world)) = Some Sample.internetBill
    ∧ Idb.get 1 (expenses (stores w2)) = Some e'
    ∧ Expense.createdAt Sample.internetBill
      = Some "2024-05-02T08:00:00.000Z"%string
    ∧ Expense.createdAt e' = Some "2024-06-10T06:13:20.001Z"%string
    ∧ expenses (stores w2) ≠ expenses (stores Sample.world).
Proof.
  eexists _, _, _, _.
  split; [vm_compute; reflexivity|].
  split; [vm_compute; reflexivity|].
  split; [reflexivity|].
  split; [vm_compute; reflexivity|].
  split; [reflexivity|].
  split; [reflexivity|].
  intros Heq.
  apply (f_equal (fun s => Expense.createdAt <$> Idb.get 1 s)) in Heq.
  vm_compute in Heq. discriminate Heq.
Qed.

(** C3, amended.  Export followed by import of the exported document, on
    stores as IndexedDB keeps them, succeeds and leaves the category store
    exactly as it was, keys and key generator included, and the settings
    untouched.  The expense store keeps its keys and its key generator, and
    each expense keeps every property, [id] included, except [createdAt] and
    [updatedAt], which [addExpense] writes anew on import. *)
Theorem round_trip_keeps_all_but_stamps `{Host} (w : World) :
  Idb.wf (expenses (stores w)) →
  Idb.wf (categories (stores w)) →
  uniqueNames (Idb.records (categories (stores w))) →
  ∃ snap w1 w2,
    Database.exportData w = (Ok snap, w1)
    ∧ Database.importData snap w1 = (Ok true, w2)
    ∧ categories (stores w2) = categories (stores w)
    ∧ settings (stores w2) = settings (stores w)
    ∧ Idb.keyGen (expenses (stores w2)) = Idb.keyGen (expenses (stores w))
    ∧ ∀ k,
        match Idb.get k (expenses (stores w)) with
        | Some e =>
            ∃ e', Idb.get k (expenses (stores w2)) = Some e'
                  ∧ Spec.restamped e e'
        | None => Idb.get k (expenses (stores w2)) = None
        end.
Proof.
  destruct w as [[[me ge] [mc gc] ss] t].
  cbn [stores expenses categories settings Idb.records Idb.keyGen].
  intros Hwfe Hwfc Hu.
  destruct (sorted_entries mc) as [Hndc Hinc].
  destruct (sorted_entries me) as [Hnde Hine].
  destruct (import_categories mc gc (Idb.mkStore ∅ ge) ss (S t)
              (merge_sort Idb.keyLe (map_to_list mc)) Hwfc Hu ∅ Hndc)
    as (mc' & Hrunc & Hmc').
  { intros k c Hin. split; [apply Hinc, Hin | apply lookup_empty]. }
  { intros k c Hk. rewrite lookup_empty in Hk. discriminate Hk. }
  destruct (import_expenses me ge (Idb.mkStore mc' gc) ss
              (merge_sort Idb.keyLe (map_to_list me)) Hwfe ∅ (S t) Hnde)
    as (me' & t' & Hrune & Hin' & Hout').
  { intros k e Hin. split; [apply Hine, Hin | apply lookup_empty]. }
  assert (Hmc : mc' = mc).
  { apply map_eq. intros k. apply option_eq. intros c.
    rewrite Hmc', Hinc, lookup_empty. split; [|auto].
    intros [Hk | Hk]; [exact Hk | discriminate Hk]. }
  subst mc'.
  eexists _, _, (mkWorld (mkStores (Idb.mkStore me' ge) (Idb.mkStore mc gc) ss) t').
  split; [apply exportData_run|].
  split.
  { unfold Database.importData, Database.clearBoth. run.
    cbn [Snapshot.categories Snapshot.expenses Idb.clear Idb.records
         Idb.keyGen].
    unfold Idb.getAll, Idb.clear. cbn [Idb.records Idb.keyGen].
    rewrite Hrunc. rewrite Hrune. reflexivity. }
  cbn [stores expenses categories settings Idb.records Idb.keyGen].
  split; [reflexivity|]. split; [reflexivity|]. split; [reflexivity|].
  intros k. unfold Idb.get. cbn [Idb.records].
  destruct (me !! k) as [e|] eqn:Hk.
  - apply Hin', Hine, Hk.
  - rewrite Hout'; [apply lookup_empty|].
    intros Hin. apply list_elem_of_fmap in Hin as ([k' e] & -> & Hin).
    apply Hine in Hin. cbn in Hk. congruence.
Qed.

(** ** Filtering *)

Section FilterFacts.
Context `{Host}.

Lemma newDate_dayOf (s : string) :
  newDate (Some s) = (λ n, n * msPerDay) <$> Spec.dayOf s.
Proof.
  unfold newDate, Spec.dayOf. cbn [mbind option_bind].
  destruct (parseIsoDate s) as [[[y m] d]|]; reflexivity.
Qed.

(** Midnight UTC of day [n] falls on local day [n] shifted by the whole
    days of the offset. *)
Lemma localDay_midnight (n : Z) :
  localDay (n * msPerDay) = n + tzOffset * 60000 / msPerDay.
Proof.
  unfold localDay, msPerDay. rewrite Z.div_add_l by lia. reflexivity.
Qed.

Lemma offset_days :
  -720 ≤ tzOffset ≤ 840 →
  tzOffset * 60000 / msPerDay = -1 ∨ tzOffset * 60000 / msPerDay = 0.
Proof.
  intros Htz. unfold msPerDay.
  assert (-1 ≤ tzOffset * 60000 / 86400000 ≤ 0); [|lia].
  split.
  - apply Z.div_le_lower_bound; lia.
  - assert (tzOffset * 60000 / 86400000 < 1); [|lia].
    apply Z.div_lt_upper_bound; lia.
Qed.

(** Start and end of the local day of a UTC midnight *)
Lemma dayStart (n : Z) :
  setHours 0 0 0 0 (Some (n * msPerDay))
  = Some (n * msPerDay - (tzOffset * 60000) mod msPerDay).
Proof.
  unfold setHours. cbn [mbind option_bind]. rewrite localDay_midnight.
  f_equal. unfold msPerDay.
  pose proof (Z.div_mod (tzOffset * 60000) 86400000). lia.
Qed.

Lemma dayEnd (n : Z) :
  setHours 23 59 59 999 (Some (n * msPerDay))
  = Some (n * msPerDay + (msPerDay - 1)
          - (tzOffset * 60000) mod msPerDay).
Proof.
  unfold setHours. cbn [mbind option_bind]. rewrite localDay_midnight.
  f_equal. unfold msPerDay.
  pose proof (Z.div_mod (tzOffset * 60000) 86400000). lia.
Qed.

(** On dates that parse, the range test compares day numbers, both ends
    included, whatever the time zone. *)
Lemma range_on_days (e f t : Z) :
  negb (dateLt (Some (e * msPerDay)) (setHours 0 0 0 0 (Some (f * msPerDay)))
        || dateGt (Some (e * msPerDay))
                  (setHours 23 59 59 999 (Some (t * msPerDay))))
  = true
  ↔ f ≤ e ≤ t.
Proof.
  rewrite dayStart, dayEnd. unfold dateGt, dateLt.
  rewrite negb_true_iff, orb_false_iff, !Z.ltb_ge.
  pose proof (Z.mod_pos_bound (tzOffset * 60000) msPerDay eq_refl).
  unfold msPerDay in *. lia.
Qed.

End FilterFacts.

Lemma numNe_false (x : option Z) (n : Z) : numNe x n = false ↔ x = Some n.
Proof.
  unfold numNe. destruct x as [v|].
  - rewrite negb_false_iff, Z.eqb_eq. split; congruence.
  - split; discriminate.
Qed.

Lemma quarter_months (m q : Z) :
  m / 3 + 1 = q ↔ 3 * (q - 1) ≤ m ≤ 3 * (q - 1) + 2.
Proof.
  pose proof (Z.div_mod m 3 ltac:(lia)).
  pose proof (Z.mod_pos_bound m 3 ltac:(lia)). lia.
Qed.

Section FilterClaims.
Context `{Host}.

Lemma range_has_priority (f : ExpenseManager.Filter.t) (y q : option Z)
      (e : Expense.t) :
  ExpenseManager.Filter.dateFrom f ≠ ""%string →
  ExpenseManager.Filter.dateTo f ≠ ""%string →
  ExpenseManager.keeps (Spec.withYearQuarter y q f) e
  = ExpenseManager.keeps f e.
Proof.
  intros Hf Ht. apply isEmpty_false in Hf. apply isEmpty_false in Ht.
  unfold ExpenseManager.keeps, ExpenseManager.searchStep,
    Spec.withYearQuarter.
  cbn [ExpenseManager.Filter.category ExpenseManager.Filter.year
       ExpenseManager.Filter.quarter ExpenseManager.Filter.dateFrom
       ExpenseManager.Filter.dateTo ExpenseManager.Filter.searchTerm].
  rewrite Hf, Ht. reflexivity.
Qed.

Lemma first_quarter_example (e1 e2 e3 : Expense.t) :
  -720 ≤ tzOffset ≤ 840 →
  Expense.datePaid e1 = Some "2024-01-15"%string →
  Expense.datePaid e2 = Some "2024-04-10"%string →
  Expense.datePaid e3 = Some "2024-12-31"%string →
  ExpenseManager.filterExpenses
    (ExpenseManager.Filter.mk "all" (Some 2024) (Some 1) "" "" "")
    [e1; e2; e3]
  = [e1].
Proof.
  intros Htz H1 H2 H3.
  unfold ExpenseManager.filterExpenses, ExpenseManager.keeps,
    ExpenseManager.searchStep.
  cbn [List.filter ExpenseManager.Filter.category ExpenseManager.Filter.year
       ExpenseManager.Filter.quarter ExpenseManager.Filter.dateFrom
       ExpenseManager.Filter.dateTo ExpenseManager.Filter.searchTerm].
  rewrite H1, H2, H3.
  replace (newDate (Some "2024-01-15"%string))
    with (Some (19737 * msPerDay)) by (vm_compute; reflexivity).
  replace (newDate (Some "2024-04-10"%string))
    with (Some (19823 * msPerDay)) by (vm_compute; reflexivity).
  replace (newDate (Some "2024-12-31"%string))
    with (Some (20088 * msPerDay)) by (vm_compute; reflexivity).
  unfold getFullYear, getMonth. cbn [mbind option_bind].
  rewrite !localDay_midnight.
  destruct (offset_days Htz) as [-> | ->]; vm_compute; reflexivity.
Qed.

End FilterClaims.

(** ** The monthly trend *)



Section TrendFacts.
Context `{Host}.





End TrendFacts.



(** ** The sample stores are as IndexedDB keeps them *)

Lemma sample_expenses_wf : Idb.wf (expenses (stores Sample.world)).
Proof.
  intros k v Hk. cbn in Hk.
  apply lookup_singleton_Some in Hk as [<- <-]. split; [reflexivity | cbn; lia].
Qed.

Lemma sample_categories_wf : Idb.wf (categories (stores Sample.world)).
Proof.
  intros k v Hk. cbn in Hk.
  apply lookup_singleton_Some in Hk as [<- <-]. split; [reflexivity | cbn; lia].
Qed.

Lemma sample_categories_unique :
  uniqueNames (Idb.records (categories (stores Sample.world))).
Proof.
  intros k1 k2 c1 c2 n H1 H2 _ _. cbn in H1, H2.
  apply lookup_singleton_Some in H1 as [<- _].
  apply lookup_singleton_Some in H2 as [<- _]. reflexivity.
Qed.

Lemma legacy_categories_wf : Idb.wf (categories (stores Sample.legacyWorld)).
Proof.
  intros k v Hk. cbn in Hk.
  apply lookup_insert_Some in Hk as [[<- <-] | [_ Hk]].
  - split; [reflexivity | cbn; lia].
  - apply lookup_singleton_Some in Hk as [<- <-].
    split; [reflexivity | cbn; lia].
Qed.

Lemma legacy_categories_unique :
  uniqueNames (Idb.records (categories (stores Sample.legacyWorld))).
Proof.
  intros k1 k2 c1 c2 n H1 H2 Hn1 Hn2. cbn in H1, H2.
  apply lookup_insert_Some in H1 as [[<- <-] | [_ H1]];
    apply lookup_insert_Some in H2 as [[<- <-] | [_ H2]];
    try apply lookup_singleton_Some in H1 as [<- <-];
    try apply lookup_singleton_Some in H2 as [<- <-];
    try reflexivity; cbn in Hn1, Hn2; congruence.
Qed.

Lemma addCategory_twice_keeps_one_witness :
  Idb.wf (categories (stores Sample.world))
  ∧ uniqueNames (Idb.records (categories (stores Sample.world)))
  ∧ Category.id Sample.travel = None
  ∧ Category.name Sample.travel = Some "Travel"%string
  ∧ ∃ r1 w1,
      Database.addCategory Sample.travel Sample.world = (r1, w1)
      ∧ Database.addCategory Sample.travel w1
        = (Throw ConstraintError, w1)
      ∧ Spec.exactlyOneNamed "Travel" (Idb.records (categories (stores w1))).
Proof.
  split; [exact sample_categories_wf|].
  split; [exact sample_categories_unique|].
  split; [reflexivity|]. split; [reflexivity|].
  destruct (addCategory_twice_keeps_one Sample.world
              Sample.travel Sample.travel "Travel"
              sample_categories_wf sample_categories_unique
              eq_refl eq_refl eq_refl)
    as (r1 & w1 & Hfirst & Hsecond & Hone & _).
  exists r1, w1. auto.
Defined.

Lemma initializeDefaultCategories_idempotent_witness :
  Idb.wf (categories (stores Sample.legacyWorld))
  ∧ uniqueNames (Idb.records (categories (stores Sample.legacyWorld)))
  ∧ ∃ l w1,
      Database.initializeDefaultCategories Sample.legacyWorld
      = (Ok l, w1)
      ∧ Database.initializeDefaultCategories w1 = (Ok l, w1)
      ∧ l = Idb.getAll (categories (stores w1))
      ∧ uniqueNames (Idb.records (categories (stores w1))).
Proof.
  split; [exact legacy_categories_wf|].
  split; [exact legacy_categories_unique|].
  destruct (initializeDefaultCategories_idempotent
              Sample.legacyWorld legacy_categories_wf
              legacy_categories_unique)
    as (l & w1 & Hfirst & Hsecond & Hl & Hu & _).
  exists l, w1. auto.
Defined.

Lemma round_trip_keeps_all_but_stamps_witness :
  Idb.wf (expenses (stores Sample.world))
  ∧ Idb.wf (categories (stores Sample.world))
  ∧ uniqueNames (Idb.records (categories (stores Sample.world)))
  ∧ ∃ snap w1 w2,
      @Database.exportData Sample.host Sample.world = (Ok snap, w1)
      ∧ @Database.importData Sample.host snap w1 = (Ok true, w2)
      ∧ categories (stores w2) = categories (stores Sample.world)
      ∧ settings (stores w2) = settings (stores Sample.world).
Proof.
  split; [exact sample_expenses_wf|].
  split; [exact sample_categories_wf|].
  split; [exact sample_categories_unique|].
  destruct (@round_trip_keeps_all_but_stamps Sample.host Sample.world
              sample_expenses_wf sample_categories_wf
              sample_categories_unique)
    as (snap & w1 & w2 & Hexp & Himp & Hc & Hs & _).
  exists snap, w1, w2. auto.
Defined.

(* ===================================================================== *)
(** * Part III: further properties of the code *)
(* ===================================================================== *)

(** ** Methods built from methods *)

Section Respects.
Context (R : World → World → Prop).
Hypothesis R_refl : ∀ w, R w w.
Hypothesis R_trans : ∀ w1 w2 w3, R w1 w2 → R w2 w3 → R w1 w3.

Lemma respects_ret {A : Type} (a : A) : Run.respects R (mret a : M A).
Proof. intros w. apply R_refl. Qed.

Lemma respects_throw {A : Type} (e : Error) : Run.respects R (@throw A e).
Proof. intros w. apply R_refl. Qed.

Lemma respects_readStores : Run.respects R readStores.
Proof. intros w. apply R_refl. Qed.

Lemma respects_bind {A B : Type} (c : M A) (f : A → M B) :
  Run.respects R c → (∀ a, Run.respects R (f a)) → Run.respects R (c ≫= f).
Proof.
  intros Hc Hf w. unfold mbind, M_bind. specialize (Hc w).
  destruct (c w) as [[a | e] w1]; cbn [fst snd] in *.
  - exact (R_trans _ _ _ Hc (Hf a w1)).
  - exact Hc.
Qed.

Lemma respects_catch {A : Type} (c : M A) (h : Error → M A) :
  Run.respects R c → (∀ e, Run.respects R (h e)) → Run.respects R (catch c h).
Proof.
  intros Hc Hh w. unfold catch. specialize (Hc w).
  destruct (c w) as [[a | e] w1]; cbn [fst snd] in *.
  - exact Hc.
  - exact (R_trans _ _ _ Hc (Hh e w1)).
Qed.

Lemma respects_forEach {A : Type} (f : A → M Z) (l : list A) :
  (∀ a, Run.respects R (f a)) → Run.respects R (forEach f l).
Proof.
  intros Hf. induction l as [|a l IH]; cbn [forEach].
  - apply respects_ret.
  - apply respects_bind; [apply Hf | intros _; exact IH].
Qed.
End Respects.

Lemma advances_refl (w : World) : Run.advances w w.
Proof. intros Hok. split; [exact Hok | lia]. Qed.

Lemma advances_trans (w1 w2 w3 : World) :
  Run.advances w1 w2 → Run.advances w2 w3 → Run.advances w1 w3.
Proof.
  intros H12 H23 Hok. destruct (H12 Hok) as (Hok2 & He & Hc).
  destruct (H23 Hok2) as (Hok3 & He' & Hc'). split; [exact Hok3 | lia].
Qed.

(** ** What the object store keeps *)

Section StoreSteps.
Context {A : Type} `{Idb.Keyed A}.
Hypothesis key_written : ∀ k (v : A), Idb.keyOf (Idb.withKey k v) = Some k.

Lemma insert_wf (s : Idb.ObjectStore A) (k : Z) (v : A) :
  Idb.wf s →
  Idb.wf (Idb.mkStore (<[k := Idb.withKey k v]> (Idb.records s))
                      (Idb.bump k (Idb.keyGen s))).
Proof.
  intros Hwf k' v'. cbn [Idb.records Idb.keyGen]. unfold Idb.bump.
  rewrite lookup_insert_Some. intros [[<- <-] | [_ Hk]].
  - split; [apply key_written | lia].
  - apply Hwf in Hk. destruct Hk. split; [assumption | lia].
Qed.

Lemma add_Some (violates : A → gmap Z A → bool) (v : A)
      (s s' : Idb.ObjectStore A) (k : Z) :
  Idb.add violates v s = Some (k, s') →
  k = default (Idb.keyGen s) (Idb.keyOf v)
  ∧ Idb.records s !! k = None
  ∧ violates (Idb.withKey k v) (Idb.records s) = false
  ∧ s' = Idb.mkStore (<[k := Idb.withKey k v]> (Idb.records s))
                     (Idb.bump k (Idb.keyGen s)).
Proof.
  unfold Idb.add. destruct (Idb.records s !! _) eqn:Hk; [discriminate|].
  destruct (violates _ _) eqn:Hv; [discriminate|].
  intros [= <- <-]. auto.
Qed.

Lemma put_Some (violates : A → gmap Z A → bool) (v : A)
      (s s' : Idb.ObjectStore A) (k : Z) :
  Idb.put violates v s = Some (k, s') →
  k = default (Idb.keyGen s) (Idb.keyOf v)
  ∧ s' = Idb.mkStore (<[k := Idb.withKey k v]> (Idb.records s))
                     (Idb.bump k (Idb.keyGen s)).
Proof.
  unfold Idb.put. destruct (violates _ _); [discriminate|].
  intros [= <- <-]. auto.
Qed.

Lemma delete_wf (s : Idb.ObjectStore A) (k : Z) :
  Idb.wf s → Idb.wf (Idb.delete k s).
Proof.
  intros Hwf k' v. unfold Idb.delete. cbn [Idb.records Idb.keyGen].
  rewrite lookup_delete_Some. intros [_ Hk]. exact (Hwf k' v Hk).
Qed.

Lemma clear_wf (s : Idb.ObjectStore A) : Idb.wf (Idb.clear s).
Proof.
  intros k v. unfold Idb.clear. cbn [Idb.records].
  rewrite lookup_empty. discriminate.
Qed.
End StoreSteps.

Lemma bump_ge (k g : Z) : g ≤ Idb.bump k g.
Proof. unfold Idb.bump. lia. Qed.

(** ** Every method keeps the stores in order *)

Lemma addExpense_advances `{Host} (e : Expense.t) :
  Run.respects Run.advances (Database.addExpense e).
Proof.
  intros w (He & Hc & Hu).
  unfold Database.addExpense, Database.nowISO. run.
  destruct (Idb.add _ _ _) as [[k s']|] eqn:Hadd; run.
  - apply add_Some in Hadd as (_ & _ & _ & ->).
    split; [|split; [apply bump_ge | lia]].
    split; [|split; assumption].
    apply insert_wf; [reflexivity | exact He].
  - split; [split; [|split]; assumption | lia].
Qed.

Lemma updateExpense_advances `{Host} (id : Z) (u : Expense.t) :
  Run.respects Run.advances (Database.updateExpense id u).
Proof.
  intros w (He & Hc & Hu).
  unfold Database.updateExpense, Database.getExpense, Database.nowISO. run.
  destruct (Idb.get id (expenses (stores w))) as [old|]; run;
    [|split; [split; [|split]; assumption | lia]].
  destruct (Idb.put _ _ _) as [[k s']|] eqn:Hput; run.
  - apply put_Some in Hput as (_ & ->).
    split; [|split; [apply bump_ge | lia]].
    split; [|split; assumption].
    apply insert_wf; [reflexivity | exact He].
  - split; [split; [|split]; assumption | lia].
Qed.

Lemma deleteExpense_advances (id : Z) :
  Run.respects Run.advances (Database.deleteExpense id).
Proof.
  intros w (He & Hc & Hu). unfold Database.deleteExpense. run.
  split; [|cbn; lia]. split; [|split; assumption].
  apply delete_wf, He.
Qed.

Lemma addCategory_advances (c : Category.t) :
  Run.respects Run.advances (Database.addCategory c).
Proof.
  intros w (He & Hc & Hu). unfold Database.addCategory. run.
  destruct (Idb.add _ _ _) as [[k s']|] eqn:Hadd; run.
  - apply add_Some in Hadd as (_ & Hfree & Hname & ->).
    split; [|split; [lia | apply bump_ge]].
    split; [exact He|]. split.
    + apply insert_wf; [reflexivity | exact Hc].
    + cbn [Idb.records]. apply uniqueNames_insert; [exact Hu | exact Hfree |].
      intros n k' c' Hn Hk' Hn'.
      assert (Ht : nameTaken (Idb.withKey k c)
                             (Idb.records (categories (stores w))) = true)
        by (apply nameTaken_true; exists n, k', c'; auto).
      congruence.
  - split; [split; [|split]; assumption | lia].
Qed.

Lemma deleteCategory_advances (id : Z) :
  Run.respects Run.advances (Database.deleteCategory id).
Proof.
  intros w (He & Hc & Hu). unfold Database.deleteCategory. run.
  split; [|cbn; lia]. split; [exact He|]. split.
  - apply delete_wf, Hc.
  - cbn [Idb.delete Idb.records]. apply uniqueNames_delete, Hu.
Qed.

Lemma getAllCategories_advances :
  Run.respects Run.advances Database.getAllCategories.
Proof. intros w. apply advances_refl. Qed.

Lemma deleteFound_advances (c : option Category.t) :
  Run.respects Run.advances (Database.deleteFound c).
Proof.
  unfold Database.deleteFound. destruct c as [c|].
  - destruct (Category.id c).
    + apply deleteCategory_advances.
    + intros w. apply advances_refl.
  - intros w. apply advances_refl.
Qed.

Lemma setSetting_advances (k v : string) :
  Run.respects Run.advances (Database.setSetting k v).
Proof.
  intros w Hok. unfold Database.setSetting. run.
  split; [exact Hok | lia].
Qed.

Lemma nowISO_advances `{Host} : Run.respects Run.advances Database.nowISO.
Proof. intros w Hok. split; [exact Hok | cbn; lia]. Qed.

Lemma clearBoth_advances : Run.respects Run.advances Database.clearBoth.
Proof.
  intros w (He & Hc & Hu). unfold Database.clearBoth. run.
  split; [|cbn; lia].
  split; [apply clear_wf|]. split; [apply clear_wf|].
  intros k1 k2 c1 c2 n H1. cbn in H1. rewrite lookup_empty in H1.
  discriminate H1.
Qed.

Lemma clearAllData_advances : Run.respects Run.advances Database.clearAllData.
Proof.
  intros w (He & Hc & Hu). unfold Database.clearAllData. run.
  split; [|cbn; lia].
  split; [apply clear_wf|]. split; [apply clear_wf|].
  intros k1 k2 c1 c2 n H1. cbn in H1. rewrite lookup_empty in H1.
  discriminate H1.
Qed.

Ltac advance :=
  repeat first
    [ apply addExpense_advances
    | apply updateExpense_advances
    | apply deleteExpense_advances
    | apply addCategory_advances
    | apply deleteCategory_advances
    | apply getAllCategories_advances
    | apply deleteFound_advances
    | apply setSetting_advances
    | apply nowISO_advances
    | apply clearBoth_advances
    | apply clearAllData_advances
    | apply (respects_ret _ advances_refl)
    | apply (respects_throw _ advances_refl)
    | apply (respects_forEach _ advances_refl advances_trans); intros ?
    | apply (respects_catch _ advances_trans); [|intros ?]
    | apply (respects_bind _ advances_trans); [|intros ?] ].

Lemma initializeDefaultCategories_advances :
  Run.respects Run.advances Database.initializeDefaultCategories.
Proof.
  unfold Database.initializeDefaultCategories.
  apply (respects_bind _ advances_trans); [advance|]. intros existing.
  destruct (0 <? _); [destruct (_ && _)|]; advance.
Qed.

Lemma importData_advances `{Host} (data : Snapshot.t) :
  Run.respects Run.advances (Database.importData data).
Proof.
  unfold Database.importData.
  destruct (Snapshot.categories data), (Snapshot.expenses data); advance.
Qed.

Lemma restoreFile_advances `{Host} (data : Snapshot.t) :
  Run.respects Run.advances (BackupManager.restoreFile data).
Proof.
  unfold BackupManager.restoreFile.
  apply (respects_catch _ advances_trans); [|intros ?; advance].
  apply (respects_bind _ advances_trans); [apply importData_advances|].
  intros ?. advance.
Qed.

Lemma handleExpenseSubmit_advances `{Host}
      (formData : ExpenseManager.FormData) (receipts : list Receipt.t) :
  Run.respects Run.advances (App.handleExpenseSubmit formData receipts).
Proof.
  unfold App.handleExpenseSubmit.
  apply (respects_catch _ advances_trans); [|intros ?; advance].
  destruct (0 <? _); [advance|].
  destruct (truthyStr _); [destruct (parseInt _)|]; advance.
Qed.

Lemma addCustomCategory_advances (name icon : option string) (pick : nat) :
  Run.respects Run.advances (App.addCustomCategory name icon pick).
Proof.
  unfold App.addCustomCategory. destruct (_ || _); advance.
Qed.

Lemma perform_advances `{Host} (c : Run.Call) (w : World) :
  Run.advances w (Run.perform c w).
Proof.
  destruct c; cbn [Run.perform].
  - apply addExpense_advances.
  - apply updateExpense_advances.
  - apply deleteExpense_advances.
  - apply addCategory_advances.
  - apply deleteCategory_advances.
  - apply initializeDefaultCategories_advances.
  - apply setSetting_advances.
  - apply importData_advances.
  - apply clearAllData_advances.
  - apply restoreFile_advances.
  - apply handleExpenseSubmit_advances.
  - apply addCustomCategory_advances.
Qed.

Lemma performAll_advances `{Host} (cs : list Run.Call) :
  ∀ w, Run.advances w (Run.performAll cs w).
Proof.
  unfold Run.performAll. induction cs as [|c cs IH]; intros w; cbn [fold_left].
  - apply advances_refl.
  - exact (advances_trans _ _ _ (perform_advances c w) (IH _)).
Qed.

Lemma fresh_storesOk (t : nat) : Run.storesOk (stores (Run.fresh t)).
Proof.
  unfold Run.fresh, Run.storesOk, Idb.created. cbn [stores expenses categories].
  split; [|split].
  - intros k v Hk. cbn in Hk. rewrite lookup_empty in Hk. discriminate Hk.
  - intros k v Hk. cbn in Hk. rewrite lookup_empty in Hk. discriminate Hk.
  - intros k1 k2 c1 c2 n H1. cbn in H1. rewrite lookup_empty in H1.
    discriminate H1.
Qed.

(** X1.  Whatever sequence of calls is made on a database as [init] creates
    it, resolved or rejected, the two keyed stores are as IndexedDB keeps
    them: every record carries its key in [id], the key generator is past
    every key in use, and no two categories share a name. *)
Theorem reachable_stores_in_order `{Host} (cs : list Run.Call) (t : nat) :
  Run.storesOk (stores (Run.performAll cs (Run.fresh t))).
Proof.
  apply (performAll_advances cs (Run.fresh t)), fresh_storesOk.
Qed.

(** X2.  A key is never given twice: once an expense is stored under [k],
    whatever calls follow (deletions, a reset or an import among them), an
    expense added without an [id] is stored under a key greater than [k]. *)
Theorem expense_keys_are_never_reused
        `{Host} (w : World) (cs : list Run.Call) (k : Z)
        (e0 e : Expense.t) :
  Run.storesOk (stores w) →
  Idb.get k (expenses (stores w)) = Some e0 →
  Expense.id e = None →
  ∃ k' w',
    Database.addExpense e (Run.performAll cs w) = (Ok k', w')
    ∧ k < k'
    ∧ Idb.get k' (expenses (stores (Run.performAll cs w))) = None
    ∧ ∃ e', Idb.get k' (expenses (stores w')) = Some e'
            ∧ Expense.id e' = Some k'.
Proof.
  intros Hok Hk Hid.
  destruct (performAll_advances cs w Hok) as ((He & _) & Hgen & _).
  eexists _, _. split; [apply addExpense_fresh; assumption|].
  split; [apply Hok in Hk; lia|].
  split; [apply wf_fresh, He|].
  eexists. split; [cbn; apply lookup_insert_eq | reflexivity].
Qed.

Lemma sample_storesOk : Run.storesOk (stores Sample.world).
Proof.
  split; [exact sample_expenses_wf|].
  split; [exact sample_categories_wf | exact sample_categories_unique].
Qed.

Lemma expense_keys_are_never_reused_witness :
  Run.storesOk (stores Sample.world)
  ∧ Idb.get 1 (expenses (stores Sample.world)) = Some Sample.internetBill
  ∧ Expense.id Sample.amountOnly = None
  ∧ ∃ k' w',
      @Database.addExpense Sample.host Sample.amountOnly
        (@Run.performAll Sample.host
           [Run.DeleteExpense 1; Run.ClearAllData] Sample.world)
      = (Ok k', w')
      ∧ 1 < k'.
Proof.
  split; [exact sample_storesOk|].
  split; [reflexivity|]. split; [reflexivity|].
  destruct (@expense_keys_are_never_reused Sample.host Sample.world
              [Run.DeleteExpense 1; Run.ClearAllData] 1
              Sample.internetBill Sample.amountOnly
              sample_storesOk eq_refl eq_refl)
    as (k' & w' & Hadd & Hlt & _).
  exists k', w'. auto.
Defined.

(** ** Single expenses and settings *)

(** X3.  [deleteExpense(id)] always resolves: afterwards no expense is
    stored under [id], every other expense, the key generator, the
    categories and the settings are as before, and when no expense was
    stored under [id] nothing has changed at all (no error is raised for a
    missing record, unlike [updateExpense]). *)
Theorem deleteExpense_removes_that_expense_only (w : World) (id : Z) :
  ∃ w',
    Database.deleteExpense id w = (Ok true, w')
    ∧ Idb.get id (expenses (stores w')) = None
    ∧ (∀ k, k ≠ id →
            Idb.get k (expenses (stores w')) = Idb.get k (expenses (stores w)))
    ∧ Idb.keyGen (expenses (stores w')) = Idb.keyGen (expenses (stores w))
    ∧ categories (stores w') = categories (stores w)
    ∧ settings (stores w') = settings (stores w)
    ∧ (Idb.get id (expenses (stores w)) = None → w' = w).
Proof.
  eexists. split; [reflexivity|].
  cbn [stores expenses categories settings]. unfold Idb.get, Idb.delete.
  cbn [Idb.records Idb.keyGen].
  split; [apply lookup_delete_eq|].
  split; [intros k Hk; apply lookup_delete_ne; congruence|].
  repeat (split; [reflexivity|]).
  intros Hnone. rewrite delete_id by exact Hnone.
  destruct w as [[[me ge] cs ss] t]. reflexivity.
Qed.

(** X4.  On an expense store in order, [addExpense] of a record without
    [id] resolves with a new key, and [getExpense] of that key returns the
    record as given, with the key in [id] and the two stamps of the call;
    every expense stored before is still there, unchanged.  A record that
    carries the [id] of a stored expense is rejected with a ConstraintError
    and the stores stay as they were. *)
Theorem addExpense_then_getExpense
        `{Host} (w : World) (e : Expense.t) :
  Idb.wf (expenses (stores w)) →
  Expense.id e = None →
  ∃ k w' stored,
    Database.addExpense e w = (Ok k, w')
    ∧ Idb.get k (expenses (stores w)) = None
    ∧ Database.getExpense k w' = (Ok (Some stored), w')
    ∧ stored = Expense.set_id k
                 (Expense.set_updatedAt (toISOString (clock (S (tick w))))
                    (Expense.set_createdAt (toISOString (clock (tick w))) e))
    ∧ (∀ k0 e0, Idb.get k0 (expenses (stores w)) = Some e0 →
                Database.getExpense k0 w' = (Ok (Some e0), w'))
    ∧ (∀ k0 e0 e2, Idb.get k0 (expenses (stores w)) = Some e0 →
                   Expense.id e2 = Some k0 →
                   ∃ w2, Database.addExpense e2 w
                         = (Throw ConstraintError, w2)
                         ∧ stores w2 = stores w).
Proof.
  intros Hwf Hid.
  eexists _, _, _. split; [apply addExpense_fresh; assumption|].
  split; [apply wf_fresh, Hwf|].
  unfold Database.getExpense. run. unfold Idb.get. cbn [Idb.records].
  rewrite lookup_insert_eq.
  split; [reflexivity|]. split; [reflexivity|]. split.
  - intros k0 e0 Hk0. rewrite lookup_insert_ne, Hk0; [reflexivity|].
    apply Hwf in Hk0. lia.
  - intros k0 e0 e2 Hk0 Hid2.
    exists (mkWorld (stores w) (S (S (tick w)))). split; [|reflexivity].
    unfold Database.addExpense, Database.nowISO. run. unfold Idb.add.
    cbn [Idb.keyOf Idb.withKey Expense_keyed Expense.id
         Expense.set_updatedAt Expense.set_createdAt].
    rewrite Hid2. cbn [default from_option id]. unfold Idb.get in Hk0.
    rewrite Hk0. reflexivity.
Qed.

Lemma addExpense_then_getExpense_witness :
  Idb.wf (expenses (stores Sample.world))
  ∧ Expense.id Sample.amountOnly = None
  ∧ ∃ k w' stored,
      @Database.addExpense Sample.host Sample.amountOnly Sample.world
      = (Ok k, w')
      ∧ Database.getExpense k w' = (Ok (Some stored), w').
Proof.
  split; [exact sample_expenses_wf|]. split; [reflexivity|].
  destruct (@addExpense_then_getExpense Sample.host Sample.world
              Sample.amountOnly sample_expenses_wf eq_refl)
    as (k & w' & stored & Hadd & _ & Hget & _).
  exists k, w', stored. auto.
Defined.

(** X5.  A setting written by [setSetting] is what [getSetting] returns for
    that key, whatever the default; the other settings and the two keyed
    stores are untouched; a key never written gives the default. *)
Theorem setSetting_then_getSetting
        (w : World) (key value : string) (defaultValue : option string) :
  ∃ w',
    Database.setSetting key value w = (Ok true, w')
    ∧ Database.getSetting key defaultValue w' = (Ok (Some value), w')
    ∧ (∀ key', key' ≠ key →
               (Database.getSetting key' defaultValue w').1
               = (Database.getSetting key' defaultValue w).1)
    ∧ expenses (stores w') = expenses (stores w)
    ∧ categories (stores w') = categories (stores w)
    ∧ (settings (stores w) !! key = None →
       Database.getSetting key defaultValue w = (Ok defaultValue, w)).
Proof.
  eexists. split; [reflexivity|].
  unfold Database.getSetting. run.
  rewrite lookup_insert_eq. split; [reflexivity|].
  split.
  { intros key' Hne. rewrite lookup_insert_ne by congruence. reflexivity. }
  split; [reflexivity|]. split; [reflexivity|].
  intros ->. reflexivity.
Qed.

(** ** Submitting the expense form *)

Lemma validateExpense_nil (e : Expense.t) :
  ExpenseManager.validateExpense e = [] ↔ Spec.acceptable e.
Proof.
  destruct (validateExpense_rules e) as (_ & _ & _ & _ & _ & _ & Hnil).
  cbv zeta in Hnil. rewrite Hnil. unfold Spec.acceptable.
  rewrite !truthyStr_present, !blank_false, badAmount_false,
    badPercent_false. reflexivity.
Qed.

Lemma no_errors (errors : list string) :
  (0 <? Z.of_nat (length errors)) = false ↔ errors = [].
Proof.
  destruct errors; cbn [length]; rewrite Z.ltb_ge; split;
    first [reflexivity | lia | discriminate].
Qed.

Lemma coversCore_ok (e e' : Expense.t) :
  Run.coversCore e e' →
  Spec.acceptable e ∧ Spec.deductibleConsistent e →
  Spec.acceptable e' ∧ Spec.deductibleConsistent e'.
Proof.
  intros (Hd & Hm & Hx & Hc & Ha & Hp & Hded)
         [((d & Hd1 & Hd2) & (m & Hm1 & Hm2) & (x & Hx1 & Hx2)
           & (c & Hc1 & Hc2) & (a & Ha1 & Ha2) & (p & Hp1 & Hp2))
          (a' & p' & d' & Ha' & Hp' & Hd' & Heq)].
  split.
  - split; [exists d; auto|]. split; [exists m; auto|].
    split; [exists x; auto|]. split; [exists c; auto|].
    split; [exists a; auto | exists p; auto].
  - exists a', p', d'. auto.
Qed.

Lemma coversCore_refl (e : Expense.t) : Run.coversCore e e.
Proof. repeat split; auto. Qed.

(** The draft that [handleExpenseSubmit] validates and writes *)
Lemma draft_consistent `{Host} (formData : ExpenseManager.FormData)
      (receipts : list Receipt.t) :
  Spec.deductibleConsistent
    (Expense.set_receiptFiles receipts
       (ExpenseManager.createExpenseFromForm formData)).
Proof. apply createExpenseFromForm_consistent. Qed.

Lemma stored_after_add_ok (k : Z) (t1 t2 : string) (e : Expense.t) :
  Spec.acceptable e ∧ Spec.deductibleConsistent e →
  Spec.acceptable
    (Expense.set_id k (Expense.set_updatedAt t2 (Expense.set_createdAt t1 e)))
  ∧ Spec.deductibleConsistent
      (Expense.set_id k (Expense.set_updatedAt t2 (Expense.set_createdAt t1 e))).
Proof. apply coversCore_ok. repeat split; auto. Qed.

Lemma stored_after_update_ok (k id : Z) (t : string) (old e : Expense.t) :
  Spec.acceptable e ∧ Spec.deductibleConsistent e →
  Spec.acceptable
    (Expense.set_id k
       (Expense.set_updatedAt t (Expense.set_id id (Expense.spread old e))))
  ∧ Spec.deductibleConsistent
      (Expense.set_id k
         (Expense.set_updatedAt t (Expense.set_id id (Expense.spread old e)))).
Proof.
  apply coversCore_ok. repeat split; cbn; intros v ->; reflexivity.
Qed.

Lemma ledgerOk_insert (s : Stores) (k g : Z) (e : Expense.t)
      (cs : Idb.ObjectStore Category.t) (ss : gmap string string) :
  Run.ledgerOk s →
  Spec.acceptable e ∧ Spec.deductibleConsistent e →
  Run.ledgerOk (mkStores (Idb.mkStore (<[k := e]> (Idb.records (expenses s))) g)
                         cs ss).
Proof.
  intros Hl He k' e'. cbn [expenses Idb.records].
  rewrite lookup_insert_Some. intros [[<- <-] | [_ Hk]]; [exact He|].
  exact (Hl k' e' Hk).
Qed.

Lemma ledgerKept_refl (w : World) : Run.ledgerKept w w.
Proof. intros Hl. exact Hl. Qed.

Lemma ledgerKept_trans (w1 w2 w3 : World) :
  Run.ledgerKept w1 w2 → Run.ledgerKept w2 w3 → Run.ledgerKept w1 w3.
Proof. unfold Run.ledgerKept. auto. Qed.

Lemma sameExpenses_refl (w : World) : Run.sameExpenses w w.
Proof. reflexivity. Qed.

Lemma sameExpenses_trans (w1 w2 w3 : World) :
  Run.sameExpenses w1 w2 → Run.sameExpenses w2 w3 → Run.sameExpenses w1 w3.
Proof. unfold Run.sameExpenses. congruence. Qed.

Lemma sameExpenses_ledgerKept (w w' : World) :
  Run.sameExpenses w w' → Run.ledgerKept w w'.
Proof.
  unfold Run.sameExpenses, Run.ledgerKept, Run.ledgerOk. intros ->. auto.
Qed.

Lemma addCategory_sameExpenses (c : Category.t) :
  Run.respects Run.sameExpenses (Database.addCategory c).
Proof.
  intros w. unfold Database.addCategory. run.
  destruct (Idb.add _ _ _) as [[k s']|]; reflexivity.
Qed.

Lemma deleteFound_sameExpenses (c : option Category.t) :
  Run.respects Run.sameExpenses (Database.deleteFound c).
Proof.
  intros w. unfold Database.deleteFound.
  destruct c as [c|]; [destruct (Category.id c)|]; reflexivity.
Qed.

Lemma getAllCategories_sameExpenses :
  Run.respects Run.sameExpenses Database.getAllCategories.
Proof. intros w. reflexivity. Qed.

Ltac same :=
  repeat first
    [ apply addCategory_sameExpenses
    | apply deleteFound_sameExpenses
    | apply getAllCategories_sameExpenses
    | apply (respects_ret _ sameExpenses_refl)
    | apply (respects_throw _ sameExpenses_refl)
    | apply (respects_forEach _ sameExpenses_refl sameExpenses_trans); intros ?
    | apply (respects_catch _ sameExpenses_trans); [|intros ?]
    | apply (respects_bind _ sameExpenses_trans); [|intros ?] ].

Lemma initializeDefaultCategories_sameExpenses :
  Run.respects Run.sameExpenses Database.initializeDefaultCategories.
Proof.
  unfold Database.initializeDefaultCategories.
  apply (respects_bind _ sameExpenses_trans); [same|]. intros existing.
  destruct (0 <? _); [destruct (_ && _)|]; same.
Qed.

Lemma addCustomCategory_sameExpenses (name icon : option string) (pick : nat) :
  Run.respects Run.sameExpenses (App.addCustomCategory name icon pick).
Proof. unfold App.addCustomCategory. destruct (_ || _); same. Qed.

Lemma handleExpenseSubmit_ledgerKept `{Host}
      (formData : ExpenseManager.FormData) (receipts : list Receipt.t) :
  Run.respects Run.ledgerKept (App.handleExpenseSubmit formData receipts).
Proof.
  intros w Hl. unfold App.handleExpenseSubmit.
  set (draft := Expense.set_receiptFiles receipts
                  (ExpenseManager.createExpenseFromForm formData)).
  unfold catch.
  destruct (0 <? _) eqn:Herr; [exact Hl|].
  apply no_errors, validateExpense_nil in Herr.
  assert (Hdraft : Spec.acceptable draft ∧ Spec.deductibleConsistent draft)
    by (split; [exact Herr | apply draft_consistent]).
  destruct (truthyStr _).
  - destruct (parseInt _) as [id|]; [|exact Hl].
    unfold Database.updateExpense, Database.getExpense, Database.nowISO. run.
    destruct (Idb.get id (expenses (stores w))) as [old|]; run; [|exact Hl].
    destruct (Idb.put _ _ _) as [[k s']|] eqn:Hput; run; [|exact Hl].
    apply (put_Some (A := Expense.t)) in Hput as (_ & ->).
    apply ledgerOk_insert; [exact Hl|].
    apply stored_after_update_ok, Hdraft.
  - unfold Database.addExpense, Database.nowISO. run.
    destruct (Idb.add _ _ _) as [[k s']|] eqn:Hadd; run; [|exact Hl].
    apply (add_Some (A := Expense.t)) in Hadd as (_ & _ & _ & ->).
    apply ledgerOk_insert; [exact Hl|].
    apply stored_after_add_ok, Hdraft.
Qed.

(** X6.  [handleExpenseSubmit] never rejects: every error ends in its
    [catch] block.  When the form fails validation nothing is written and
    the clock is not even read; the same holds when the form names an
    expense to edit that is not stored, or an [expenseId] that is no
    number. *)
Theorem handleExpenseSubmit_writes_only_valid_forms
        `{Host} (formData : ExpenseManager.FormData)
        (receipts : list Receipt.t) (w : World) :
  let draft := Expense.set_receiptFiles receipts
                 (ExpenseManager.createExpenseFromForm formData) in
  ∃ w',
    App.handleExpenseSubmit formData receipts w = (Ok tt, w')
    ∧ (ExpenseManager.validateExpense draft ≠ [] → w' = w)
    ∧ (∀ text, formData "expenseId"%string = Some text →
               text ≠ ""%string →
               match parseInt text with
               | None => w' = w
               | Some id =>
                   Idb.get id (expenses (stores w)) = None → w' = w
               end).
Proof.
  cbv zeta. unfold App.handleExpenseSubmit.
  set (draft := Expense.set_receiptFiles receipts
                  (ExpenseManager.createExpenseFromForm formData)).
  unfold catch.
  destruct (0 <? _) eqn:Herr.
  - exists w. split; [reflexivity|]. split; [reflexivity|].
    intros text _ _. destruct (parseInt text); auto.
  - apply no_errors in Herr.
    destruct (formData "expenseId"%string) as [text|] eqn:Hid;
      cbn [truthyStr joinItem].
    + destruct (isEmpty text) eqn:Hempty; cbn [negb].
      * apply isEmpty_true in Hempty. subst text.
        destruct (Database.addExpense draft w) as [[k | err] w1] eqn:Hadd;
          unfold mbind, M_bind; rewrite Hadd;
          (eexists; split; [reflexivity|]; split; [congruence|]);
          intros text [= <-] Hne; congruence.
      * destruct (parseInt text) as [id|] eqn:Hparse.
        -- destruct (Database.updateExpense id draft w) as [[e | err] w1]
             eqn:Hup; unfold mbind, M_bind; rewrite Hup;
             (eexists; split; [reflexivity|]; split; [congruence|]);
             intros text' [= <-] _; rewrite Hparse; intros Hnone;
             rewrite (updateExpense_missing w id draft Hnone) in Hup;
             congruence.
        -- exists w. split; [reflexivity|]. split; [reflexivity|].
           intros text' [= <-] _. rewrite Hparse. reflexivity.
    + destruct (Database.addExpense draft w) as [[k | err] w1] eqn:Hadd;
        unfold mbind, M_bind; rewrite Hadd;
        (eexists; split; [reflexivity|]; split; [congruence|]);
        intros text Hsome; discriminate Hsome.
Qed.

Lemma perform_ledgerKept `{Host} (c : Run.Call) (w : World) :
  Run.fromTheForm c → Run.ledgerKept w (Run.perform c w).
Proof.
  destruct c; cbn [Run.fromTheForm Run.perform]; intros Hc;
    try contradiction.
  - intros Hl k e. unfold Database.deleteExpense. run.
    cbn [snd stores expenses]. unfold Idb.delete. cbn [Idb.records].
    rewrite lookup_delete_Some. intros [_ Hk]. exact (Hl k e Hk).
  - apply sameExpenses_ledgerKept, addCategory_sameExpenses.
  - apply sameExpenses_ledgerKept. reflexivity.
  - apply sameExpenses_ledgerKept, initializeDefaultCategories_sameExpenses.
  - apply sameExpenses_ledgerKept. reflexivity.
  - intros _ k e. unfold Database.clearAllData. run.
    cbn [snd stores expenses]. unfold Idb.clear. cbn [Idb.records].
    rewrite lookup_empty. discriminate.
  - apply handleExpenseSubmit_ledgerKept.
  - apply sameExpenses_ledgerKept, addCustomCategory_sameExpenses.
Qed.

(** X7.  Through the application's own calls (the expense form, deletions,
    the category calls, settings and the reset) the ledger stays in order:
    starting from an empty database, every stored expense passes validation
    and has [deductible == expenseAmount * percentUsedForWork / 100]. *)
Theorem ledger_in_order_through_the_form
        `{Host} (cs : list Run.Call) (t : nat) :
  Forall Run.fromTheForm cs →
  Run.ledgerOk (stores (Run.performAll cs (Run.fresh t))).
Proof.
  intros Hcs.
  assert (Hstep : ∀ w, Run.ledgerKept w (Run.performAll cs w)).
  { unfold Run.performAll. induction Hcs as [|c cs Hc _ IH]; intros w;
      cbn [fold_left].
    - apply ledgerKept_refl.
    - exact (ledgerKept_trans _ _ _ (perform_ledgerKept c w Hc) (IH _)). }
  apply Hstep. intros k e Hk. cbn in Hk. rewrite lookup_empty in Hk.
  discriminate Hk.
Qed.

Lemma ledger_in_order_through_the_form_witness :
  Forall Run.fromTheForm
         [Run.InitializeDefaultCategories;
          Run.HandleExpenseSubmit Sample.form [];
          Run.SetSetting "googleClientId" "none"]
  ∧ Run.ledgerOk
      (stores (@Run.performAll Sample.host
                 [Run.InitializeDefaultCategories;
                  Run.HandleExpenseSubmit Sample.form [];
                  Run.SetSetting "googleClientId" "none"]
                 (Run.fresh 0)))
  ∧ size (Idb.records
            (expenses
               (stores (@Run.performAll Sample.host
                          [Run.InitializeDefaultCategories;
                           Run.HandleExpenseSubmit Sample.form [];
                           Run.SetSetting "googleClientId" "none"]
                          (Run.fresh 0)))))
    = 1%nat.
Proof.
  assert (Hcs : Forall Run.fromTheForm
                  [Run.InitializeDefaultCategories;
                   Run.HandleExpenseSubmit Sample.form [];
                   Run.SetSetting "googleClientId" "none"])
    by (repeat constructor).
  split; [exact Hcs|]. split.
  - exact (@ledger_in_order_through_the_form Sample.host _ 0%nat Hcs).
  - vm_compute. reflexivity.
Defined.

(** X8.  What [createExpenseFromForm] makes of text that is no number: an
    amount that does not parse becomes 0 and the draft is rejected for its
    amount; a percentage that does not parse becomes 0, which validation
    accepts, and the deductible is then 0 whatever the amount. *)
Theorem unparsable_numbers_in_the_form
        `{Host} (formData : ExpenseManager.FormData) :
  let draft := ExpenseManager.createExpenseFromForm formData in
  (parseFloat (formData "expenseAmount"%string) = NaN →
   Expense.expenseAmount draft = Some 0%Q
   ∧ In "Expense Amount must be greater than 0"%string
        (ExpenseManager.validateExpense draft))
  ∧ (parseFloat (formData "percentUsedForWork"%string) = NaN →
     Expense.percentUsedForWork draft = Some 0%Q
     ∧ ¬ In "% Used for Work must be between 0 and 100"%string
            (ExpenseManager.validateExpense draft)
     ∧ ∃ d, Expense.deductible draft = Some d ∧ (d == 0)%Q).
Proof.
  cbv zeta. split.
  - intros Hnan.
    assert (Ha : Expense.expenseAmount
                   (ExpenseManager.createExpenseFromForm formData) = Some 0%Q)
      by (cbn; rewrite Hnan; reflexivity).
    split; [exact Ha|].
    apply (validateExpense_rules (ExpenseManager.createExpenseFromForm formData)).
    rewrite Ha. reflexivity.
  - intros Hnan.
    assert (Hp : Expense.percentUsedForWork
                   (ExpenseManager.createExpenseFromForm formData) = Some 0%Q)
      by (cbn; rewrite Hnan; reflexivity).
    split; [exact Hp|]. split.
    + intros Hin.
      apply (validateExpense_rules
               (ExpenseManager.createExpenseFromForm formData)) in Hin.
      rewrite Hp in Hin. discriminate Hin.
    + eexists. split; [reflexivity|].
      cbn. rewrite Hnan. cbn [orZero].
      unfold ExpenseManager.calculateDeductible. field.
Qed.

Lemma unparsable_numbers_in_the_form_witness :
  @parseFloat Sample.host (Sample.scribbled "expenseAmount") = NaN
  ∧ @parseFloat Sample.host (Sample.scribbled "percentUsedForWork") = NaN
  ∧ In "Expense Amount must be greater than 0"%string
       (ExpenseManager.validateExpense
          (@ExpenseManager.createExpenseFromForm Sample.host Sample.scribbled))
  ∧ ∃ d, Expense.deductible
           (@ExpenseManager.createExpenseFromForm Sample.host Sample.scribbled)
         = Some d
         ∧ (d == 0)%Q.
Proof.
  assert (Ha : @parseFloat Sample.host (Sample.scribbled "expenseAmount")
               = NaN) by reflexivity.
  assert (Hp : @parseFloat Sample.host (Sample.scribbled "percentUsedForWork")
               = NaN) by reflexivity.
  split; [exact Ha|]. split; [exact Hp|].
  destruct (@unparsable_numbers_in_the_form Sample.host Sample.scribbled)
    as [Hamount Hpercent].
  split; [exact (proj2 (Hamount Ha))|].
  exact (proj2 (proj2 (Hpercent Hp))).
Defined.

(** ** Categories and the reset, as the application calls them *)

Lemma addCategory_leaves_one (w : World) (c : Category.t) (n : string) :
  Idb.wf (categories (stores w)) →
  uniqueNames (Idb.records (categories (stores w))) →
  Category.id c = None →
  Category.name c = Some n →
  ∃ r w1,
    Database.addCategory c w = (r, w1)
    ∧ Spec.exactlyOneNamed n (Idb.records (categories (stores w1)))
    ∧ expenses (stores w1) = expenses (stores w)
    ∧ settings (stores w1) = settings (stores w)
    ∧ (Spec.hasName n (Idb.records (categories (stores w))) → w1 = w).
Proof.
  intros Hwf Hu Hid Hn.
  destruct (nameTaken c (Idb.records (categories (stores w)))) eqn:Ht.
  - exists (Throw ConstraintError), w.
    split; [apply addCategory_taken, Ht|].
    apply nameTaken_true in Ht.
    destruct Ht as (n' & k & c' & Hn' & Hk & Hc').
    assert (n' = n) as -> by congruence.
    split; [|auto].
    exists k, c'. split; [exact Hk|]. split; [exact Hc'|].
    intros k' c'' Hk' Hc''. exact (Hu k' k c'' c' n Hk' Hk Hc'' Hc').
  - eexists _, _. split; [apply addCategory_fresh; assumption|].
    pose proof (proj1 (nameTaken_false c _ n Hn) Ht) as Hfree.
    cbn [stores categories expenses settings Idb.records].
    split; [|split; [reflexivity|split; [reflexivity|]]].
    + exists (Idb.keyGen (categories (stores w))),
             (Category.set_id (Idb.keyGen (categories (stores w))) c).
      split; [apply lookup_insert_eq|]. split; [exact Hn|].
      intros k' c' Hk' Hc'.
      destruct (decide (k' = Idb.keyGen (categories (stores w))))
        as [-> | Hne]; [reflexivity|].
      rewrite lookup_insert_ne in Hk' by congruence.
      exfalso. exact (Hfree k' c' Hk' Hc').
    + intros (k & c' & Hk & Hc'). exfalso. exact (Hfree k c' Hk Hc').
Qed.

(** X9.  [addCustomCategory] never rejects.  A cancelled, empty or blank
    name changes nothing.  Otherwise the name is trimmed and, on a registry
    in order, exactly one category carries the trimmed name afterwards: the
    new one, or the one that was there already, in which case nothing
    changes.  Expenses and settings are untouched. *)
Theorem addCustomCategory_keeps_names_unique
        (w : World) (name icon : option string) (pick : nat) :
  Idb.wf (categories (stores w)) →
  uniqueNames (Idb.records (categories (stores w))) →
  ∃ w',
    App.addCustomCategory name icon pick w = (Ok tt, w')
    ∧ expenses (stores w') = expenses (stores w)
    ∧ settings (stores w') = settings (stores w)
    ∧ match name with
      | None => w' = w
      | Some text =>
          if isEmpty (trim text) then w' = w
          else Spec.exactlyOneNamed (trim text)
                 (Idb.records (categories (stores w')))
               ∧ (Spec.hasName (trim text)
                    (Idb.records (categories (stores w))) → w' = w)
      end.
Proof.
  intros Hwf Hu. unfold App.addCustomCategory.
  destruct name as [text|]; cbn [joinItem];
    [|exists w; repeat split; reflexivity].
  destruct (isEmpty (trim text)) eqn:Htrim.
  - rewrite orb_true_r. exists w. repeat split; reflexivity.
  - assert (Htruthy : truthyStr (Some text) = true).
    { destruct text; [discriminate Htrim | reflexivity]. }
    rewrite Htruthy. cbn [negb orb].
    set (c := Category.mk None (Some (trim text))
                (App.generateRandomColor pick)
                (Some (if truthyStr icon then joinItem icon
                       else "📦"%string))).
    destruct (addCategory_leaves_one w c (trim text) Hwf Hu
                eq_refl eq_refl)
      as (r & w1 & Hadd & Hone & He & Hs & Hsame).
    exists w1. unfold catch, mbind, M_bind. rewrite Hadd.
    destruct r; auto.
Qed.

Lemma addCustomCategory_keeps_names_unique_witness :
  Idb.wf (categories (stores Sample.world))
  ∧ uniqueNames (Idb.records (categories (stores Sample.world)))
  ∧ ∃ w',
      App.addCustomCategory (Some "  Travel ") None 4 Sample.world
      = (Ok tt, w')
      ∧ Spec.exactlyOneNamed "Travel" (Idb.records (categories (stores w'))).
Proof.
  split; [exact sample_categories_wf|].
  split; [exact sample_categories_unique|].
  destruct (addCustomCategory_keeps_names_unique Sample.world
              (Some "  Travel "%string) None 4
              sample_categories_wf sample_categories_unique)
    as (w' & Hrun & _ & _ & Hone).
  exists w'. split; [exact Hrun|]. exact (proj1 Hone).
Defined.

(** X10.  The reset of the application never rejects and does nothing
    unless both dialogs are confirmed.  When they are, no expense and no
    setting is left, the registry holds the ten built-in categories and
    nothing else, and the key generators keep counting from where they
    were, so the built-in categories get new keys. *)
Theorem reset_leaves_the_built_in_categories
        (w : World) (confirmed doubleCheck : bool) :
  ∃ w',
    App.clearAllData confirmed doubleCheck w = (Ok tt, w')
    ∧ (confirmed && doubleCheck = false → w' = w)
    ∧ (confirmed && doubleCheck = true →
       Idb.records (expenses (stores w')) = ∅
       ∧ Idb.keyGen (expenses (stores w')) = Idb.keyGen (expenses (stores w))
       ∧ settings (stores w') = ∅
       ∧ size (Idb.records (categories (stores w'))) = 10%nat
       ∧ ∀ k c,
           Idb.records (categories (stores w')) !! k = Some c
           ↔ ∃ i d, Database.defaultCategories !! i = Some d
                    ∧ k = Idb.keyGen (categories (stores w)) + Z.of_nat i
                    ∧ c = Category.set_id k d).
Proof.
  unfold App.clearAllData.
  destruct confirmed; cbn [negb andb]; [|exists w; split; [reflexivity|];
    split; [reflexivity | discriminate]].
  destruct doubleCheck; cbn [negb]; [|exists w; split; [reflexivity|];
    split; [reflexivity | discriminate]].
  set (w0 := mkWorld (mkStores (Idb.clear (expenses (stores w)))
                               (Idb.clear (categories (stores w))) ∅)
                     (tick w)).
  assert (Hclear : Database.clearAllData w = (Ok true, w0)) by reflexivity.
  assert (Hempty : Idb.records (categories (stores w0)) = ∅) by reflexivity.
  assert (Hwf : Idb.wf (categories (stores w0))) by apply clear_wf.
  eexists. split.
  { unfold catch, mbind at 1, M_bind. rewrite Hclear.
    unfold mbind, M_bind.
    rewrite (initializeDefaultCategories_seeds w0 Hempty). reflexivity. }
  split; [discriminate|]. intros _.
  cbn [stores expenses categories settings].
  split; [reflexivity|]. split; [reflexivity|]. split; [reflexivity|].
  split.
  - rewrite (seeded_size _ _ Hwf). reflexivity.
  - intros k c. rewrite (seeded_lookup _ _ _ _ Hwf).
    unfold w0, Idb.clear. cbn [stores categories Idb.records Idb.keyGen].
    rewrite lookup_empty.
    split; [intros [Hk | Hk]; [discriminate Hk | exact Hk] | auto].
Qed.

(** ** Restoring from the cloud by hand *)

(** X11.  [restoreFromGoogleDrive] never rejects, and it writes only through
    [importData] of a document that has both [expenses] and [categories],
    once the user has confirmed: without sign-in, without files, with a
    cancelled or invalid selection, a body that is no JSON, an incomplete
    document or a declined dialog it returns [false] and the world is as it
    was. *)
Theorem restoreFromGoogleDrive_checks_before_it_writes
        `{Host} (googleSignedIn : bool)
        (files : option (list (option Snapshot.t)))
        (selection : option (option Z)) (confirmed : bool) (w : World) :
  ∃ b w',
    BackupManager.restoreFromGoogleDrive googleSignedIn files selection
                                         confirmed w
    = (Ok b, w')
    ∧ ((b = false ∧ w' = w)
       ∨ ∃ l n data es cs,
           googleSignedIn = true ∧ confirmed = true
           ∧ files = Some l ∧ selection = Some (Some n)
           ∧ 1 ≤ n ∧ l !! Z.to_nat (n - 1) = Some (Some data)
           ∧ Snapshot.expenses data = Some es
           ∧ Snapshot.categories data = Some cs
           ∧ w' = (Database.importData data w).2
           ∧ (b = true → (Database.importData data w).1 = Ok true)).
Proof.
  unfold BackupManager.restoreFromGoogleDrive, BackupManager.restoreFailed.
  destruct googleSignedIn; cbn [negb]; [|exists false, w; auto].
  destruct files as [[|f l]|]; [exists false, w; auto| |exists false, w; auto].
  destruct selection as [[n|]|]; [| exists false, w; auto..].
  destruct ((n - 1 <? 0) || (Z.of_nat (length (f :: l)) <=? n - 1)) eqn:Hidx;
    [exists false, w; auto|].
  apply orb_false_iff in Hidx as [Hlo _]. apply Z.ltb_ge in Hlo.
  destruct ((f :: l) !! Z.to_nat (n - 1)) as [[data|]|] eqn:Hfile;
    [| exists false, w; auto..].
  destruct (Snapshot.expenses data) as [es|] eqn:Hes;
    [| exists false, w; auto].
  destruct (Snapshot.categories data) as [cs|] eqn:Hcs;
    [| exists false, w; auto].
  destruct confirmed; cbn [negb]; [| exists false, w; auto].
  unfold catch, mbind, M_bind.
  destruct (Database.importData data w) as [[b | err] w1] eqn:Himp.
  - exists true, w1. split; [reflexivity|]. right.
    exists (f :: l), n, data, es, cs. rewrite Himp. cbn [fst snd].
    do 9 (split; [first [reflexivity | assumption | lia]|]).
    intros _.
    (* importData resolves with true only *)
    revert Himp. unfold Database.importData, mbind, M_bind.
    rewrite Hcs, Hes.
    destruct (Database.clearBoth w) as [[[]|?] ?]; [|discriminate].
    destruct (forEach _ cs _) as [[[]|?] ?]; [|discriminate].
    destruct (forEach _ es _) as [[[]|?] ?]; [|discriminate].
    intros [= <- _]. reflexivity.
  - exists false, w1. split; [reflexivity|]. right.
    exists (f :: l), n, data, es, cs. rewrite Himp. cbn [fst snd].
    do 9 (split; [first [reflexivity | assumption | lia]|]).
    intros Habs; discriminate Habs.
Qed.

(** ** Sorting the ledger *)

Section SortBy.
Context {A : Type} (cmp : A → A → Z).

Lemma insertBy_perm (x : A) (l : list A) : insertBy cmp x l ≡ₚ x :: l.
Proof.
  induction l as [|y l IH]; cbn [insertBy]; [reflexivity|].
  destruct (cmp x y <=? 0); [reflexivity|].
  rewrite IH. apply Permutation_swap.
Qed.

Lemma sortBy_perm (l : list A) : sortBy cmp l ≡ₚ l.
Proof.
  unfold sortBy. induction l as [|x l IH]; cbn [foldr]; [reflexivity|].
  rewrite insertBy_perm, IH. reflexivity.
Qed.

Context (P : A → Prop) (R : A → A → Prop).
Hypothesis cmp_R : ∀ x y, P x → P y → (cmp x y ≤ 0 ↔ R x y).
Hypothesis R_total : ∀ x y, P x → P y → R x y ∨ R y x.
Hypothesis R_trans : ∀ x y z, R x y → R y z → R x z.

Lemma insertBy_sorted (x : A) (l : list A) :
  P x → Forall P l → StronglySorted R l → StronglySorted R (insertBy cmp x l).
Proof.
  intros Hx Hl Hs. induction Hs as [|y l Hs IH Hy]; cbn [insertBy].
  - repeat constructor.
  - apply Forall_cons in Hl as [HPy Hl].
    destruct (cmp x y <=? 0) eqn:Hc.
    + apply Z.leb_le, cmp_R in Hc; [|assumption..].
      constructor; [constructor; assumption|].
      constructor; [exact Hc|].
      eapply Forall_impl; [exact Hy|]. intros z Hz. exact (R_trans _ _ _ Hc Hz).
    + apply Z.leb_gt in Hc.
      assert (Hyx : R y x).
      { destruct (R_total x y Hx HPy) as [Hxy | Hyx]; [|exact Hyx].
        apply cmp_R in Hxy; [lia | assumption..]. }
      constructor; [apply IH, Hl|].
      rewrite insertBy_perm. constructor; assumption.
Qed.

Lemma sortBy_sorted (l : list A) : Forall P l → StronglySorted R (sortBy cmp l).
Proof.
  unfold sortBy. induction 1 as [|x l Hx Hl IH]; cbn [foldr]; [constructor|].
  apply insertBy_sorted; [exact Hx| |exact IH].
  fold (sortBy cmp l). rewrite sortBy_perm. exact Hl.
Qed.

Context {K : Type} `{EqDecision K} (key : A → K).
Hypothesis cmp_key : ∀ x y, P x → P y → key x = key y → cmp x y ≤ 0.

Lemma insertBy_stable (v : K) (x : A) (l : list A) :
  P x → Forall P l →
  List.filter (fun e => bool_decide (key e = v)) (insertBy cmp x l)
  = List.filter (fun e => bool_decide (key e = v)) (x :: l).
Proof.
  intros Hx Hl. induction Hl as [|y l Hy Hl IH]; cbn [insertBy]; [reflexivity|].
  destruct (cmp x y <=? 0) eqn:Hc; [reflexivity|].
  apply Z.leb_gt in Hc.
  assert (Hne : key x ≠ key y).
  { intros Heq. pose proof (cmp_key x y Hx Hy Heq). lia. }
  cbn [List.filter] in *. rewrite IH.
  destruct (bool_decide (key x = v)) eqn:Hxv;
    destruct (bool_decide (key y = v)) eqn:Hyv; try reflexivity.
  apply bool_decide_eq_true in Hxv, Hyv. congruence.
Qed.

Lemma sortBy_stable (v : K) (l : list A) :
  Forall P l →
  List.filter (fun e => bool_decide (key e = v)) (sortBy cmp l)
  = List.filter (fun e => bool_decide (key e = v)) l.
Proof.
  unfold sortBy. induction 1 as [|x l Hx Hl IH]; cbn [foldr]; [reflexivity|].
  fold (sortBy cmp l). rewrite insertBy_stable.
  - cbn [List.filter]. fold (sortBy cmp l) in IH. rewrite IH. reflexivity.
  - exact Hx.
  - rewrite sortBy_perm. exact Hl.
Qed.

End SortBy.

(** Whatever the sort state, [sortExpenses] returns the expenses it was
    given, each as often as it was given. *)
Lemma sortExpenses_permutes (s : ExpenseManager.Sort) (l : list Expense.t) :
  ExpenseManager.sortExpenses s l ≡ₚ l.
Proof. apply sortBy_perm. Qed.

Lemma compareBy_date (s : ExpenseManager.Sort) (a b : Expense.t) (x y : Z) :
  ExpenseManager.field s = "datePaid"%string →
  Run.paidAt a = Some x → Run.paidAt b = Some y →
  ExpenseManager.compareBy s a b
  = if x <? y then (if String.eqb (ExpenseManager.order s) "asc" then -1 else 1)
    else if y <? x
         then (if String.eqb (ExpenseManager.order s) "asc" then 1 else -1)
         else 0.
Proof.
  unfold Run.paidAt, ExpenseManager.compareBy, ExpenseManager.propLt.
  intros -> -> ->. reflexivity.
Qed.

(** X12.  Sorted by [datePaid], expenses whose dates all parse come out in
    date order, ascending for the order [asc] and descending for any other,
    and expenses paid at the same instant keep the order they had. *)
Theorem sortExpenses_by_date
        (s : ExpenseManager.Sort) (l : list Expense.t) :
  ExpenseManager.field s = "datePaid"%string →
  Forall Run.dated l →
  StronglySorted (Run.inDateOrder (ExpenseManager.order s))
                 (ExpenseManager.sortExpenses s l)
  ∧ ∀ d, List.filter (fun e => bool_decide (Run.paidAt e = d))
                     (ExpenseManager.sortExpenses s l)
         = List.filter (fun e => bool_decide (Run.paidAt e = d)) l.
Proof.
  intros Hf Hl. split.
  - apply (sortBy_sorted _ Run.dated); [| | |exact Hl].
    + intros a b [x Ha] [y Hb].
      rewrite (compareBy_date s a b x y Hf Ha Hb).
      unfold Run.inDateOrder, Run.paidBefore. rewrite Ha, Hb.
      destruct (String.eqb _ _), (Z.ltb_spec x y), (Z.ltb_spec y x); lia.
    + intros a b [x Ha] [y Hb].
      unfold Run.inDateOrder, Run.paidBefore. rewrite Ha, Hb.
      destruct (String.eqb _ _); lia.
    + intros a b c. unfold Run.inDateOrder, Run.paidBefore.
      destruct (String.eqb _ _), (Run.paidAt a), (Run.paidAt b),
        (Run.paidAt c); try tauto; lia.
  - intros d. apply (sortBy_stable _ Run.dated); [|exact Hl].
    intros a b [x Ha] [y Hb] Heq.
    rewrite (compareBy_date s a b x y Hf Ha Hb).
    assert (x = y) as -> by congruence.
    rewrite Z.ltb_irrefl. lia.
Qed.

Lemma sortExpenses_by_date_witness :
  Forall Run.dated
         [Sample.paidOn "2024-03-31"; Sample.internetBill;
          Sample.paidOn "2024-01-15"]
  ∧ ExpenseManager.sortExpenses (ExpenseManager.mkSort "datePaid" "desc")
      [Sample.paidOn "2024-03-31"; Sample.internetBill;
       Sample.paidOn "2024-01-15"]
    = [Sample.internetBill; Sample.paidOn "2024-03-31";
       Sample.paidOn "2024-01-15"]
  ∧ StronglySorted (Run.inDateOrder "desc")
      (ExpenseManager.sortExpenses (ExpenseManager.mkSort "datePaid" "desc")
         [Sample.paidOn "2024-03-31"; Sample.internetBill;
          Sample.paidOn "2024-01-15"]).
Proof.
  assert (Hl : Forall Run.dated
                 [Sample.paidOn "2024-03-31"; Sample.internetBill;
                  Sample.paidOn "2024-01-15"]).
  { repeat constructor; vm_compute; eauto. }
  split; [exact Hl|]. split; [vm_compute; reflexivity|].
  exact (proj1 (sortExpenses_by_date
                  (ExpenseManager.mkSort "datePaid" "desc") _ eq_refl Hl)).
Defined.

(** ** One quarter, on the dashboard and in the ledger *)

(** X13.  For the quarters 1 to 4 the dashboard's [filterByQuarter] keeps
    exactly the expenses that the ledger's [filterExpenses] keeps when its
    filter is set to that year and quarter and to nothing else, in the same
    order; for any other quarter it throws. *)
Theorem filterByQuarter_agrees_with_filterExpenses
        `{Host} (l : list Expense.t) (year quarter : Z) :
  DashboardManager.filterByQuarter l year quarter
  = if (1 <=? quarter) && (quarter <=? 4)
    then Some (ExpenseManager.filterExpenses (Run.quarterOf year quarter) l)
    else None.
Proof.
  unfold DashboardManager.filterByQuarter, DashboardManager.quarterMonths.
  assert (Hkeep : ∀ first last,
             first = 3 * (quarter - 1) → last = 3 * (quarter - 1) + 2 →
             List.filter
               (fun exp =>
                  negb (numNe (getFullYear (newDate (Expense.datePaid exp)))
                              year)
                  && DashboardManager.numGe
                       (getMonth (newDate (Expense.datePaid exp))) first
                  && DashboardManager.numLe
                       (getMonth (newDate (Expense.datePaid exp))) last)
               l
             = ExpenseManager.filterExpenses (Run.quarterOf year quarter) l).
  { intros first last -> ->. unfold ExpenseManager.filterExpenses.
    apply filter_ext. intros e.
    unfold ExpenseManager.keeps, ExpenseManager.searchStep, Run.quarterOf.
    cbn [ExpenseManager.Filter.category ExpenseManager.Filter.year
         ExpenseManager.Filter.quarter ExpenseManager.Filter.dateFrom
         ExpenseManager.Filter.dateTo ExpenseManager.Filter.searchTerm
         String.eqb Ascii.eqb Bool.eqb isEmpty negb andb].
    destruct (numNe (getFullYear _) year); cbn [negb andb]; [reflexivity|].
    destruct (getMonth (newDate (Expense.datePaid e))) as [m|];
      cbn [fmap option_fmap option_map numNe DashboardManager.numGe
           DashboardManager.numLe andb negb]; [|reflexivity].
    pose proof (quarter_months m quarter) as Hq.
    destruct (m / 3 + 1 =? quarter) eqn:Hm; cbn [negb];
      [apply Z.eqb_eq in Hm | apply Z.eqb_neq in Hm];
      destruct (Z.leb_spec (3 * (quarter - 1)) m),
               (Z.leb_spec m (3 * (quarter - 1) + 2));
      cbn [andb]; first [reflexivity | exfalso; lia]. }
  destruct (Z.eqb_spec quarter 1) as [-> | H1];
    [exact (f_equal Some (Hkeep 0 2 eq_refl eq_refl))|].
  destruct (Z.eqb_spec quarter 2) as [-> | H2];
    [exact (f_equal Some (Hkeep 3 5 eq_refl eq_refl))|].
  destruct (Z.eqb_spec quarter 3) as [-> | H3];
    [exact (f_equal Some (Hkeep 6 8 eq_refl eq_refl))|].
  destruct (Z.eqb_spec quarter 4) as [-> | H4];
    [exact (f_equal Some (Hkeep 9 11 eq_refl eq_refl))|].
  cbn [mbind option_bind].
  destruct (Z.leb_spec 1 quarter), (Z.leb_spec quarter 4); cbn [andb];
    first [reflexivity | exfalso; lia].
Qed.

(** ** The summary of the ledger *)

Lemma totals_in_range (l : list Expense.t) :
  Forall (fun e => Spec.acceptable e ∧ Spec.deductibleConsistent e) l →
  ∀ a d p : Q, ∃ a' d' p' : Q,
    fold_left (fun sum exp => add sum (toNumber (Expense.expenseAmount exp)))
              l (Num a) = Num a'
    ∧ fold_left (fun sum exp => add sum (toNumber (Expense.deductible exp)))
                l (Num d) = Num d'
    ∧ fold_left (fun sum exp =>
                   add sum (toNumber (Expense.percentUsedForWork exp)))
                l (Num p) = Num p'
    ∧ (0 <= a' - a)%Q ∧ (0 <= d' - d)%Q
    ∧ (0 <= p' - p)%Q
    ∧ (p' - p <= 100 * inject_Z (Z.of_nat (length l)))%Q.
Proof.
  induction 1 as [|e l [Hacc Hcons] _ IH]; intros a d p.
  - exists a, d, p. cbn [fold_left length].
    change (inject_Z (Z.of_nat 0)) with 0%Q.
    repeat apply conj; try reflexivity; lra.
  - destruct Hcons as (a0 & p0 & d0 & Ha & Hp & Hd & Heq).
    destruct Hacc as (_ & _ & _ & _ & (a1 & Ha1 & Hpos) & (p1 & Hp1 & Hlo & Hhi)).
    assert (a1 = a0) as -> by congruence.
    assert (p1 = p0) as -> by congruence.
    destruct (IH (a + a0)%Q (d + d0)%Q (p + p0)%Q)
      as (a' & d' & p' & Hta & Htd & Htp & B1 & B2 & B3 & B4).
    exists a', d', p'. cbn [fold_left]. rewrite Ha, Hp, Hd.
    cbn [toNumber add]. rewrite Hta, Htd, Htp.
    cbn [length]. rewrite Nat2Z.inj_succ. unfold Z.succ.
    rewrite inject_Z_plus.
    assert (Hd0 : (0 <= d0)%Q).
    { rewrite Heq. apply Qle_shift_div_l; [reflexivity|]. nra. }
    change (inject_Z 1) with 1%Q.
    repeat apply conj; try reflexivity; lra.
Qed.

(** X14.  On a ledger in order [getSummary] resolves, leaves the stores as
    they are, and reports numbers: the count is the length of the filtered
    list, neither total is negative, and the average work percentage lies
    between 0 and 100, also when nothing passes the filter.  (How the two
    totals compare is not stated: that depends on the rounding of the
    amounts, which the rationals of this development do not have.) *)
Theorem getSummary_totals_in_range
        `{Host} (f : ExpenseManager.Filter.t) (s : ExpenseManager.Sort)
        (w : World) :
  Run.ledgerOk (stores w) →
  ∃ (filtered : list Expense.t) (te td avg : Q),
    ExpenseViews.getSummary f s w
    = (Ok (filtered,
           Summary.mk (Z.of_nat (length filtered)) (Num te) (Num td) (Num avg)),
       w)
    ∧ filtered
      ≡ₚ ExpenseManager.filterExpenses f (Idb.getAll (expenses (stores w)))
    ∧ (0 <= te)%Q ∧ (0 <= td)%Q ∧ (0 <= avg)%Q ∧ (avg <= 100)%Q.
Proof.
  intros Hok.
  set (filtered := ExpenseManager.sortExpenses s
                     (ExpenseManager.filterExpenses f
                        (Idb.getAll (expenses (stores w))))).
  assert (Hperm : filtered
                  ≡ₚ ExpenseManager.filterExpenses f
                       (Idb.getAll (expenses (stores w))))
    by apply sortBy_perm.
  assert (Hall : Forall (fun e => Spec.acceptable e
                                  ∧ Spec.deductibleConsistent e) filtered).
  { rewrite Hperm. apply Forall_forall. intros e He.
    apply list_elem_of_In in He.
    unfold ExpenseManager.filterExpenses in He.
    apply filter_In in He as [He _]. apply list_elem_of_In in He.
    apply elem_of_getAll in He as [k Hk]. exact (Hok k e Hk). }
  destruct (totals_in_range filtered Hall 0 0 0)
    as (te & td & tp & Hte & Htd & Htp & B1 & B2 & B3 & B4).
  exists filtered, te, td.
  exists (if 0 <? Z.of_nat (length filtered)
          then (tp / inject_Z (Z.of_nat (length filtered)))%Q else 0%Q).
  split; [|split; [exact Hperm|]].
  - unfold ExpenseViews.getSummary, Database.getAllExpenses. run.
    fold filtered. unfold ExpenseViews.summarize, ExpenseViews.total.
    rewrite Hte, Htd, Htp. cbn [ExpenseViews.divBy].
    destruct (0 <? Z.of_nat (length filtered)); reflexivity.
  - split; [lra|]. split; [lra|].
    destruct (Z.ltb_spec 0 (Z.of_nat (length filtered))) as [Hn | Hn];
      [|split; lra].
    assert (Hpos : (0 < inject_Z (Z.of_nat (length filtered)))%Q).
    { change 0%Q with (inject_Z 0). rewrite <- Zlt_Qlt. exact Hn. }
    split.
    + apply Qle_shift_div_l; [exact Hpos|]. lra.
    + apply Qle_shift_div_r; [exact Hpos|]. lra.
Qed.

Lemma sample_ledgerOk : Run.ledgerOk (stores Sample.world).
Proof.
  intros k e Hk. cbn in Hk. apply lookup_singleton_Some in Hk as [_ <-].
  split.
  - unfold Spec.acceptable, Spec.present, Spec.nonEmptyTrimmed,
      Spec.positiveAmount, Spec.percentInRange. cbn.
    repeat split; eexists; (split; [reflexivity|]);
      first [discriminate | reflexivity | (split; discriminate) | idtac].
  - exists 100%Q, 50%Q, 50%Q. repeat split; reflexivity.
Qed.

Lemma getSummary_totals_in_range_witness :
  Run.ledgerOk (stores Sample.world)
  ∧ ∃ (filtered : list Expense.t) (te td avg : Q),
      @ExpenseViews.getSummary Sample.host
        (ExpenseManager.Filter.mk "all" None None "" "" "")
        (ExpenseManager.mkSort "datePaid" "desc") Sample.world
      = (Ok (filtered,
             Summary.mk (Z.of_nat (length filtered)) (Num te) (Num td)
                        (Num avg)),
         Sample.world)
      ∧ (0 <= td)%Q ∧ (avg <= 100)%Q.
Proof.
  split; [exact sample_ledgerOk|].
  destruct (@getSummary_totals_in_range Sample.host
              (ExpenseManager.Filter.mk "all" None None "" "" "")
              (ExpenseManager.mkSort "datePaid" "desc") Sample.world
              sample_ledgerOk)
    as (filtered & te & td & avg & Hrun & _ & _ & Hle & _ & Havg).
  exists filtered, te, td, avg. auto.
Defined.

(** ** Fields of the CSV export *)

Lemma includes_head (c : ascii) (s : string) (x : ascii) :
  includes (String c s) (String x EmptyString)
  = Ascii.eqb x c || includes s (String x EmptyString).
Proof.
  cbn [includes startsWith]. destruct s; rewrite andb_true_r; reflexivity.
Qed.

Lemma append_empty (s : string) : (EmptyString ++ s)%string = s.
Proof. reflexivity. Qed.

Lemma append_String (c : ascii) (s t : string) :
  (String c s ++ t)%string = String c (s ++ t)%string.
Proof. reflexivity. Qed.

Lemma append_append (s t u : string) :
  ((s ++ t) ++ u)%string = (s ++ (t ++ u))%string.
Proof.
  induction s as [|c s IH]; [reflexivity|].
  rewrite !append_String, IH. reflexivity.
Qed.

Lemma unquote_doubleQuotes (t rest : string) :
  Run.endsField rest →
  Run.unquote (ReportManager.doubleQuotes t
               ++ String ReportManager.quote rest)
  = (t, rest).
Proof.
  intros Hrest. induction t as [|c t IH].
  - cbn [ReportManager.doubleQuotes]. rewrite append_empty.
    cbn [Run.unquote].
    rewrite Ascii.eqb_refl. destruct rest as [|c' rest']; [reflexivity|].
    cbn [Run.endsField] in Hrest.
    destruct (Ascii.eqb c' ReportManager.quote) eqn:Hq; [|reflexivity].
    apply Ascii.eqb_eq in Hq. subst c'. discriminate Hrest.
  - cbn [ReportManager.doubleQuotes].
    destruct (Ascii.eqb c ReportManager.quote) eqn:Hc.
    + apply Ascii.eqb_eq in Hc. subst c.
      rewrite !append_String. cbn [Run.unquote].
      rewrite Ascii.eqb_refl, IH. reflexivity.
    + rewrite append_String. cbn [Run.unquote]. rewrite Hc, IH. reflexivity.
Qed.

Lemma plain_unescaped (t rest : string) :
  includes t (String ReportManager.comma EmptyString) = false →
  includes t (String ReportManager.newline EmptyString) = false →
  Run.endsField rest →
  Run.plain (t ++ rest) = (t, rest).
Proof.
  intros Hc Hn Hrest. induction t as [|c t IH].
  - rewrite append_empty. destruct rest as [|c' rest']; [reflexivity|].
    cbn [Run.plain Run.endsField] in *. rewrite Hrest. reflexivity.
  - rewrite includes_head in Hc, Hn.
    apply orb_false_iff in Hc as [Hc Hc'], Hn as [Hn Hn'].
    rewrite append_String. cbn [Run.plain]. unfold Run.separator.
    rewrite (Ascii.eqb_sym c), Hc, (Ascii.eqb_sym c), Hn. cbn [orb].
    rewrite (IH Hc' Hn'). reflexivity.
Qed.

(** X15.  A field written by [escapeCsv] reads back as the text it was
    written from (the empty text for an absent one), whatever the text
    holds, when a comma, a line break or nothing follows it in the row. *)
Theorem escapeCsv_reads_back (text : option string) (rest : string) :
  Run.endsField rest →
  Run.readCsvField (ReportManager.escapeCsv text ++ rest)
  = (joinItem text, rest).
Proof.
  intros Hrest. unfold ReportManager.escapeCsv.
  assert (Hnone : Run.readCsvField rest = (EmptyString, rest)).
  { destruct rest as [|c rest']; [reflexivity|].
    cbn [Run.endsField] in Hrest. cbn [Run.readCsvField Run.plain].
    rewrite Hrest.
    destruct (Ascii.eqb c ReportManager.quote) eqn:Hq; [|reflexivity].
    apply Ascii.eqb_eq in Hq. subst c. discriminate Hrest. }
  destruct text as [[|c t]|]; cbn [truthyStr isEmpty negb joinItem];
    rewrite ?append_empty; [exact Hnone| |exact Hnone].
  destruct (includes (String c t) (String ReportManager.comma EmptyString))
    eqn:Hc; cbn [orb].
  { rewrite append_String. cbn [Run.readCsvField]. rewrite Ascii.eqb_refl.
    rewrite append_append, append_String, append_empty.
    apply unquote_doubleQuotes, Hrest. }
  destruct (includes (String c t) (String ReportManager.quote EmptyString))
    eqn:Hq; cbn [orb].
  { rewrite append_String. cbn [Run.readCsvField]. rewrite Ascii.eqb_refl.
    rewrite append_append, append_String, append_empty.
    apply unquote_doubleQuotes, Hrest. }
  destruct (includes (String c t) (String ReportManager.newline EmptyString))
    eqn:Hn.
  { rewrite append_String. cbn [Run.readCsvField]. rewrite Ascii.eqb_refl.
    rewrite append_append, append_String, append_empty.
    apply unquote_doubleQuotes, Hrest. }
  pose proof Hq as Hq'. rewrite includes_head in Hq'.
  apply orb_false_iff in Hq' as [Hq' _].
  rewrite append_String. cbn [Run.readCsvField].
  rewrite Ascii.eqb_sym, Hq', <- append_String.
  exact (plain_unescaped (String c t) rest Hc Hn Hrest).
Qed.

Lemma escapeCsv_reads_back_witness :
  Run.endsField ",12.50"
  ∧ Run.readCsvField
      (ReportManager.escapeCsv
         (Some (String "a" (String ReportManager.quote
                  (String "," (String "b" EmptyString)))))
       ++ ",12.50")
    = (String "a" (String ReportManager.quote
         (String "," (String "b" EmptyString))), ",12.50"%string).
Proof.
  split; [reflexivity|].
  apply (escapeCsv_reads_back
           (Some (String "a" (String ReportManager.quote
                    (String "," (String "b" EmptyString)))))
           ",12.50").
  reflexivity.
Defined.

(** ** One category, through the index and in the ledger *)

(** X16.  For a category other than [all], [getExpensesByCategory] resolves
    with the expenses that the ledger's filter shows when it is set to that
    category and to nothing else, in the same order, and writes nothing.
    (Set to [all], the ledger's filter shows every expense.) *)
Theorem getExpensesByCategory_is_the_ledger_filter
        `{Host} (category : string) (w : World) :
  category ≠ "all"%string →
  Database.getExpensesByCategory category w
  = (Ok (ExpenseManager.filterExpenses (Run.categoryOnly category)
           (Idb.getAll (expenses (stores w)))),
     w).
Proof.
  intros Hc. unfold Database.getExpensesByCategory. run.
  destruct w as [s t]. cbn [stores tick]. do 2 f_equal.
  unfold ExpenseManager.filterExpenses. apply filter_ext. intros e.
  unfold ExpenseManager.keeps, ExpenseManager.searchStep, Run.categoryOnly.
  cbn [ExpenseManager.Filter.category ExpenseManager.Filter.year
       ExpenseManager.Filter.quarter ExpenseManager.Filter.dateFrom
       ExpenseManager.Filter.dateTo ExpenseManager.Filter.searchTerm
       isEmpty negb andb].
  apply String.eqb_neq in Hc. rewrite Hc. cbn [negb andb].
  destruct (bool_decide _); reflexivity.
Qed.

Lemma getExpensesByCategory_is_the_ledger_filter_witness :
  "Internet"%string ≠ "all"%string
  ∧ @Database.getExpensesByCategory "Internet" Sample.world
    = (Ok [Sample.internetBill], Sample.world).
Proof.
  split; [discriminate|].
  rewrite (@getExpensesByCategory_is_the_ledger_filter Sample.host
             "Internet" Sample.world); [|discriminate].
  vm_compute. reflexivity.
Defined.

(** ** The monthly trend counts an expense once *)



(** ** The receipts of the open form *)

Lemma validateFile_accepted (file : ReceiptManager.File) (now : Z) :
  ReceiptManager.validateFile file = true →
  Run.accepted (Run.receiptOf file now).
Proof.
  unfold ReceiptManager.validateFile, Run.accepted, Run.receiptOf.
  cbn [Receipt.type Receipt.size].
  destruct (existsb _ _) eqn:Htype; cbn [negb]; [|discriminate].
  destruct (Z.ltb_spec ReceiptManager.maxFileSize
                       (ReceiptManager.fileSize file)) as [Hbig | Hsize];
    [discriminate|].
  intros _. split.
  - apply existsb_exists in Htype as (t & Hin & Heq).
    apply String.eqb_eq in Heq. subst t. exact Hin.
  - unfold ReceiptManager.maxFileSize in Hsize. lia.
Qed.

Lemma Forall_splice {A : Type} (P : A → Prop) (index : Z) (l : list A) :
  Forall P l → Forall P (ReceiptManager.splice index l).
Proof. unfold ReceiptManager.splice. apply Forall_delete. Qed.

(** X18.  Whatever is done with the form (files handed over, reads that
    complete in any order, receipts removed, the form cleared, an expense
    opened for editing), every receipt in [selectedFiles] comes from a file
    that passed [validateFile]: its type is one of the five allowed and its
    size is at most 10 MB. *)
Theorem selectedFiles_are_validated (gs : list Run.Gesture) :
  Forall Run.accepted
         (ReceiptManager.selectedFiles
            (fold_left (fun m g => Run.gesture g m) gs ReceiptManager.new)).
Proof.
  assert (Hinv : ∀ m,
             Forall Run.accepted (ReceiptManager.selectedFiles m) →
             Forall (fun f => ReceiptManager.validateFile f = true)
                    (ReceiptManager.reading m) →
             Forall Run.accepted
                    (ReceiptManager.selectedFiles
                       (fold_left (fun m g => Run.gesture g m) gs m))).
  { induction gs as [|g gs IH]; intros m Hsel Hread; [exact Hsel|].
    cbn [fold_left]. apply IH.
    - destruct g as [files | i now | index [] | | [l|]];
        cbn [Run.gesture ReceiptManager.handleFiles
             ReceiptManager.removeFile ReceiptManager.clearSelectedFiles
             ReceiptManager.showExisting ReceiptManager.selectedFiles];
        try exact Hsel.
      + unfold ReceiptManager.onload.
        destruct (ReceiptManager.reading m !! i) as [file|] eqn:Hi;
          [|exact Hsel].
        cbn [ReceiptManager.selectedFiles]. apply Forall_app. split; [exact Hsel|].
        constructor; [|constructor].
        apply (validateFile_accepted file now).
        exact (proj1 (Forall_lookup _ _) Hread i file Hi).
      + apply Forall_splice, Hsel.
      + constructor.
    - destruct g as [files | i now | index [] | | [l|]];
        cbn [Run.gesture ReceiptManager.handleFiles
             ReceiptManager.removeFile ReceiptManager.clearSelectedFiles
             ReceiptManager.showExisting ReceiptManager.reading];
        try exact Hread.
      + apply Forall_app. split; [exact Hread|].
        apply Forall_forall. intros f Hf.
        apply list_elem_of_In, filter_In in Hf as [_ Hf]. exact Hf.
      + unfold ReceiptManager.onload.
        destruct (ReceiptManager.reading m !! i) as [file|] eqn:Hi;
          [|exact Hread].
        cbn [ReceiptManager.reading].
        apply Forall_delete, Hread. }
  apply Hinv; constructor.
Qed.

(** X19.  Clearing the form does not stop a read in flight: when a file
    that passes validation is handed over and the form is cleared before
    the read completes, the receipt is in the cleared form once the read
    completes, and [getAllReceipts] hands it to the next submission. *)
Theorem read_completes_after_clear
        (file : ReceiptManager.File) (now : Z) (m : ReceiptManager.t) :
  ReceiptManager.validateFile file = true →
  ReceiptManager.getAllReceipts
    (ReceiptManager.onload (length (ReceiptManager.reading m)) now
       (ReceiptManager.clearSelectedFiles
          (ReceiptManager.handleFiles [file] m)))
  = [Run.receiptOf file now].
Proof.
  intros Hvalid. unfold ReceiptManager.handleFiles,
    ReceiptManager.clearSelectedFiles, ReceiptManager.onload.
  cbn [List.filter ReceiptManager.reading ReceiptManager.selectedFiles
       ReceiptManager.existingReceipts].
  rewrite Hvalid.
  rewrite lookup_app_r by lia. rewrite Nat.sub_diag. cbn [lookup list_lookup].
  reflexivity.
Qed.

Lemma read_completes_after_clear_witness :
  ReceiptManager.validateFile
    (ReceiptManager.mkFile "bill.pdf" "application/pdf" 52000
                           "data:application/pdf;base64,JVBERi0x")
  = true
  ∧ ReceiptManager.getAllReceipts
      (ReceiptManager.onload 0 1718000000000
         (ReceiptManager.clearSelectedFiles
            (ReceiptManager.handleFiles
               [ReceiptManager.mkFile "bill.pdf" "application/pdf" 52000
                                      "data:application/pdf;base64,JVBERi0x"]
               ReceiptManager.new)))
    = [Receipt.mk "bill.pdf" "application/pdf" 52000
                  "data:application/pdf;base64,JVBERi0x"
                  "2024-06-10T06:13:20.000Z"].
Proof.
  split; [reflexivity|].
  refine (eq_trans
            (read_completes_after_clear
               (ReceiptManager.mkFile "bill.pdf" "application/pdf" 52000
                                      "data:application/pdf;base64,JVBERi0x")
               1718000000000 ReceiptManager.new eq_refl) _).
  vm_compute. reflexivity.
Defined.

(** ** An import that fails half way *)

Lemma addCategory_cases (c : Category.t) (w : World) :
  Database.addCategory c w = (Throw ConstraintError, w)
  ∨ ∃ k,
      Idb.records (categories (stores w)) !! k = None
      ∧ nameTaken c (Idb.records (categories (stores w))) = false
      ∧ Database.addCategory c w
        = (Ok k,
           mkWorld (mkStores (expenses (stores w))
                      (Idb.mkStore
                         (<[k := Category.set_id k c]>
                            (Idb.records (categories (stores w))))
                         (Idb.bump k (Idb.keyGen (categories (stores w)))))
                      (settings (stores w)))
                   (tick w)).
Proof.
  unfold Database.addCategory. run. unfold Idb.add.
  cbn [Idb.keyOf Idb.withKey Category_keyed].
  set (k := default (Idb.keyGen (categories (stores w))) (Category.id c)).
  destruct (Idb.records (categories (stores w)) !! k) eqn:Hk; [left; reflexivity|].
  rewrite nameTaken_set_id.
  destruct (nameTaken c _) eqn:Ht; [left; reflexivity|].
  right. exists k. split; [exact Hk|]. split; [reflexivity|]. reflexivity.
Qed.

Lemma forEach_addCategory_outcome (l : list Category.t) :
  ∀ w, ∃ r w',
    forEach Database.addCategory l w = (r, w')
    ∧ expenses (stores w') = expenses (stores w)
    ∧ settings (stores w') = settings (stores w)
    ∧ (∀ k c, Idb.records (categories (stores w)) !! k = Some c →
              Idb.records (categories (stores w')) !! k = Some c)
    ∧ match r with
      | Ok _ =>
          ¬ Run.repeatsName l
          ∧ ∀ c n, c ∈ l → Category.name c = Some n →
                   ¬ Spec.hasName n (Idb.records (categories (stores w)))
      | Throw e => e = ConstraintError
      end.
Proof.
  induction l as [|c l IH]; intros w.
  - exists (Ok tt), w. split; [reflexivity|]. repeat split; auto.
    + intros (i & j & c1 & c2 & n & _ & Hi & _). rewrite lookup_nil in Hi.
      discriminate Hi.
    + intros c n Hc. inversion Hc.
  - cbn [forEach]. unfold mbind, M_bind.
    destruct (addCategory_cases c w) as [-> | (k & Hk & Hfree & ->)].
    + exists (Throw ConstraintError), w. repeat split; auto.
    + set (w1 := mkWorld _ (tick w)).
      destruct (IH w1) as (r & w' & Hrun & He & Hs & Hkeep & Hr).
      exists r, w'. split; [exact Hrun|].
      split; [rewrite He; reflexivity|]. split; [rewrite Hs; reflexivity|].
      assert (Hkeep1 : ∀ k' c',
                 Idb.records (categories (stores w)) !! k' = Some c' →
                 Idb.records (categories (stores w1)) !! k' = Some c').
      { intros k' c' Hk'. cbn [w1 stores categories Idb.records].
        rewrite lookup_insert_ne; [exact Hk' | congruence]. }
      split; [intros k' c' Hk'; apply Hkeep, Hkeep1, Hk'|].
      destruct r as [[]|e]; [|exact Hr].
      destruct Hr as [Hnorep Hnew]. split.
      * intros (i & j & c1 & c2 & n & Hij & Hi & Hj & Hn1 & Hn2).
        destruct j as [|j]; [lia|]. cbn [lookup list_lookup] in Hj.
        destruct i as [|i]; cbn [lookup list_lookup] in Hi.
        -- injection Hi as <-.
           apply (Hnew c2 n); [eapply list_elem_of_lookup_2, Hj | exact Hn2|].
           exists k, (Category.set_id k c).
           split; [apply lookup_insert_eq | exact Hn1].
        -- apply Hnorep. exists i, j, c1, c2, n.
           repeat split; try assumption. lia.
      * intros c0 n Hc0 Hn (k' & c' & Hk' & Hn').
        apply elem_of_cons in Hc0 as [-> | Hc0].
        -- apply (proj1 (nameTaken_false c _ n Hn) Hfree k' c' Hk' Hn').
        -- apply (Hnew c0 n Hc0 Hn). exists k', c'.
           split; [apply Hkeep1, Hk' | exact Hn'].
Qed.

(** X20.  [importData] is not all or nothing.  When two categories of the
    document carry the same name it rejects with a ConstraintError, and by
    then the stores have been cleared: no expense is left, neither of the
    old ones nor of the document, and the settings are as they were. *)
Theorem importData_with_a_repeated_name_empties_the_ledger
        `{Host} (data : Snapshot.t) (cs : list Category.t) (w : World) :
  Snapshot.categories data = Some cs →
  Run.repeatsName cs →
  ∃ w',
    Database.importData data w = (Throw ConstraintError, w')
    ∧ Idb.records (expenses (stores w')) = ∅
    ∧ settings (stores w') = settings (stores w)
    ∧ tick w' = tick w.
Proof.
  intros Hcs Hrep. unfold Database.importData. rewrite Hcs.
  unfold mbind at 1 2 3. unfold M_bind.
  set (w0 := mkWorld (mkStores (Idb.clear (expenses (stores w)))
                               (Idb.clear (categories (stores w)))
                               (settings (stores w)))
                     (tick w)).
  assert (Hclear : Database.clearBoth w = (Ok tt, w0)) by reflexivity.
  rewrite Hclear.
  destruct (forEach_addCategory_outcome cs w0)
    as (r & w' & Hrun & He & Hs & _ & Hr).
  rewrite Hrun. destruct r as [[]|e]; [exfalso; exact (proj1 Hr Hrep)|].
  subst e. exists w'. split; [reflexivity|].
  split; [rewrite He; reflexivity|]. split; [rewrite Hs; reflexivity|].
  (* the clock is not read *)
  clear -Hrun. revert w0 Hrun. generalize (tick w). intros t w0.
  assert (Htick : ∀ l w1 r1 w2,
             forEach Database.addCategory l w1 = (r1, w2) →
             tick w2 = tick w1).
  { induction l as [|c l IH]; intros w1 r1 w2 Hl.
    - injection Hl as _ <-. reflexivity.
    - cbn [forEach] in Hl. unfold mbind, M_bind in Hl.
      destruct (addCategory_cases c w1) as [Hc | (k & _ & _ & Hc)];
        rewrite Hc in Hl.
      + injection Hl as _ <-. reflexivity.
      + apply IH in Hl. exact Hl. }
  intros Hrun. rewrite (Htick _ _ _ _ Hrun). reflexivity.
Qed.

Lemma importData_with_a_repeated_name_empties_the_ledger_witness :
  Snapshot.categories
    (Snapshot.mk (Some [Sample.internetBill])
                 (Some [Sample.travel; Sample.internet; Sample.travel])
                 None (Some 1))
  = Some [Sample.travel; Sample.internet; Sample.travel]
  ∧ Run.repeatsName [Sample.travel; Sample.internet; Sample.travel]
  ∧ ∃ w',
      @Database.importData Sample.host
        (Snapshot.mk (Some [Sample.internetBill])
                     (Some [Sample.travel; Sample.internet; Sample.travel])
                     None (Some 1))
        Sample.world
      = (Throw ConstraintError, w')
      ∧ Idb.records (expenses (stores w')) = ∅.
Proof.
  assert (Hrep : Run.repeatsName
                   [Sample.travel; Sample.internet; Sample.travel]).
  { exists 0%nat, 2%nat, Sample.travel, Sample.travel, "Travel"%string.
    repeat split; lia. }
  split; [reflexivity|]. split; [exact Hrep|].
  destruct (@importData_with_a_repeated_name_empties_the_ledger Sample.host
              (Snapshot.mk (Some [Sample.internetBill])
                 (Some [Sample.travel; Sample.internet; Sample.travel])
                 None (Some 1))
              [Sample.travel; Sample.internet; Sample.travel]
              Sample.world eq_refl Hrep)
    as (w' & Hrun & Hempty & _).
  exists w'. split; [exact Hrun | exact Hempty].
Defined.

(** ** The quarter of the report and the quarter of the dashboard *)

(** *** Day numbers and calendar dates *)

(** Settles the tests on integers that the context decides. *)
Ltac settle :=
  repeat match goal with
    | |- context [Z.eqb ?a ?b] =>
        first [ replace (Z.eqb a b) with true
                  by (symmetry; apply Z.eqb_eq; Z.div_mod_to_equations; lia)
              | replace (Z.eqb a b) with false
                  by (symmetry; apply Z.eqb_neq; Z.div_mod_to_equations; lia) ]
    | |- context [Z.ltb ?a ?b] =>
        first [ replace (Z.ltb a b) with true
                  by (symmetry; apply Z.ltb_lt; Z.div_mod_to_equations; lia)
              | replace (Z.ltb a b) with false
                  by (symmetry; apply Z.ltb_ge; Z.div_mod_to_equations; lia) ]
    | |- context [Z.leb ?a ?b] =>
        first [ replace (Z.leb a b) with true
                  by (symmetry; apply Z.leb_le; Z.div_mod_to_equations; lia)
              | replace (Z.leb a b) with false
                  by (symmetry; apply Z.leb_gt; Z.div_mod_to_equations; lia) ]
    end; cbn [orb andb negb].

Lemma yoe_recover (yoe doy : Z) :
  0 <= yoe < 400 -> 0 <= doy ->
  doy < 365 + (if ((yoe + 1) mod 4 =? 0) && (negb ((yoe + 1) mod 100 =? 0) || (yoe + 1 =? 400)) then 1 else 0) ->
  let doe := yoe * 365 + yoe / 4 - yoe / 100 + doy in
  (doe - doe / 1460 + doe / 36524 - doe / 146096) / 365 = yoe.
Proof.
  intros Hy Hd Hdoy. cbv zeta.
  destruct ((yoe + 1) mod 4 =? 0) eqn:E4; [apply Z.eqb_eq in E4|apply Z.eqb_neq in E4];
  destruct ((yoe + 1) mod 100 =? 0) eqn:E100; [apply Z.eqb_eq in E100|apply Z.eqb_neq in E100| apply Z.eqb_eq in E100|apply Z.eqb_neq in E100];
  destruct (yoe + 1 =? 400) eqn:E400; [apply Z.eqb_eq in E400|apply Z.eqb_neq in E400|apply Z.eqb_eq in E400|apply Z.eqb_neq in E400|apply Z.eqb_eq in E400|apply Z.eqb_neq in E400|apply Z.eqb_eq in E400|apply Z.eqb_neq in E400];
  cbn [negb orb andb] in Hdoy;
  Z.div_mod_to_equations; lia.
Qed.

Lemma month_recover (mp d : Z) :
  0 <= mp <= 11 -> 1 <= d ->
  d <= (if mp =? 11 then 29
        else if (mp =? 1) || (mp =? 3) || (mp =? 6) || (mp =? 8) then 30
        else 31) ->
  let doy := (153 * mp + 2) / 5 + d - 1 in
  (5 * doy + 2) / 153 = mp /\ doy - (153 * mp + 2) / 5 + 1 = d
  /\ 0 <= doy <= 365 /\ (doy = 365 -> mp = 11 /\ d = 29).
Proof.
  intros Hmp Hd1 Hd. cbv zeta.
  assert (Hc : mp = 0 \/ mp = 1 \/ mp = 2 \/ mp = 3 \/ mp = 4 \/ mp = 5 \/
               mp = 6 \/ mp = 7 \/ mp = 8 \/ mp = 9 \/ mp = 10 \/ mp = 11)
    by lia.
  repeat (destruct Hc as [-> | Hc]); [..|subst mp];
    cbn [Z.eqb Pos.eqb orb] in Hd; repeat split; try lia;
    Z.div_mod_to_equations; lia.
Qed.

Lemma isLeap_yoe (y : Z) :
  isLeap y = ((y mod 400) mod 4 =? 0) && negb ((y mod 400) mod 100 =? 0)
             || (y mod 400 =? 0).
Proof.
  unfold isLeap.
  replace ((y mod 400) mod 4) with (y mod 4)
    by (Z.div_mod_to_equations; lia).
  replace ((y mod 400) mod 100) with (y mod 100)
    by (Z.div_mod_to_equations; lia).
  reflexivity.
Qed.

Lemma month_length (y m d : Z) :
  1 <= m <= 12 -> d <= daysInMonth y m ->
  let mp := if 2 <? m then m - 3 else m + 9 in
  d <= (if mp =? 11 then 29
        else if (mp =? 1) || (mp =? 3) || (mp =? 6) || (mp =? 8) then 30
        else 31).
Proof.
  intros Hm. unfold daysInMonth. cbv zeta.
  assert (Hc : m = 1 \/ m = 2 \/ m = 3 \/ m = 4 \/ m = 5 \/ m = 6 \/
               m = 7 \/ m = 8 \/ m = 9 \/ m = 10 \/ m = 11 \/ m = 12)
    by lia.
  repeat (destruct Hc as [-> | Hc]); [..|subst m]; settle; try lia.
  destruct (isLeap y); lia.
Qed.

Lemma civil_round_trip (y m d : Z) :
  1 <= m <= 12 -> 1 <= d <= daysInMonth y m ->
  civil_from_days (days_from_civil y m d) = (y, m, d).
Proof.
  intros Hm [Hd1 Hd].
  unfold days_from_civil, civil_from_days.
  set (y' := if m <=? 2 then y - 1 else y).
  set (mp := if 2 <? m then m - 3 else m + 9).
  set (era := y' / 400).
  set (yoe := y' - era * 400).
  set (doy := (153 * mp + 2) / 5 + d - 1).
  set (doe := yoe * 365 + yoe / 4 - yoe / 100 + doy).
  assert (Hyoe : 0 <= yoe < 400).
  { unfold yoe, era. Z.div_mod_to_equations; lia. }
  assert (Hmp : 0 <= mp <= 11).
  { unfold mp. destruct (Z.ltb_spec 2 m); lia. }
  assert (Hmm : m = if mp <? 10 then mp + 3 else mp - 9).
  { unfold mp. destruct (Z.ltb_spec 2 m);
      [destruct (Z.ltb_spec (m - 3) 10) | destruct (Z.ltb_spec (m + 9) 10)];
      lia. }
  assert (Hleap : m = 2 -> d = 29 ->
                  (yoe + 1) mod 4 = 0
                  /\ ((yoe + 1) mod 100 <> 0 \/ yoe + 1 = 400)).
  { intros -> ->. unfold daysInMonth in Hd. cbn in Hd.
    destruct (isLeap y) eqn:Hl; [|lia].
    unfold isLeap in Hl. unfold yoe, era, y'. cbn.
    apply orb_true_iff in Hl as [Hl | Hl].
    - apply andb_true_iff in Hl as [H4 H100].
      apply Z.eqb_eq in H4. apply negb_true_iff, Z.eqb_neq in H100.
      split; [Z.div_mod_to_equations; lia|].
      left. Z.div_mod_to_equations; lia.
    - apply Z.eqb_eq in Hl. split; Z.div_mod_to_equations; lia. }
  assert (Hdm := month_length y m d Hm Hd). fold mp in Hdm.
  destruct (month_recover mp d Hmp Hd1 Hdm) as (Hmp' & Hd' & Hdoy & H365).
  fold doy in Hmp', Hd', Hdoy, H365.
  assert (Hyoe' : (doe - doe / 1460 + doe / 36524 - doe / 146096) / 365 = yoe).
  { apply (yoe_recover yoe doy Hyoe); [lia|].
    destruct (Z.eq_dec doy 365) as [H5 | H5]; [|
      destruct ((yoe + 1) mod 4 =? 0);
      destruct (negb ((yoe + 1) mod 100 =? 0) || (yoe + 1 =? 400)); cbn; lia].
    destruct (H365 H5) as [H11 H29].
    assert (m = 2) as Hm2.
    { rewrite Hmm, H11. reflexivity. }
    destruct (Hleap Hm2 H29) as [H4 H100].
    apply Z.eqb_eq in H4. rewrite H4.
    destruct H100 as [H100 | H400].
    - apply Z.eqb_neq in H100. rewrite H100. cbn. lia.
    - apply Z.eqb_eq in H400. rewrite H400, orb_true_r. cbn. lia. }
  assert (Hdoe : 0 <= doe < 146097).
  { unfold doe.
    destruct (Z.eq_dec doy 365) as [H5 | H5].
    - destruct (H365 H5) as [H11 H29].
      assert (m = 2) as Hm2 by (rewrite Hmm, H11; reflexivity).
      destruct (Hleap Hm2 H29) as [H4 H100].
      Z.div_mod_to_equations; lia.
    - Z.div_mod_to_equations; lia. }
  replace (era * 146097 + doe - 719468 + 719468) with (doe + era * 146097)
    by lia.
  rewrite Z.div_add by lia.
  rewrite (Z.div_small doe 146097) by lia. rewrite Z.add_0_l.
  replace (doe + era * 146097 - era * 146097) with doe by lia.
  rewrite Hyoe'.
  replace (doe - (365 * yoe + yoe / 4 - yoe / 100)) with doy
    by (unfold doe; lia).
  rewrite Hmp', Hd', <- Hmm.
  f_equal. f_equal.
  unfold yoe, y'. destruct (Z.leb_spec m 2); lia.
Qed.

(** *** Texts of digits and their order *)

Lemma digit_range (c : ascii) (v : Z) :
  digit c = Some v → 0 ≤ v ≤ 9 ∧ Z.of_N (code c) = v + 48.
Proof.
  unfold digit.
  destruct (Z.leb_spec 48 (Z.of_N (code c))); cbn [andb]; [|discriminate].
  destruct (Z.leb_spec (Z.of_N (code c)) 57); [|discriminate].
  intros [= <-]. lia.
Qed.

Lemma digit_not_dash (c : ascii) (v : Z) : digit c = Some v → isDash c = false.
Proof.
  intros Hd. apply digit_range in Hd as [Hv Hc]. unfold isDash.
  apply N.eqb_neq. unfold code in *. lia.
Qed.

Lemma isDash_eq (c : ascii) : isDash c = true → c = ascii_of_N 45.
Proof.
  unfold isDash, code. intros Hc. apply N.eqb_eq in Hc.
  rewrite <- Hc. symmetry. apply ascii_N_embedding.
Qed.

Lemma compare_digit (c1 c2 : ascii) (a b : Z) :
  digit c1 = Some a → digit c2 = Some b → Ascii.compare c1 c2 = (a ?= b).
Proof.
  intros H1 H2. apply digit_range in H1 as [_ H1], H2 as [_ H2].
  unfold Ascii.compare. unfold code in H1, H2.
  rewrite <- N2Z.inj_compare, H1, H2.
  destruct (Z.compare_spec a b), (Z.compare_spec (a + 48) (b + 48));
    first [reflexivity | lia].
Qed.

Lemma digit_digitChar (v : Z) :
  0 ≤ v ≤ 9 →
  ∃ c, digitChar v = String c EmptyString ∧ digit c = Some v.
Proof.
  intros Hv. exists (ascii_of_N (Z.to_N (48 + v))). split; [reflexivity|].
  assert (Hc : v = 0 ∨ v = 1 ∨ v = 2 ∨ v = 3 ∨ v = 4 ∨ v = 5 ∨ v = 6 ∨ v = 7
               ∨ v = 8 ∨ v = 9) by lia.
  repeat (destruct Hc as [-> | Hc]); [..|subst v]; reflexivity.
Qed.

Lemma rank_mono (s1 : string) :
  ∀ s2 a1 a2 r1 r2,
    Run.dashes s1 = Run.dashes s2 →
    Run.rank s1 a1 = Some r1 → Run.rank s2 a2 = Some r2 →
    a1 < a2 → r1 < r2.
Proof.
  unfold Run.dashes.
  induction s1 as [|c1 s1 IH]; intros [|c2 s2] a1 a2 r1 r2 Hm H1 H2 Ha;
    cbn [list_ascii_of_string fmap list_fmap] in Hm; try discriminate Hm.
  - cbn in H1, H2. injection H1 as <-. injection H2 as <-. exact Ha.
  - injection Hm as Hc Hm. cbn [Run.rank] in H1, H2. rewrite <- Hc in H2.
    destruct (isDash c1); [exact (IH _ _ _ _ _ Hm H1 H2 Ha)|].
    destruct (digit c1) as [v1|] eqn:Hv1; [|discriminate H1].
    destruct (digit c2) as [v2|] eqn:Hv2; [|discriminate H2].
    apply digit_range in Hv1 as [Hv1 _], Hv2 as [Hv2 _].
    apply (IH _ _ _ _ _ Hm H1 H2). lia.
Qed.

Lemma rank_compare (s1 : string) :
  ∀ s2 a r1 r2,
    Run.dashes s1 = Run.dashes s2 →
    Run.rank s1 a = Some r1 → Run.rank s2 a = Some r2 →
    String.compare s1 s2 = (r1 ?= r2).
Proof.
  induction s1 as [|c1 s1 IH]; intros [|c2 s2] a r1 r2 Hm H1 H2;
    try discriminate Hm.
  - cbn in H1, H2. injection H1 as <-. injection H2 as <-.
    symmetry. apply Z.compare_refl.
  - pose proof Hm as Hm'. unfold Run.dashes in Hm'.
    cbn [list_ascii_of_string fmap list_fmap] in Hm'.
    injection Hm' as Hc Hm'. fold (Run.dashes s1) (Run.dashes s2) in Hm'.
    cbn [Run.rank] in H1, H2. cbn [String.compare].
    destruct (isDash c1) eqn:Hd1.
    + rewrite <- Hc in H2.
      assert (c2 = ascii_of_N 45) as -> by (apply isDash_eq; congruence).
      apply isDash_eq in Hd1. subst c1.
      change (Ascii.compare (ascii_of_N 45) (ascii_of_N 45)) with Eq.
      exact (IH _ _ _ _ Hm' H1 H2).
    + rewrite <- Hc in H2.
      destruct (digit c1) as [v1|] eqn:Hv1; [|discriminate H1].
      destruct (digit c2) as [v2|] eqn:Hv2; [|discriminate H2].
      rewrite (compare_digit c1 c2 v1 v2 Hv1 Hv2).
      destruct (Z.compare_spec v1 v2) as [-> | Hlt | Hgt].
      * exact (IH _ _ _ _ Hm' H1 H2).
      * symmetry. apply Z.compare_lt_iff.
        apply (rank_mono s1 s2 _ _ _ _ Hm' H1 H2). lia.
      * symmetry. apply Z.compare_gt_iff.
        apply (rank_mono s2 s1 _ _ _ _ (eq_sym Hm') H2 H1). lia.
Qed.

Lemma parse_rank (s : string) (y m d : Z) :
  parseIsoDate s = Some (y, m, d) →
  Run.rank s 0 = Some (y * 10000 + m * 100 + d)
  ∧ Run.dashes s
    = [false; false; false; false; true; false; false; true; false; false]
  ∧ 0 ≤ y ≤ 9999 ∧ 1 ≤ m ≤ 12 ∧ 1 ≤ d ≤ daysInMonth y m.
Proof.
  unfold parseIsoDate, Run.dashes.
  remember (list_ascii_of_string s) as l eqn:Hl.
  assert (s = string_of_list_ascii l) as ->
    by (subst l; symmetry; apply string_of_list_ascii_of_string).
  clear Hl.
  destruct l as [|y1 [|y2 [|y3 [|y4 [|h1 [|m1 [|m2 [|h2 [|d1 [|d2 [|]]]]]]]]]]];
    try discriminate.
  cbn [mbind option_bind].
  destruct (digit y1) as [a|] eqn:Ha; [|discriminate].
  destruct (digit y2) as [b|] eqn:Hb; [|discriminate].
  destruct (digit y3) as [c|] eqn:Hc; [|discriminate].
  destruct (digit y4) as [d0|] eqn:Hd0; [|discriminate].
  destruct (digit m1) as [e|] eqn:He; [|discriminate].
  destruct (digit m2) as [f|] eqn:Hf; [|discriminate].
  destruct (digit d1) as [g|] eqn:Hg; [|discriminate].
  destruct (digit d2) as [h|] eqn:Hh; [|discriminate].
  cbn [mbind option_bind option_ret].
  destruct (isDash h1 && isDash h2 && _ && _ && _ && _) eqn:Hok;
    [|discriminate].
  intros [= <- <- <-].
  repeat rewrite andb_true_iff in Hok.
  destruct Hok as [[[[[Hh1 Hh2] Hm1] Hm2] Hd1] Hd2].
  apply Z.leb_le in Hm1, Hm2, Hd1, Hd2.
  pose proof (digit_range _ _ Ha) as [Ra _].
  pose proof (digit_range _ _ Hb) as [Rb _].
  pose proof (digit_range _ _ Hc) as [Rc _].
  pose proof (digit_range _ _ Hd0) as [Rd _].
  split; [|split; [|lia]].
  - cbn [string_of_list_ascii Run.rank].
    rewrite (digit_not_dash _ _ Ha), Ha, (digit_not_dash _ _ Hb), Hb,
      (digit_not_dash _ _ Hc), Hc, (digit_not_dash _ _ Hd0), Hd0, Hh1,
      (digit_not_dash _ _ He), He, (digit_not_dash _ _ Hf), Hf, Hh2,
      (digit_not_dash _ _ Hg), Hg, (digit_not_dash _ _ Hh), Hh.
    f_equal. lia.
  - cbn [fmap list_fmap].
    rewrite (digit_not_dash _ _ Ha), (digit_not_dash _ _ Hb),
      (digit_not_dash _ _ Hc), (digit_not_dash _ _ Hd0), Hh1,
      (digit_not_dash _ _ He), (digit_not_dash _ _ Hf), Hh2,
      (digit_not_dash _ _ Hg), (digit_not_dash _ _ Hh).
    reflexivity.
Qed.

Lemma numberToString_year (y : Z) :
  1000 ≤ y ≤ 9999 →
  ∃ c1 c2 c3 c4 a b c d,
    numberToString y
    = String c1 (String c2 (String c3 (String c4 EmptyString)))
    ∧ digit c1 = Some a ∧ digit c2 = Some b ∧ digit c3 = Some c
    ∧ digit c4 = Some d
    ∧ ((a * 10 + b) * 10 + c) * 10 + d = y.
Proof.
  intros Hy. unfold numberToString. settle.
  assert (Hlog : 9 ≤ Z.log2 y).
  { change 9 with (Z.log2 1000). apply Z.log2_le_mono. lia. }
  destruct (Z.to_nat (Z.log2 y)) as [|[|[|n]]] eqn:Hn; try lia.
  cbn [decimalDigits]. settle.
  destruct (digit_digitChar (y / 10 / 10 / 10)) as (c1 & -> & H1);
    [Z.div_mod_to_equations; lia|].
  destruct (digit_digitChar (y / 10 / 10 mod 10)) as (c2 & -> & H2);
    [Z.div_mod_to_equations; lia|].
  destruct (digit_digitChar (y / 10 mod 10)) as (c3 & -> & H3);
    [Z.div_mod_to_equations; lia|].
  destruct (digit_digitChar (y mod 10)) as (c4 & -> & H4);
    [Z.div_mod_to_equations; lia|].
  exists c1, c2, c3, c4, (y / 10 / 10 / 10), (y / 10 / 10 mod 10),
    (y / 10 mod 10), (y mod 10).
  rewrite !append_String, !append_empty.
  repeat (split; [first [reflexivity | assumption]|]).
  Z.div_mod_to_equations; lia.
Qed.

(** A bound of the table of quarters: the year, then a month and a day *)
Lemma bound_rank (y : Z) (m1 m2 d1 d2 : ascii) (e f g h : Z) :
  1000 ≤ y ≤ 9999 →
  digit m1 = Some e → digit m2 = Some f →
  digit d1 = Some g → digit d2 = Some h →
  let s := (numberToString y
            ++ String (ascii_of_N 45)
                 (String m1 (String m2
                    (String (ascii_of_N 45)
                       (String d1 (String d2 EmptyString))))))%string in
  Run.rank s 0 = Some (y * 10000 + (e * 10 + f) * 100 + (g * 10 + h))
  ∧ Run.dashes s
    = [false; false; false; false; true; false; false; true; false; false]
  ∧ parseIsoDate s
    = if (1 <=? e * 10 + f) && (e * 10 + f <=? 12) && (1 <=? g * 10 + h)
         && (g * 10 + h <=? daysInMonth y (e * 10 + f))
      then Some (y, e * 10 + f, g * 10 + h) else None.
Proof.
  intros Hy He Hf Hg Hh. cbv zeta.
  destruct (numberToString_year y Hy)
    as (c1 & c2 & c3 & c4 & a & b & c & d & -> & Ha & Hb & Hc & Hd & Heq).
  rewrite !append_String, append_empty.
  assert (Hdash : isDash (ascii_of_N 45) = true) by reflexivity.
  split; [|split].
  - cbn [Run.rank].
    rewrite (digit_not_dash _ _ Ha), Ha, (digit_not_dash _ _ Hb), Hb,
      (digit_not_dash _ _ Hc), Hc, (digit_not_dash _ _ Hd), Hd, Hdash,
      (digit_not_dash _ _ He), He, (digit_not_dash _ _ Hf), Hf,
      (digit_not_dash _ _ Hg), Hg, (digit_not_dash _ _ Hh), Hh.
    f_equal. lia.
  - unfold Run.dashes. cbn [list_ascii_of_string fmap list_fmap].
    rewrite (digit_not_dash _ _ Ha), (digit_not_dash _ _ Hb),
      (digit_not_dash _ _ Hc), (digit_not_dash _ _ Hd), Hdash,
      (digit_not_dash _ _ He), (digit_not_dash _ _ Hf),
      (digit_not_dash _ _ Hg), (digit_not_dash _ _ Hh).
    reflexivity.
  - unfold parseIsoDate. cbn [list_ascii_of_string].
    rewrite Ha, Hb, Hc, Hd, He, Hf, Hg, Hh.
    cbn [mbind option_bind option_ret]. rewrite Hdash. cbn [andb].
    rewrite Heq. reflexivity.
Qed.

Lemma daysInMonth_bound (y m : Z) :
  daysInMonth y m ≤ 31
  ∧ (m = 4 ∨ m = 6 ∨ m = 9 ∨ m = 11 → daysInMonth y m = 30)
  ∧ (m = 1 ∨ m = 3 ∨ m = 5 ∨ m = 7 ∨ m = 8 ∨ m = 10 ∨ m = 12 →
     daysInMonth y m = 31).
Proof.
  unfold daysInMonth.
  destruct (Z.eqb_spec m 2), (Z.eqb_spec m 4), (Z.eqb_spec m 6),
    (Z.eqb_spec m 9), (Z.eqb_spec m 11), (isLeap y); cbn [orb]; lia.
Qed.

Lemma daysInMonth_least (y m : Z) : 28 ≤ daysInMonth y m.
Proof.
  unfold daysInMonth.
  destruct (Z.eqb_spec m 2), (Z.eqb_spec m 4), (Z.eqb_spec m 6),
    (Z.eqb_spec m 9), (Z.eqb_spec m 11), (isLeap y); cbn [orb]; lia.
Qed.

Lemma leb_rank (s1 s2 : string) (r1 r2 : Z) :
  Run.dashes s1 = Run.dashes s2 →
  Run.rank s1 0 = Some r1 → Run.rank s2 0 = Some r2 →
  String.leb s1 s2 = (r1 <=? r2) ∧ String.ltb s1 s2 = (r1 <? r2).
Proof.
  intros Hm H1 H2. unfold String.leb, String.ltb, Z.leb, Z.ltb.
  rewrite (rank_compare s1 s2 0 r1 r2 Hm H1 H2). split; reflexivity.
Qed.

(** The texts of a quarter of a four-digit year, and the dates between
    them *)
Lemma quarter_range (year quarter : Z) :
  1000 ≤ year ≤ 9999 → 1 ≤ quarter ≤ 4 →
  ∃ start finish,
    Database.quarterRange year quarter = Some (start, finish)
    ∧ String.ltb finish start = false
    ∧ ∀ s y m d,
        parseIsoDate s = Some (y, m, d) →
        (Database.inRange start finish (Some s) = true
         ↔ y = year ∧ 3 * (quarter - 1) < m ≤ 3 * quarter).
Proof.
  intros Hy Hq. unfold Database.quarterRange.
  assert (D0 : digit "0" = Some 0) by reflexivity.
  assert (D1 : digit "1" = Some 1) by reflexivity.
  assert (D2 : digit "2" = Some 2) by reflexivity.
  assert (D3 : digit "3" = Some 3) by reflexivity.
  assert (D4 : digit "4" = Some 4) by reflexivity.
  assert (D6 : digit "6" = Some 6) by reflexivity.
  assert (D7 : digit "7" = Some 7) by reflexivity.
  assert (D9 : digit "9" = Some 9) by reflexivity.
  assert (Hgen : ∀ (a1 a2 a3 a4 b1 b2 b3 b4 : ascii) (e1 f1 g1 h1 e2 f2 g2 h2 : Z),
             digit a1 = Some e1 → digit a2 = Some f1 →
             digit a3 = Some g1 → digit a4 = Some h1 →
             digit b1 = Some e2 → digit b2 = Some f2 →
             digit b3 = Some g2 → digit b4 = Some h2 →
             e1 * 10 + f1 = 3 * (quarter - 1) + 1 → g1 * 10 + h1 = 1 →
             e2 * 10 + f2 = 3 * quarter →
             g2 * 10 + h2 = daysInMonth year (3 * quarter) →
             let start := (numberToString year
                           ++ String (ascii_of_N 45)
                                (String a1 (String a2
                                   (String (ascii_of_N 45)
                                      (String a3 (String a4 EmptyString))))))%string in
             let finish := (numberToString year
                            ++ String (ascii_of_N 45)
                                 (String b1 (String b2
                                    (String (ascii_of_N 45)
                                       (String b3 (String b4 EmptyString))))))%string in
             String.ltb finish start = false
             ∧ ∀ s y m d,
                 parseIsoDate s = Some (y, m, d) →
                 (Database.inRange start finish (Some s) = true
                  ↔ y = year ∧ 3 * (quarter - 1) < m ≤ 3 * quarter)).
  { intros a1 a2 a3 a4 b1 b2 b3 b4 e1 f1 g1 h1 e2 f2 g2 h2
           A1 A2 A3 A4 B1 B2 B3 B4 E1 E2 E3 E4. cbv zeta.
    destruct (bound_rank year a1 a2 a3 a4 _ _ _ _ Hy A1 A2 A3 A4)
      as (Rs & Ms & _).
    destruct (bound_rank year b1 b2 b3 b4 _ _ _ _ Hy B1 B2 B3 B4)
      as (Rf & Mf & _).
    pose proof (daysInMonth_bound year (3 * quarter)) as (Hmax & _ & _).
    pose proof (daysInMonth_least year (3 * quarter)).
    split.
    - rewrite (proj2 (leb_rank _ _ _ _ (eq_trans Mf (eq_sym Ms)) Rf Rs)).
      apply Z.ltb_ge. lia.
    - intros s y m d Hs.
      destruct (parse_rank s y m d Hs) as (Rd & Md & Hyr & Hm & Hd).
      pose proof (daysInMonth_bound y m) as (Hmax' & _ & _).
      unfold Database.inRange.
      rewrite (proj1 (leb_rank _ _ _ _ (eq_trans Ms (eq_sym Md)) Rs Rd)).
      rewrite (proj1 (leb_rank _ _ _ _ (eq_trans Md (eq_sym Mf)) Rd Rf)).
      rewrite andb_true_iff, !Z.leb_le. split.
      + intros [Hlo Hhi].
        assert (y = year) as -> by lia. split; [reflexivity|]. lia.
      + intros [-> Hmq]. split; [lia|].
        destruct (Z.eq_dec m (3 * quarter)) as [-> | Hne]; lia. }
  destruct (Z.eqb_spec quarter 1) as [-> | H1].
  { eexists _, _. split; [reflexivity|].
    apply (Hgen "0" "1" "0" "1" "0" "3" "3" "1" 0 1 0 1 0 3 3 1)%char;
      first [assumption | reflexivity]. }
  destruct (Z.eqb_spec quarter 2) as [-> | H2].
  { eexists _, _. split; [reflexivity|].
    apply (Hgen "0" "4" "0" "1" "0" "6" "3" "0" 0 4 0 1 0 6 3 0)%char;
      first [assumption | reflexivity]. }
  destruct (Z.eqb_spec quarter 3) as [-> | H3].
  { eexists _, _. split; [reflexivity|].
    apply (Hgen "0" "7" "0" "1" "0" "9" "3" "0" 0 7 0 1 0 9 3 0)%char;
      first [assumption | reflexivity]. }
  destruct (Z.eqb_spec quarter 4) as [-> | H4]; [|lia].
  eexists _, _. split; [reflexivity|].
  apply (Hgen "1" "0" "0" "1" "1" "2" "3" "1" 1 0 0 1 1 2 3 1)%char;
    first [assumption | reflexivity].
Qed.

(** *** The report *)

Lemma getQuarterlyStats_run (year quarter : Z) (w : World) :
  1000 ≤ year ≤ 9999 → 1 ≤ quarter ≤ 4 →
  ∃ run stats,
    Database.getQuarterlyStats year quarter = Some run
    ∧ run w = (Ok stats, w)
    ∧ QuarterlyStats.expenseCount stats
      = Z.of_nat (length (QuarterlyStats.expenses stats))
    ∧ ∀ e y m d,
        Run.writtenOn e = Some (y, m, d) →
        (e ∈ QuarterlyStats.expenses stats
         ↔ e ∈ Idb.getAll (expenses (stores w))
           ∧ y = year ∧ 3 * (quarter - 1) < m ≤ 3 * quarter).
Proof.
  intros Hy Hq.
  destruct (quarter_range year quarter Hy Hq)
    as (start & finish & Hr & Hlt & Hin).
  unfold Database.getQuarterlyStats. rewrite Hr. cbn [mbind option_bind].
  set (l := sortBy Database.byDatePaid
              (List.filter
                 (fun e => Database.inRange start finish (Expense.datePaid e))
                 (Idb.getAll (expenses (stores w))))).
  eexists _, (QuarterlyStats.mk quarter year _ _ (Z.of_nat (length l)) l).
  split; [reflexivity|]. split.
  { unfold Database.getExpensesByDateRange. rewrite Hlt. reflexivity. }
  split; [reflexivity|].
  intros e y m d He. cbn [QuarterlyStats.expenses]. unfold l.
  rewrite sortBy_perm, !list_elem_of_In, filter_In.
  unfold Run.writtenOn in He.
  destruct (Expense.datePaid e) as [s|]; [|discriminate He].
  cbn [mbind option_bind] in He. rewrite (Hin s y m d He). tauto.
Qed.

(** X21.  For a four-digit year and a quarter from 1 to 4, [generateReport]
    resolves, reads the clock once for [generatedAt] and writes nothing.
    Its expenses are the stored ones whose [datePaid], read as the calendar
    date it writes, lies in that quarter of that year (among those whose
    [datePaid] is a date), and their number is [expenseCount].  The period
    that the report prints is the range that was queried. *)
Theorem generateReport_reads_the_written_quarter
        `{Host} (year quarter : Z) (w : World) :
  1000 ≤ year ≤ 9999 → 1 ≤ quarter ≤ 4 →
  ∃ run report,
    ReportManager.generateReport year quarter = Some run
    ∧ run w = (Ok report, mkWorld (stores w) (S (tick w)))
    ∧ ReportManager.generatedAt report = toISOString (clock (tick w))
    ∧ ReportManager.getQuarterDates year quarter
      = Database.quarterRange year quarter
    ∧ QuarterlyStats.expenseCount (ReportManager.stats report)
      = Z.of_nat (length (QuarterlyStats.expenses (ReportManager.stats report)))
    ∧ ∀ e y m d,
        Run.writtenOn e = Some (y, m, d) →
        (e ∈ QuarterlyStats.expenses (ReportManager.stats report)
         ↔ e ∈ Idb.getAll (expenses (stores w))
           ∧ y = year ∧ 3 * (quarter - 1) < m ≤ 3 * quarter).
Proof.
  intros Hy Hq.
  destruct (getQuarterlyStats_run year quarter w Hy Hq)
    as (run & stats & Hrun & Hw & Hcount & Hin).
  unfold ReportManager.generateReport. rewrite Hrun.
  cbn [mbind option_bind].
  eexists _, (ReportManager.mkReport stats (toISOString (clock (tick w)))).
  split; [reflexivity|]. split.
  { unfold mbind, M_bind. rewrite Hw. reflexivity. }
  split; [reflexivity|]. split; [reflexivity|].
  split; [exact Hcount | exact Hin].
Qed.

Lemma generateReport_reads_the_written_quarter_witness :
  1000 ≤ 2024 ≤ 9999 ∧ 1 ≤ 2 ≤ 4
  ∧ ∃ run report,
      @ReportManager.generateReport Sample.host 2024 2 = Some run
      ∧ run Sample.world = (Ok report, mkWorld (stores Sample.world) 1)
      ∧ (Sample.internetBill
           ∈ QuarterlyStats.expenses (ReportManager.stats report)
         ↔ Sample.internetBill ∈ Idb.getAll (expenses (stores Sample.world))
           ∧ 2024 = 2024 ∧ 3 * (2 - 1) < 5 ≤ 3 * 2).
Proof.
  split; [lia|]. split; [lia|].
  destruct (@generateReport_reads_the_written_quarter Sample.host 2024 2
              Sample.world ltac:(lia) ltac:(lia))
    as (run & report & Hrun & Hw & _ & _ & _ & Hin).
  exists run, report. split; [exact Hrun|]. split; [exact Hw|].
  exact (Hin Sample.internetBill 2024 5 2 eq_refl).
Defined.

(** *** The dashboard *)

Section Quarters.
Context `{Host}.

Lemma filterByQuarter_local (l : list Expense.t) (year quarter : Z) :
  1 ≤ quarter ≤ 4 →
  ∃ shown,
    DashboardManager.filterByQuarter l year quarter = Some shown
    ∧ ∀ e y m d,
        Run.writtenOn e = Some (y, m, d) →
        (e ∈ shown
         ↔ e ∈ l
           ∧ (civil_from_days
                (days_from_civil y m d + tzOffset * 60000 / msPerDay)).1.1
             = year
           ∧ 3 * (quarter - 1)
             < (civil_from_days
                  (days_from_civil y m d + tzOffset * 60000 / msPerDay)).1.2
             ≤ 3 * quarter).
Proof.
  intros Hq. unfold DashboardManager.filterByQuarter.
  assert (Hm : ∃ first last,
             DashboardManager.quarterMonths quarter = Some (first, last)
             ∧ first = 3 * (quarter - 1) ∧ last = 3 * (quarter - 1) + 2).
  { unfold DashboardManager.quarterMonths.
    destruct (Z.eqb_spec quarter 1) as [-> | ?];
      [eexists _, _; split; [reflexivity | lia]|].
    destruct (Z.eqb_spec quarter 2) as [-> | ?];
      [eexists _, _; split; [reflexivity | lia]|].
    destruct (Z.eqb_spec quarter 3) as [-> | ?];
      [eexists _, _; split; [reflexivity | lia]|].
    destruct (Z.eqb_spec quarter 4) as [-> | ?];
      [eexists _, _; split; [reflexivity | lia]|].
    lia. }
  destruct Hm as (first & last & -> & Hfirst & Hlast).
  cbn [mbind option_bind]. eexists. split; [reflexivity|].
  intros e y m d He.
  rewrite !list_elem_of_In, filter_In.
  unfold Run.writtenOn in He.
  destruct (Expense.datePaid e) as [s|]; [|discriminate He].
  cbn [mbind option_bind] in He.
  assert (Hdate : newDate (Some s) = Some (days_from_civil y m d * msPerDay)).
  { unfold newDate. cbn [mbind option_bind]. rewrite He. reflexivity. }
  rewrite Hdate. unfold getFullYear, getMonth. cbn [mbind option_bind].
  rewrite localDay_midnight.
  rewrite !andb_true_iff, negb_true_iff, numNe_false.
  unfold DashboardManager.numGe, DashboardManager.numLe.
  rewrite !Z.leb_le.
  split.
  - intros (Hl & [Hyear Hlo] & Hhi). apply (inj Some) in Hyear.
    split; [exact Hl|]. split; [exact Hyear | lia].
  - intros (Hl & Hyear & Hlo). split; [exact Hl|].
    split; [split; [f_equal; exact Hyear | lia] | lia].
Qed.

(** X22.  East of Greenwich and on it (an offset from 0 to 14 hours) the
    report and the dashboard put every dated expense in the same quarter:
    for a four-digit year and a quarter from 1 to 4, a stored expense whose
    [datePaid] is a date is among the expenses of [getQuarterlyStats] exactly
    when [filterByQuarter] keeps it. *)
Theorem quarters_agree_east_of_Greenwich
        (year quarter : Z) (w : World) :
  0 ≤ tzOffset ≤ 840 → 1000 ≤ year ≤ 9999 → 1 ≤ quarter ≤ 4 →
  ∃ run stats shown,
    Database.getQuarterlyStats year quarter = Some run
    ∧ run w = (Ok stats, w)
    ∧ DashboardManager.filterByQuarter (Idb.getAll (expenses (stores w)))
                                       year quarter
      = Some shown
    ∧ ∀ e, Run.dated e → (e ∈ QuarterlyStats.expenses stats ↔ e ∈ shown).
Proof.
  intros Htz Hy Hq.
  destruct (getQuarterlyStats_run year quarter w Hy Hq)
    as (run & stats & Hrun & Hw & _ & Hin).
  destruct (filterByQuarter_local (Idb.getAll (expenses (stores w)))
                                  year quarter Hq)
    as (shown & Hshown & Hin').
  exists run, stats, shown.
  split; [exact Hrun|]. split; [exact Hw|]. split; [exact Hshown|].
  intros e [t Ht]. unfold Run.paidAt, newDate in Ht.
  destruct (Expense.datePaid e) as [s|] eqn:Hs; [|discriminate Ht].
  cbn [mbind option_bind] in Ht.
  destruct (parseIsoDate s) as [[[y m] d]|] eqn:Hp; [|discriminate Ht].
  assert (He : Run.writtenOn e = Some (y, m, d)).
  { unfold Run.writtenOn. rewrite Hs. exact Hp. }
  rewrite (Hin e y m d He), (Hin' e y m d He).
  assert (Hoff : tzOffset * 60000 / msPerDay = 0).
  { unfold msPerDay. apply Z.div_small. lia. }
  destruct (parse_rank s y m d Hp) as (_ & _ & _ & Hm & Hd).
  rewrite Hoff, Z.add_0_r, (civil_round_trip y m d Hm Hd). cbn [fst snd].
  tauto.
Qed.

Lemma april_first (year : Z) :
  days_from_civil year 4 1 - 1 = days_from_civil year 3 31.
Proof. unfold days_from_civil. settle. Z.div_mod_to_equations. lia. Qed.

(** X23.  West of Greenwich (an offset of up to 12 hours behind) they do
    not: an expense paid on the first of April of a four-digit year is among
    the expenses of the report for the second quarter, wherever it is
    stored, while [filterByQuarter] keeps it for the first quarter and not
    for the second. *)
Theorem quarters_disagree_west_of_Greenwich
        (year : Z) (e : Expense.t) :
  -720 ≤ tzOffset < 0 → 1000 ≤ year ≤ 9999 →
  Expense.datePaid e = Some (numberToString year ++ "-04-01")%string →
  (∀ w, e ∈ Idb.getAll (expenses (stores w)) →
        ∃ run stats,
          Database.getQuarterlyStats year 2 = Some run
          ∧ run w = (Ok stats, w)
          ∧ e ∈ QuarterlyStats.expenses stats)
  ∧ DashboardManager.filterByQuarter [e] year 2 = Some []
  ∧ DashboardManager.filterByQuarter [e] year 1 = Some [e].
Proof.
  intros Htz Hy Hs.
  assert (Hp : parseIsoDate (numberToString year ++ "-04-01")
               = Some (year, 4, 1)).
  { destruct (bound_rank year "0" "4" "0" "1" 0 4 0 1 Hy
                eq_refl eq_refl eq_refl eq_refl) as (_ & _ & Hp0).
    refine (eq_trans Hp0 _). reflexivity. }
  assert (He : Run.writtenOn e = Some (year, 4, 1)).
  { unfold Run.writtenOn. rewrite Hs. exact Hp. }
  assert (Hoff : tzOffset * 60000 / msPerDay = -1).
  { unfold msPerDay. Z.div_mod_to_equations. lia. }
  assert (Hciv : civil_from_days
                   (days_from_civil year 4 1 + tzOffset * 60000 / msPerDay)
                 = (year, 3, 31)).
  { rewrite Hoff. change (?x + -1) with (x - 1). rewrite april_first.
    apply civil_round_trip; [lia|]. split; [lia|].
    rewrite (proj2 (proj2 (daysInMonth_bound year 3))); lia. }
  split; [|split].
  - intros w Hw.
    destruct (getQuarterlyStats_run year 2 w Hy ltac:(lia))
      as (run & stats & Hrun & Hrw & _ & Hin).
    exists run, stats. split; [exact Hrun|]. split; [exact Hrw|].
    apply (Hin e year 4 1 He). split; [exact Hw|]. lia.
  - destruct (filterByQuarter_local [e] year 2 ltac:(lia))
      as (shown & Hshown & Hin).
    rewrite Hshown. f_equal.
    destruct shown as [|x shown]; [reflexivity|]. exfalso.
    assert (Hx : x ∈ x :: shown) by apply list_elem_of_here.
    assert (Hsub : ∀ z, z ∈ x :: shown → z = e).
    { intros z Hz.
      unfold DashboardManager.filterByQuarter in Hshown.
      cbn [DashboardManager.quarterMonths mbind option_bind] in Hshown.
      injection Hshown as Hshown. rewrite <- Hshown in Hz.
      cbn [List.filter] in Hz.
      destruct (negb _ && _ && _); apply list_elem_of_In in Hz;
        [destruct Hz as [<- | []]; reflexivity | destruct Hz]. }
    pose proof (Hsub x Hx) as ->.
    apply (Hin e year 4 1 He) in Hx as (_ & _ & Hlo).
    rewrite Hciv in Hlo. cbn [fst snd] in Hlo. lia.
  - destruct (filterByQuarter_local [e] year 1 ltac:(lia))
      as (shown & Hshown & Hin).
    assert (Hkept : e ∈ shown).
    { apply (Hin e year 4 1 He). rewrite Hciv. cbn [fst snd].
      split; [apply list_elem_of_here | lia]. }
    rewrite Hshown. f_equal.
    unfold DashboardManager.filterByQuarter in Hshown.
    cbn [DashboardManager.quarterMonths mbind option_bind] in Hshown.
    injection Hshown as Hshown. rewrite <- Hshown in Hkept |- *.
    cbn [List.filter] in Hkept |- *.
    destruct (negb _ && _ && _); [reflexivity|]. inversion Hkept.
Qed.

End Quarters.

Lemma quarters_agree_east_of_Greenwich_witness :
  0 ≤ @tzOffset Sample.host ≤ 840 ∧ 1000 ≤ 2024 ≤ 9999 ∧ 1 ≤ 2 ≤ 4
  ∧ ∃ run stats shown,
      Database.getQuarterlyStats 2024 2 = Some run
      ∧ run Sample.world = (Ok stats, Sample.world)
      ∧ @DashboardManager.filterByQuarter Sample.host
          (Idb.getAll (expenses (stores Sample.world))) 2024 2
        = Some shown
      ∧ (Sample.internetBill ∈ QuarterlyStats.expenses stats
         ↔ Sample.internetBill ∈ shown).
Proof.
  assert (Htz : 0 ≤ @tzOffset Sample.host ≤ 840) by (cbn; lia).
  split; [exact Htz|]. split; [lia|]. split; [lia|].
  destruct (@quarters_agree_east_of_Greenwich Sample.host 2024 2 Sample.world
              Htz ltac:(lia) ltac:(lia))
    as (run & stats & shown & Hrun & Hw & Hshown & Hin).
  exists run, stats, shown.
  split; [exact Hrun|]. split; [exact Hw|]. split; [exact Hshown|].
  apply Hin. vm_compute. eauto.
Defined.

Lemma quarters_disagree_west_of_Greenwich_witness :
  -720 ≤ @tzOffset Sample.west < 0 ∧ 1000 ≤ 2024 ≤ 9999
  ∧ Expense.datePaid (Sample.paidOn "2024-04-01")
    = Some (numberToString 2024 ++ "-04-01")%string
  ∧ @DashboardManager.filterByQuarter Sample.west
      [Sample.paidOn "2024-04-01"] 2024 2
    = Some []
  ∧ @DashboardManager.filterByQuarter Sample.west
      [Sample.paidOn "2024-04-01"] 2024 1
    = Some [Sample.paidOn "2024-04-01"].
Proof.
  assert (Htz : -720 ≤ @tzOffset Sample.west < 0) by (cbn; lia).
  split; [exact Htz|]. split; [lia|]. split; [reflexivity|].
  exact (proj2 (@quarters_disagree_west_of_Greenwich Sample.west 2024
                  (Sample.paidOn "2024-04-01") Htz ltac:(lia) eq_refl)).
Defined.

(** ** The ledger's filter, on the dates as they are written *)

Lemma startsWith_prefix (p : string) :
  ∀ s, startsWith s p = true ↔ ∃ after, s = (p ++ after)%string.
Proof.
  induction p as [|a p IH]; intros s.
  - destruct s; (split; [intros _; eexists; rewrite append_empty; reflexivity
                        | reflexivity]).
  - destruct s as [|b s]; cbn [startsWith].
    + split; [discriminate|]. intros [after Heq].
      rewrite append_String in Heq. discriminate Heq.
    + rewrite andb_true_iff, Ascii.eqb_eq, IH. split.
      * intros [-> [after ->]]. exists after. rewrite append_String.
        reflexivity.
      * intros [after Heq]. rewrite append_String in Heq.
        injection Heq as -> ->. split; [reflexivity | eauto].
Qed.

Lemma includes_partOf (p : string) :
  ∀ s, includes s p = true ↔ Spec.partOf p s.
Proof.
  unfold Spec.partOf. induction s as [|c s IH]; cbn [includes].
  - rewrite orb_false_r, startsWith_prefix. split.
    + intros [after Heq]. exists EmptyString, after.
      rewrite append_empty. exact Heq.
    + intros (before & after & Heq). exists after.
      destruct before as [|b before];
        [rewrite append_empty in Heq; exact Heq|].
      rewrite append_String in Heq. discriminate Heq.
  - rewrite orb_true_iff, startsWith_prefix, IH. split.
    + intros [[after Heq] | (before & after & Heq)].
      * exists EmptyString, after. rewrite append_empty. exact Heq.
      * exists (String c before), after. rewrite append_String, Heq.
        reflexivity.
    + intros (before & after & Heq).
      destruct before as [|b before].
      * left. exists after. rewrite append_empty in Heq. exact Heq.
      * right. rewrite append_String in Heq. injection Heq as _ Heq.
        eauto.
Qed.

Section WrittenDates.
Context `{Host}.

Lemma category_test (f : ExpenseManager.Filter.t) (e : Expense.t) :
  negb (String.eqb (ExpenseManager.Filter.category f) "all")
  && negb (bool_decide (Expense.expenseCategory e
                        = Some (ExpenseManager.Filter.category f)))
  = false
  ↔ Spec.inCategory f e.
Proof.
  unfold Spec.inCategory.
  rewrite andb_false_iff, !negb_false_iff, String.eqb_eq,
    bool_decide_eq_true.
  reflexivity.
Qed.

Lemma searchStep_matches (f : ExpenseManager.Filter.t) (e : Expense.t) :
  ExpenseManager.searchStep f e = true ↔ Spec.matchesSearch f e.
Proof.
  unfold ExpenseManager.searchStep, Spec.matchesSearch.
  destruct (isEmpty (ExpenseManager.Filter.searchTerm f)) eqn:Hterm;
    cbn [negb].
  - apply isEmpty_true in Hterm. split; [left; exact Hterm | reflexivity].
  - apply isEmpty_false in Hterm. rewrite <- includes_partOf.
    destruct (includes _ _); cbn [negb]; split; auto.
    + intros [Hempty | Hfalse]; [contradiction | discriminate Hfalse].
Qed.

(** What [keeps] makes of an expense whose date is written as a date: the
    category and the search term as they are, the range on the instants of
    the three days, year and quarter on the local date. *)
Lemma keeps_dated (f : ExpenseManager.Filter.t) (e : Expense.t)
      (y m d : Z) :
  Run.writtenOn e = Some (y, m, d) →
  ExpenseManager.keeps f e = true
  ↔ Spec.inCategory f e
    ∧ Spec.matchesSearch f e
    ∧ if negb (isEmpty (ExpenseManager.Filter.dateFrom f))
         && negb (isEmpty (ExpenseManager.Filter.dateTo f))
      then negb
             (dateLt (Some (days_from_civil y m d * msPerDay))
                     (setHours 0 0 0 0
                        (newDate (Some (ExpenseManager.Filter.dateFrom f))))
              || dateGt (Some (days_from_civil y m d * msPerDay))
                        (setHours 23 59 59 999
                           (newDate (Some (ExpenseManager.Filter.dateTo f)))))
           = true
      else match ExpenseManager.Filter.year f with
           | None => True
           | Some year =>
               (Run.localDate y m d).1.1 = year
               ∧ match ExpenseManager.Filter.quarter f with
                 | None => True
                 | Some quarter =>
                     3 * (quarter - 1) < (Run.localDate y m d).1.2
                     ≤ 3 * quarter
                 end
           end.
Proof.
  intros Hw. unfold Run.writtenOn in Hw.
  destruct (Expense.datePaid e) as [paid|] eqn:Hpaid; [|discriminate Hw].
  cbn [mbind option_bind] in Hw.
  assert (Hdate : newDate (Some paid)
                  = Some (days_from_civil y m d * msPerDay)).
  { unfold newDate. cbn [mbind option_bind]. rewrite Hw. reflexivity. }
  rewrite <- category_test, <- searchStep_matches.
  unfold ExpenseManager.keeps. rewrite Hpaid, Hdate.
  destruct (negb (String.eqb _ _) && negb (bool_decide _));
    [split; [discriminate | intros [Hc _]; discriminate Hc]|].
  destruct (negb (isEmpty (ExpenseManager.Filter.dateFrom f))
            && negb (isEmpty (ExpenseManager.Filter.dateTo f))).
  - destruct (dateLt _ _ || dateGt _ _); cbn [negb].
    + split; [discriminate | intros (_ & _ & Hout); discriminate Hout].
    + tauto.
  - destruct (ExpenseManager.Filter.year f) as [year|]; [|tauto].
    unfold getFullYear, getMonth. cbn [mbind option_bind].
    rewrite localDay_midnight. fold (Run.localDate y m d).
    destruct (numNe (Some (Run.localDate y m d).1.1) year) eqn:Hyear.
    + split; [discriminate|]. intros (_ & _ & Hy & _).
      rewrite Hy in Hyear. cbn [numNe] in Hyear.
      rewrite Z.eqb_refl in Hyear. discriminate Hyear.
    + apply numNe_false in Hyear. apply (inj Some) in Hyear.
      destruct (ExpenseManager.Filter.quarter f) as [quarter|]; [|tauto].
      cbn [fmap option_fmap option_map].
      destruct (numNe _ quarter) eqn:Hquarter.
      * split; [discriminate|]. intros (_ & _ & _ & Hq).
        cbn [numNe] in Hquarter.
        apply negb_true_iff, Z.eqb_neq in Hquarter.
        exfalso. apply Hquarter. apply quarter_months. lia.
      * apply numNe_false in Hquarter. apply (inj Some) in Hquarter.
        apply quarter_months in Hquarter.
        split; [|tauto]. intros Hs.
        repeat (split; [first [reflexivity | assumption]|]). lia.
Qed.

(** On dates that are written as dates, the local date east of Greenwich is
    the written one. *)
Lemma localDate_east (y m d : Z) :
  0 ≤ tzOffset ≤ 840 →
  1 ≤ m ≤ 12 → 1 ≤ d ≤ daysInMonth y m →
  Run.localDate y m d = (y, m, d).
Proof.
  intros Htz Hm Hd. unfold Run.localDate.
  assert (Hoff : tzOffset * 60000 / msPerDay = 0).
  { unfold msPerDay. apply Z.div_small. lia. }
  rewrite Hoff, Z.add_0_r. apply civil_round_trip; assumption.
Qed.

(** West of Greenwich the first of April is still the last of March. *)
Lemma localDate_west (year : Z) :
  -720 ≤ tzOffset < 0 →
  Run.localDate year 4 1 = (year, 3, 31).
Proof.
  intros Htz. unfold Run.localDate.
  assert (Hoff : tzOffset * 60000 / msPerDay = -1).
  { unfold msPerDay. Z.div_mod_to_equations. lia. }
  rewrite Hoff. change (?x + -1) with (x - 1). rewrite april_first.
  apply civil_round_trip; [lia|]. split; [lia|].
  rewrite (proj2 (proj2 (daysInMonth_bound year 3))); lia.
Qed.

Lemma written_day (e : Expense.t) (y m d : Z) :
  Run.writtenOn e = Some (y, m, d) →
  Expense.datePaid e ≫= Spec.dayOf = Some (days_from_civil y m d)
  ∧ Expense.datePaid e ≫= parseIsoDate = Some (y, m, d)
  ∧ 1 ≤ m ≤ 12 ∧ 1 ≤ d ≤ daysInMonth y m.
Proof.
  unfold Run.writtenOn, Spec.dayOf. intros Hw.
  destruct (Expense.datePaid e) as [paid|]; [|discriminate Hw].
  cbn [mbind option_bind] in *. rewrite Hw. cbn [mbind option_bind].
  destruct (parse_rank paid y m d Hw) as (_ & _ & _ & Hm & Hd). auto.
Qed.

Lemma range_test (f : ExpenseManager.Filter.t) (paid first last : Z) :
  Spec.dayOf (ExpenseManager.Filter.dateFrom f) = Some first →
  Spec.dayOf (ExpenseManager.Filter.dateTo f) = Some last →
  negb (isEmpty (ExpenseManager.Filter.dateFrom f))
  && negb (isEmpty (ExpenseManager.Filter.dateTo f)) = true
  ∧ (negb
       (dateLt (Some (paid * msPerDay))
               (setHours 0 0 0 0
                  (newDate (Some (ExpenseManager.Filter.dateFrom f))))
        || dateGt (Some (paid * msPerDay))
                  (setHours 23 59 59 999
                     (newDate (Some (ExpenseManager.Filter.dateTo f)))))
     = true
     ↔ first ≤ paid ≤ last).
Proof.
  intros Hfirst Hlast. split.
  - destruct (ExpenseManager.Filter.dateFrom f); [discriminate Hfirst|].
    destruct (ExpenseManager.Filter.dateTo f); [discriminate Hlast|].
    reflexivity.
  - rewrite !newDate_dayOf, Hfirst, Hlast.
    cbn [fmap option_fmap option_map]. apply range_on_days.
Qed.

Lemma half_year_example (e1 e2 e3 : Expense.t) :
  Expense.datePaid e1 = Some "2024-01-15"%string →
  Expense.datePaid e2 = Some "2024-04-10"%string →
  Expense.datePaid e3 = Some "2024-12-31"%string →
  ExpenseManager.filterExpenses
    (ExpenseManager.Filter.mk "all" None None "2024-01-01" "2024-06-30" "")
    [e1; e2; e3]
  = [e1; e2].
Proof.
  intros H1 H2 H3.
  set (f := ExpenseManager.Filter.mk "all" None None
                                     "2024-01-01" "2024-06-30" "").
  assert (Hk : ∀ e y m d,
             Run.writtenOn e = Some (y, m, d) →
             ExpenseManager.keeps f e = true
             ↔ 19723 ≤ days_from_civil y m d ≤ 19904).
  { intros e y m d Hw. rewrite (keeps_dated f e y m d Hw).
    destruct (range_test f (days_from_civil y m d) 19723 19904
                eq_refl eq_refl) as [-> ->].
    split; [tauto|]. intros Hin.
    split; [left; reflexivity|]. split; [left; reflexivity | exact Hin]. }
  assert (W1 : Run.writtenOn e1 = Some (2024, 1, 15))
    by (unfold Run.writtenOn; rewrite H1; reflexivity).
  assert (W2 : Run.writtenOn e2 = Some (2024, 4, 10))
    by (unfold Run.writtenOn; rewrite H2; reflexivity).
  assert (W3 : Run.writtenOn e3 = Some (2024, 12, 31))
    by (unfold Run.writtenOn; rewrite H3; reflexivity).
  unfold ExpenseManager.filterExpenses. cbn [List.filter].
  destruct (ExpenseManager.keeps f e1) eqn:K1;
    [| apply not_true_iff_false in K1; exfalso; apply K1;
       apply (Hk e1 _ _ _ W1); vm_compute; split; discriminate].
  destruct (ExpenseManager.keeps f e2) eqn:K2;
    [| apply not_true_iff_false in K2; exfalso; apply K2;
       apply (Hk e2 _ _ _ W2); vm_compute; split; discriminate].
  destruct (ExpenseManager.keeps f e3) eqn:K3; [|reflexivity].
  apply (Hk e3 _ _ _ W3) in K3. exfalso. revert K3. vm_compute.
  intros [_ Hle]. apply Hle. reflexivity.
Qed.

End WrittenDates.

(** C5.  The ledger's filter does not put every expense in the quarter that
    its date writes.  West of Greenwich (up to 12 hours behind) an expense
    paid on the first of April of a four-digit year, under a filter set to
    that year and to nothing else but a quarter, is dropped for quarter 2,
    the quarter of April to June, and kept for quarter 1: the date is read
    as midnight UTC, and there it is still the thirty-first of March.  The
    report, which selects by the text of the date, has the same expense in
    quarter 2. *)
Theorem filterExpenses_misplaces_the_first_of_April
        `{Host} (year : Z) (e : Expense.t) :
  -720 ≤ tzOffset < 0 → 1000 ≤ year ≤ 9999 →
  Expense.datePaid e = Some (numberToString year ++ "-04-01")%string →
  Run.writtenOn e = Some (year, 4, 1)
  ∧ ExpenseManager.filterExpenses (Run.quarterOf year 2) [e] = []
  ∧ ExpenseManager.filterExpenses (Run.quarterOf year 1) [e] = [e]
  ∧ ∀ w, e ∈ Idb.getAll (expenses (stores w)) →
         ∃ run stats,
           Database.getQuarterlyStats year 2 = Some run
           ∧ run w = (Ok stats, w)
           ∧ e ∈ QuarterlyStats.expenses stats.
Proof.
  intros Htz Hy Hs.
  assert (Hp : parseIsoDate (numberToString year ++ "-04-01")
               = Some (year, 4, 1)).
  { destruct (bound_rank year "0" "4" "0" "1" 0 4 0 1 Hy
                eq_refl eq_refl eq_refl eq_refl) as (_ & _ & Hp0).
    refine (eq_trans Hp0 _). reflexivity. }
  assert (He : Run.writtenOn e = Some (year, 4, 1)).
  { unfold Run.writtenOn. rewrite Hs. exact Hp. }
  pose proof (localDate_west year Htz) as Hlocal.
  split; [exact He|]. split; [|split].
  - unfold ExpenseManager.filterExpenses. cbn [List.filter].
    destruct (ExpenseManager.keeps (Run.quarterOf year 2) e) eqn:Hk;
      [|reflexivity].
    apply (keeps_dated _ e year 4 1 He) in Hk as (_ & _ & Hdate).
    unfold Run.quarterOf in Hdate.
    cbn [ExpenseManager.Filter.dateFrom ExpenseManager.Filter.dateTo
         ExpenseManager.Filter.year ExpenseManager.Filter.quarter
         isEmpty negb andb] in Hdate.
    rewrite Hlocal in Hdate. cbn [fst snd] in Hdate. lia.
  - unfold ExpenseManager.filterExpenses. cbn [List.filter].
    destruct (ExpenseManager.keeps (Run.quarterOf year 1) e) eqn:Hk;
      [reflexivity|].
    apply not_true_iff_false in Hk. exfalso. apply Hk.
    apply (keeps_dated _ e year 4 1 He).
    split; [left; reflexivity|]. split; [left; reflexivity|].
    unfold Run.quarterOf.
    cbn [ExpenseManager.Filter.dateFrom ExpenseManager.Filter.dateTo
         ExpenseManager.Filter.year ExpenseManager.Filter.quarter
         isEmpty negb andb].
    rewrite Hlocal. cbn [fst snd]. lia.
  - intros w Hw.
    destruct (getQuarterlyStats_run year 2 w Hy ltac:(lia))
      as (run & stats & Hrun & Hrw & _ & Hin).
    exists run, stats. split; [exact Hrun|]. split; [exact Hrw|].
    apply (Hin e year 4 1 He). split; [exact Hw|]. lia.
Qed.

Lemma filterExpenses_misplaces_the_first_of_April_witness :
  -720 ≤ @tzOffset Sample.west < 0 ∧ 1000 ≤ 2024 ≤ 9999
  ∧ Expense.datePaid (Sample.paidOn "2024-04-01")
    = Some (numberToString 2024 ++ "-04-01")%string
  ∧ @ExpenseManager.filterExpenses Sample.west
      (ExpenseManager.Filter.mk "all" (Some 2024) (Some 2) "" "" "")
      [Sample.paidOn "2024-04-01"]
    = []
  ∧ @ExpenseManager.filterExpenses Sample.west
      (ExpenseManager.Filter.mk "all" (Some 2024) (Some 1) "" "" "")
      [Sample.paidOn "2024-04-01"]
    = [Sample.paidOn "2024-04-01"].
Proof.
  assert (Htz : -720 ≤ @tzOffset Sample.west < 0) by (cbn; lia).
  split; [exact Htz|]. split; [lia|]. split; [reflexivity|].
  destruct (@filterExpenses_misplaces_the_first_of_April Sample.west 2024
              (Sample.paidOn "2024-04-01") Htz ltac:(lia) eq_refl)
    as (_ & Hsecond & Hfirst & _).
  split; [exact Hsecond | exact Hfirst].
Defined.

(** X24.  On the dates as they are written, the ledger's filter is the
    conjunction of three predicates: an expense whose date is a date passes
    exactly when it is of the filter's category (or the filter is set to
    [all]), lies in the filter's period, and holds the search term without
    regard to case (or there is none).  The period is the range, both days
    included, when both of its ends are set, whatever year and quarter say,
    and in any time zone; else the year and, only under a year, the quarter
    of three months, at or east of Greenwich. *)
Theorem filterExpenses_by_category_date_and_search
        `{Host} (f : ExpenseManager.Filter.t) (l : list Expense.t)
        (e : Expense.t) :
  Run.dated e →
  (ExpenseManager.Filter.dateFrom f = ""%string
   ∨ ExpenseManager.Filter.dateTo f = ""%string
   ∨ (is_Some (Spec.dayOf (ExpenseManager.Filter.dateFrom f))
      ∧ is_Some (Spec.dayOf (ExpenseManager.Filter.dateTo f)))) →
  ((ExpenseManager.Filter.dateFrom f ≠ ""%string
    ∧ ExpenseManager.Filter.dateTo f ≠ ""%string)
   ∨ ExpenseManager.Filter.year f = None
   ∨ 0 ≤ tzOffset ≤ 840) →
  In e (ExpenseManager.filterExpenses f l)
  ↔ In e l ∧ Spec.inCategory f e ∧ Spec.inPeriod f e
    ∧ Spec.matchesSearch f e.
Proof.
  intros [t Ht] Hreadable Hzone.
  unfold Run.paidAt, newDate in Ht.
  destruct (Expense.datePaid e) as [paid|] eqn:Hpaid; [|discriminate Ht].
  cbn [mbind option_bind] in Ht.
  destruct (parseIsoDate paid) as [[[y m] d]|] eqn:Hp; [|discriminate Ht].
  assert (Hw : Run.writtenOn e = Some (y, m, d)).
  { unfold Run.writtenOn. rewrite Hpaid. exact Hp. }
  destruct (written_day e y m d Hw) as (Hday & Hparse & Hm & Hd).
  rewrite Hpaid in Hday, Hparse.
  unfold ExpenseManager.filterExpenses.
  rewrite filter_In, (keeps_dated f e y m d Hw).
  unfold Spec.inPeriod. rewrite Hpaid, Hday, Hparse.
  destruct (isEmpty (ExpenseManager.Filter.dateFrom f)) eqn:Hfrom;
    [apply isEmpty_true in Hfrom | apply isEmpty_false in Hfrom];
    cbn [negb andb];
    [|destruct (isEmpty (ExpenseManager.Filter.dateTo f)) eqn:Hto;
      [apply isEmpty_true in Hto | apply isEmpty_false in Hto]];
    cbn [negb andb].
  3:{ (* a range *)
    destruct Hreadable as [Hno | [Hno | [[first Hfirst] [last Hlast]]]];
      [contradiction | contradiction |].
    destruct (range_test f (days_from_civil y m d) first last Hfirst Hlast)
      as [_ ->].
    split.
    - intros (Hl & Hc & Hs & Hin). repeat (split; [assumption|]).
      split; [|exact Hs]. left.
      repeat (split; [assumption|]).
      exists (days_from_civil y m d), first, last. auto.
    - intros (Hl & Hc & [(_ & _ & p & f0 & l0 & Hp0 & Hf0 & Hl0 & Hin)
                        | [[Hno | Hno] _]] & Hs);
        [|contradiction | contradiction].
      repeat (split; [assumption|]).
      injection Hp0 as <-. rewrite Hfirst in Hf0. rewrite Hlast in Hl0.
      injection Hf0 as <-. injection Hl0 as <-. exact Hin. }
  all: assert (Hopen : ExpenseManager.Filter.dateFrom f = ""%string
                       ∨ ExpenseManager.Filter.dateTo f = ""%string)
         by auto.
  all: destruct (ExpenseManager.Filter.year f) as [year|] eqn:Hyear;
    [|split;
      [intros (Hl & Hc & Hs & _); repeat (split; [assumption|]);
       split; [right; auto | exact Hs]
      |intros (Hl & Hc & _ & Hs); auto]].
  all: assert (Heast : 0 ≤ tzOffset ≤ 840)
         by (destruct Hzone as [[Hf0 Ht0] | [Hnone | Heast]];
             [destruct Hopen; contradiction | discriminate Hnone
             | exact Heast]).
  all: rewrite (localDate_east y m d Heast Hm Hd); cbn [fst snd].
  all: split;
    [intros (Hl & Hc & Hs & <- & Hq); repeat (split; [assumption|]);
     split; [right; split; [exact Hopen|]; exists m, d; auto | exact Hs]
    |intros (Hl & Hc & [(Hf0 & Ht0 & _) | (_ & m' & d' & Heq & Hq)] & Hs);
     [destruct Hopen; contradiction|];
     injection Heq as <- <- <-; auto].
Qed.

Lemma filterExpenses_by_category_date_and_search_witness :
  Run.dated Sample.internetBill
  ∧ 0 ≤ @tzOffset Sample.host ≤ 840
  ∧ In Sample.internetBill
       (@ExpenseManager.filterExpenses Sample.host
          (ExpenseManager.Filter.mk "Internet" (Some 2024) (Some 2) "" ""
                                    "TEL")
          [Sample.internetBill])
  ∧ Spec.inPeriod
      (ExpenseManager.Filter.mk "Internet" (Some 2024) (Some 2) "" "" "TEL")
      Sample.internetBill
  ∧ @Spec.matchesSearch Sample.host
      (ExpenseManager.Filter.mk "Internet" (Some 2024) (Some 2) "" "" "TEL")
      Sample.internetBill.
Proof.
  assert (Hd : Run.dated Sample.internetBill) by (vm_compute; eauto).
  assert (Htz : 0 ≤ @tzOffset Sample.host ≤ 840) by (cbn; lia).
  split; [exact Hd|]. split; [exact Htz|].
  assert (Hin : In Sample.internetBill
                   (@ExpenseManager.filterExpenses Sample.host
                      (ExpenseManager.Filter.mk "Internet" (Some 2024)
                                                (Some 2) "" "" "TEL")
                      [Sample.internetBill]))
    by (vm_compute; auto).
  split; [exact Hin|].
  apply (@filterExpenses_by_category_date_and_search Sample.host
           (ExpenseManager.Filter.mk "Internet" (Some 2024) (Some 2) "" ""
                                     "TEL")
           [Sample.internetBill] Sample.internetBill Hd
           (or_introl eq_refl) (or_intror (or_intror Htz))) in Hin
    as (_ & _ & Hperiod & Hsearch).
  split; [exact Hperiod | exact Hsearch].
Defined.

(** X25.  The example of the filtering contract holds in every time zone
    from twelve hours behind Greenwich to fourteen ahead: of expenses dated
    2024-01-15, 2024-04-10 and 2024-12-31, year 2024 with quarter 1 keeps
    the first only, and the range from 2024-01-01 to 2024-06-30 keeps the
    first two. *)
Theorem filterExpenses_examples_in_every_zone
        `{Host} (e1 e2 e3 : Expense.t) :
  -720 ≤ tzOffset ≤ 840 →
  Expense.datePaid e1 = Some "2024-01-15"%string →
  Expense.datePaid e2 = Some "2024-04-10"%string →
  Expense.datePaid e3 = Some "2024-12-31"%string →
  ExpenseManager.filterExpenses
    (ExpenseManager.Filter.mk "all" (Some 2024) (Some 1) "" "" "")
    [e1; e2; e3]
  = [e1]
  ∧ ExpenseManager.filterExpenses
      (ExpenseManager.Filter.mk "all" None None "2024-01-01" "2024-06-30" "")
      [e1; e2; e3]
    = [e1; e2].
Proof.
  intros Htz H1 H2 H3. split.
  - apply first_quarter_example; assumption.
  - apply half_year_example; assumption.
Qed.

Lemma filterExpenses_examples_in_every_zone_witness :
  -720 ≤ @tzOffset Sample.west ≤ 840
  ∧ @ExpenseManager.filterExpenses Sample.west
      (ExpenseManager.Filter.mk "all" (Some 2024) (Some 1) "" "" "")
      [Sample.paidOn "2024-01-15"; Sample.paidOn "2024-04-10";
       Sample.paidOn "2024-12-31"]
    = [Sample.paidOn "2024-01-15"]
  ∧ @ExpenseManager.filterExpenses Sample.west
      (ExpenseManager.Filter.mk "all" None None "2024-01-01" "2024-06-30" "")
      [Sample.paidOn "2024-01-15"; Sample.paidOn "2024-04-10";
       Sample.paidOn "2024-12-31"]
    = [Sample.paidOn "2024-01-15"; Sample.paidOn "2024-04-10"].
Proof.
  assert (Htz : -720 ≤ @tzOffset Sample.west ≤ 840) by (cbn; lia).
  split; [exact Htz|].
  exact (@filterExpenses_examples_in_every_zone Sample.west
           (Sample.paidOn "2024-01-15") (Sample.paidOn "2024-04-10")
           (Sample.paidOn "2024-12-31") Htz eq_refl eq_refl eq_refl).
Defined.
